(** * ChatBuilder: the chat widget's synchronisation engine

    A shallow embedding of [src/components/ChatBuilder.tsx]: the React
    component that resolves the customer's identity, finds or creates the
    conversation, joins its realtime channel, reconciles optimistic sends
    with the server's echoes and tracks which messages were seen.

    Conventions of the embedding.
    - A JavaScript field that may be [undefined], [null] or a string is a
      value of [js string]; truthiness and [===] are [truthy] and
      [strict_eq].
    - The component instance ([this.state], [this.channel]), the page's
      visibility and everything the component does to the outside
      (notifications to the host page, channel traffic, backend requests,
      timers, log lines) live in a [World]; a handler is a computation in
      the monad [M], which threads the world and may throw.
    - [setState] takes effect at once and its callback runs right after it;
      an [await] continues at once with the backend's answer.  A handler
      runs to completion before the next event is handled.
    - The callbacks the component registers (on the window, the document,
      the channels, the presence and the timer) are the events of an
      execution; the replies to a channel's join are log lines only and
      are left out.
    - The clock, the backend and the helpers imported from [../helpers]
      are parameters of the development.
    - The methods that only render ([render], [renderEmbeddedGame],
      [askForEmailUpfront], [handleGameLoaded]) are not part of the engine;
      of [renderUnreadMessages] the list of previews it displays is
      modelled, not the markup around them. *)

From Stdlib Require Import String Ascii List ZArith Bool Arith Lia.
From Stdlib Require Import Permutation Sorted DecimalString.
Import ListNotations.

Local Open Scope string_scope.
Local Open Scope list_scope.

(** ** JavaScript values *)

Inductive js (A : Type) : Type :=
| Undefined
| Null
| Val (a : A).

Arguments Undefined {A}.
Arguments Null {A}.
Arguments Val {A} a.

(** [!!v] for a field holding a string. *)
Definition truthy (v : js string) : bool :=
  match v with
  | Val s => negb (s =? "")
  | _ => false
  end.

(** [x === y] on such fields. *)
Definition strict_eq (x y : js string) : bool :=
  match x, y with
  | Undefined, Undefined => true
  | Null, Null => true
  | Val a, Val b => a =? b
  | _, _ => false
  end.

(** [String(v)], as a template literal renders it. *)
Definition to_string (v : js string) : string :=
  match v with
  | Undefined => "undefined"
  | Null => "null"
  | Val s => s
  end.

(** White space as [String.prototype.trim] sees it, for code units below
    256: TAB, LF, VT, FF, CR, SP and NBSP. *)
Definition is_ws (c : ascii) : bool :=
  let n := nat_of_ascii c in
  ((9 <=? n)%nat && (n <=? 13)%nat) || (n =? 32)%nat || (n =? 160)%nat.

Fixpoint trimStart (s : string) : string :=
  match s with
  | EmptyString => EmptyString
  | String c r => if is_ws c then trimStart r else s
  end.

Fixpoint trimEnd (s : string) : string :=
  match s with
  | EmptyString => EmptyString
  | String c r =>
      match trimEnd r with
      | EmptyString => if is_ws c then EmptyString else String c EmptyString
      | r' => String c r'
      end
  end.

Definition trim (s : string) : string := trimEnd (trimStart s).

(** ** Dates *)

(** A reading of the clock, broken down in UTC. *)
Record Date := mkDate {
  year : N; month : N; day : N;
  hours : N; minutes : N; seconds : N; millis : N
}.

Definition digits (n : N) : string := NilEmpty.string_of_uint (N.to_uint n).

Fixpoint zeros (k : nat) : string :=
  match k with
  | O => ""
  | S k' => String "0" (zeros k')
  end.

Definition pad (width : nat) (n : N) : string :=
  let d := digits n in zeros (width - String.length d) ++ d.

(** [Date.prototype.toISOString]: [YYYY-MM-DDTHH:mm:ss.sssZ]. *)
Definition toISOString (d : Date) : string :=
  pad 4 (year d) ++ "-" ++ pad 2 (month d) ++ "-" ++ pad 2 (day d) ++ "T" ++
  pad 2 (hours d) ++ ":" ++ pad 2 (minutes d) ++ ":" ++ pad 2 (seconds d) ++
  "." ++ pad 3 (millis d) ++ "Z".

(** ** The data model *)

(** Modelled from the spec: the [Message] type of [../helpers/types], with
    the fields the component reads and writes. *)
Record Message := mkMessage {
  id : js string;
  body : js string;
  file_ids : option (list string);
  customer_id : js string;
  user_id : js string;
  type : js string;
  sent_at : js string;
  created_at : js string;
  seen_at : js string;
  conversation_id : js string
}.

(** Modelled from the spec: [CustomerMetadata] of [../helpers/api]. *)
Record CustomerMetadata := mkMetadata {
  name : js string;
  email : js string;
  host : js string;
  external_id : js string
}.

Record Conversation := mkConversation {
  conv_id : js string;
  conv_messages : list Message
}.

(** The part of [Config] the engine reads. *)
Record Config := mkConfig {
  accountId : string;
  cfg_customerId : js string;
  baseUrl : js string;
  greeting : js string;
  customer : option CustomerMetadata
}.

(** What the presence of an agent tells: the agent's [user_id]. *)
Record AgentInfo := mkAgentInfo {
  agent_user_id : js string
}.

Record State := mkState {
  messages : list Message;
  customerId : js string;
  conversationId : js string;
  availableAgents : list AgentInfo;
  isSending : bool;
  isOpen : bool;
  isTransitioning : bool;
  isGameMode : bool;
  shouldDisplayNotifications : bool;
  shouldDisplayBranding : bool
}.

(** The constructor's [this.state]. *)
Definition initialState : State :=
  mkState [] Null Null [] false false false false false false.

(** ** The outside world *)

(** What a channel of the socket is for: the room of the account, the
    lobby of a customer or a conversation. *)
Inductive role := RoomChannel | LobbyChannel | ConversationChannel.

(** A channel object of the socket: what it is for, its topic and the
    parameters it joins with. *)
Record Channel := mkChannel {
  chan_role : role;
  topic : string;
  chan_customer_id : js string
}.

Inductive payload :=
| NoPayload
| EmptyObject
| CustomerId (c : js string)
| Joined (conversation customer : js string)
| OfMessage (m : Message)
| Wrapped (m : Message).

Inductive api_call :=
| IsValidCustomer (customer : string) (account : string)
| FindCustomerByExternalId (external : js string) (account : string)
    (email host : js string)
| FetchCustomerConversations (customer : js string) (account : string)
| CreateNewCustomer (account : string) (metadata : option CustomerMetadata)
| UpdateCustomerMetadata (customer : js string)
    (metadata : option CustomerMetadata)
| CreateNewConversation (account : string) (customer : js string).

Inductive level := Debug | Warn | Error.

Inductive effect :=
| PostMessage (event : string) (p : payload)
| ChannelJoin (c : Channel)
| ChannelLeave (c : Channel)
| ChannelPush (c : Channel) (event : string) (p : payload)
| SocketConnect (url : js string)
| SetTimeout (milliseconds : nat)
| Request (call : api_call)
| ScrollIntoView
| Logged (l : level) (text : string).

Record World := mkWorld {
  state : State;
  channel : option Channel;
  hidden : bool;
  ticks : nat;
  log : list effect
}.

Definition initialWorld : World := mkWorld initialState None false 0 [].

(** What a backend request comes back with. *)
Inductive response (A : Type) : Type :=
| Ok (a : A)
| Failed.

Arguments Ok {A} a.
Arguments Failed {A}.

Record Api := mkApi {
  isValidCustomer_api : string -> string -> response bool;
  findCustomerByExternalId :
    js string -> string -> js string -> js string -> response (js string);
  fetchCustomerConversations :
    js string -> string -> response (list Conversation);
  createNewCustomer :
    string -> option CustomerMetadata -> response (js string);
  updateCustomerMetadata :
    js string -> option CustomerMetadata -> response (js string);
  createNewConversation : string -> js string -> response (js string)
}.

(** ** The monad of handlers *)

Inductive result (A : Type) : Type :=
| Returned (a : A)
| Thrown.

Arguments Returned {A} a.
Arguments Thrown {A}.

Definition M (A : Type) : Type := World -> result A * World.

Definition ret {A} (a : A) : M A := fun w => (Returned a, w).

Definition bind {A B} (m : M A) (k : A -> M B) : M B :=
  fun w =>
    match m w with
    | (Returned a, w') => k a w'
    | (Thrown, w') => (Thrown, w')
    end.

Definition throw {A} : M A := fun w => (Thrown, w).

(** [try { body } catch (err) { handler }]. *)
Definition try_catch {A} (body handler : M A) : M A :=
  fun w =>
    match body w with
    | (Returned a, w') => (Returned a, w')
    | (Thrown, w') => handler w'
    end.

Declare Scope monad_scope.
Delimit Scope monad_scope with monad.
Notation "x <- m ;; k" := (bind m (fun x => k))
  (at level 61, m at next level, right associativity) : monad_scope.
Notation "m ;; k" := (bind m (fun _ => k))
  (at level 61, right associativity) : monad_scope.
Local Open Scope monad_scope.

Definition getState : M State := fun w => (Returned (state w), w).

Definition getChannel : M (option Channel) :=
  fun w => (Returned (channel w), w).

Definition setState (f : State -> State) : M unit :=
  fun w =>
    (Returned tt,
     mkWorld (f (state w)) (channel w) (hidden w) (ticks w) (log w)).

Definition setChannel (c : Channel) : M unit :=
  fun w =>
    (Returned tt, mkWorld (state w) (Some c) (hidden w) (ticks w) (log w)).

Definition perform (e : effect) : M unit :=
  fun w =>
    (Returned tt,
     mkWorld (state w) (channel w) (hidden w) (ticks w) (log w ++ [e])).

(** [isWindowHidden(document)]. *)
Definition isWindowHidden : M bool := fun w => (Returned (hidden w), w).

Definition when (b : bool) (m : M unit) : M unit := if b then m else ret tt.

(** Field updates of [this.state]. *)
Definition set_messages (ms : list Message) (s : State) : State :=
  mkState ms (customerId s) (conversationId s) (availableAgents s)
    (isSending s) (isOpen s) (isTransitioning s) (isGameMode s)
    (shouldDisplayNotifications s) (shouldDisplayBranding s).

Definition set_customerId (c : js string) (s : State) : State :=
  mkState (messages s) c (conversationId s) (availableAgents s)
    (isSending s) (isOpen s) (isTransitioning s) (isGameMode s)
    (shouldDisplayNotifications s) (shouldDisplayBranding s).

Definition set_conversationId (c : js string) (s : State) : State :=
  mkState (messages s) (customerId s) c (availableAgents s)
    (isSending s) (isOpen s) (isTransitioning s) (isGameMode s)
    (shouldDisplayNotifications s) (shouldDisplayBranding s).

Definition set_availableAgents (a : list AgentInfo) (s : State) : State :=
  mkState (messages s) (customerId s) (conversationId s) a
    (isSending s) (isOpen s) (isTransitioning s) (isGameMode s)
    (shouldDisplayNotifications s) (shouldDisplayBranding s).

Definition set_isOpen (b : bool) (s : State) : State :=
  mkState (messages s) (customerId s) (conversationId s) (availableAgents s)
    (isSending s) b (isTransitioning s) (isGameMode s)
    (shouldDisplayNotifications s) (shouldDisplayBranding s).

Definition set_isTransitioning (b : bool) (s : State) : State :=
  mkState (messages s) (customerId s) (conversationId s) (availableAgents s)
    (isSending s) (isOpen s) b (isGameMode s)
    (shouldDisplayNotifications s) (shouldDisplayBranding s).

Definition set_isGameMode (b : bool) (s : State) : State :=
  mkState (messages s) (customerId s) (conversationId s) (availableAgents s)
    (isSending s) (isOpen s) (isTransitioning s) b
    (shouldDisplayNotifications s) (shouldDisplayBranding s).

Definition set_shouldDisplayNotifications (b : bool) (s : State) : State :=
  mkState (messages s) (customerId s) (conversationId s) (availableAgents s)
    (isSending s) (isOpen s) (isTransitioning s) (isGameMode s)
    b (shouldDisplayBranding s).

Definition set_shouldDisplayBranding (b : bool) (s : State) : State :=
  mkState (messages s) (customerId s) (conversationId s) (availableAgents s)
    (isSending s) (isOpen s) (isTransitioning s) (isGameMode s)
    (shouldDisplayNotifications s) b.

Definition set_conversation (customer conversation : js string) (s : State)
  : State :=
  set_conversationId conversation (set_customerId customer s).

(** [xs.map(f)] and [xs.some(p)] for callbacks that run in the monad. *)
Fixpoint mapM {A B} (f : A -> M B) (l : list A) : M (list B) :=
  match l with
  | [] => ret []
  | x :: r => y <- f x ;; ys <- mapM f r ;; ret (y :: ys)
  end.

Fixpoint someM {A} (p : A -> M bool) (l : list A) : M bool :=
  match l with
  | [] => ret false
  | x :: r => b <- p x ;; if b then ret true else someM p r
  end.

(** ** The component *)

Section Component.

(** [this.props.config] and [this.props.version]. *)
Variable config : Config.
Variable version : js string.

(** The n-th reading of the clock. *)
Variable clock : nat -> Date.

(** The backend, which may answer by everything that happened so far. *)
Variable backend : list effect -> Api.

(** Helpers of [../helpers/utils] and the numeric value of a date,
    [+new Date(x)], where [None] stands for [NaN]. *)
Variable areDatesEqual : js string -> js string -> bool.
Variable isValidUuid : string -> bool.
Variable shouldActivateGameMode : js string -> bool.
Variable timeValue : js string -> option Z.

(** [new Date()] reads the clock once. *)
Definition new_Date : M Date :=
  fun w =>
    (Returned (clock (ticks w)),
     mkWorld (state w) (channel w) (hidden w) (S (ticks w)) (log w)).

(** [new Date().toISOString()]. *)
Definition now_iso : M (js string) :=
  d <- new_Date ;; ret (Val (toISOString d)).

(** [await API.call(...)]: the request goes out; a failure is thrown. *)
Definition call {A} (c : api_call) (answer : Api -> response A) : M A :=
  fun w =>
    let w' :=
      mkWorld (state w) (channel w) (hidden w) (ticks w)
        (log w ++ [Request c]) in
    match answer (backend (log w)) with
    | Ok a => (Returned a, w')
    | Failed => (Thrown, w')
    end.

Definition emit (event : string) (p : payload) : M unit :=
  perform (Logged Debug "Sending event from iframe:") ;;
  perform (PostMessage event p).

Definition scrollIntoView : M unit := perform ScrollIntoView.

Definition listenForNewConversations (customerId : js string) : M unit :=
  perform
    (ChannelJoin
       (mkChannel LobbyChannel
          ("conversation:lobby:" ++ to_string customerId) Undefined)).

Definition getDefaultGreeting : M (list Message) :=
  if negb (truthy (greeting config)) then ret []
  else
    created <- now_iso ;;
    seen <- now_iso ;;
    ret [ mkMessage Undefined (greeting config) None (Val "bot") Undefined
            (Val "bot") Undefined created seen Undefined ].

Definition isValidCustomer (customerId : js string) : M bool :=
  match customerId with
  | Val s =>
      if (String.length s =? 0)%nat then ret false
      else if negb (isValidUuid s) then ret false
      else
        try_catch
          (call (IsValidCustomer s (accountId config))
             (fun api => isValidCustomer_api api s (accountId config)))
          (perform (Logged Warn "Failed to validate customer ID.") ;;
           perform
             (Logged Warn "You might be on an older version of Papercups.") ;;
           ret true)
  | _ => ret false
  end.

Definition checkForExistingCustomer (metadata : option CustomerMetadata)
    (defaultCustomerId : js string) : M (js string) :=
  match metadata with
  | None =>
      setState (set_customerId defaultCustomerId) ;; ret defaultCustomerId
  | Some md =>
      if negb (truthy (external_id md)) then
        setState (set_customerId defaultCustomerId) ;; ret defaultCustomerId
      else
        matchingCustomerId <-
          call
            (FindCustomerByExternalId (external_id md) (accountId config)
               (email md) (host md))
            (fun api =>
               findCustomerByExternalId api (external_id md)
                 (accountId config) (email md) (host md)) ;;
        if negb (truthy matchingCustomerId) then
          setState (set_customerId Null) ;; ret Null
        else if strict_eq matchingCustomerId defaultCustomerId then
          setState (set_customerId defaultCustomerId) ;;
          ret defaultCustomerId
        else
          setState (set_customerId matchingCustomerId) ;;
          emit "customer:updated" (CustomerId matchingCustomerId) ;;
          ret matchingCustomerId
  end.

Definition updateExistingCustomer (customerId : js string)
    (metadata : option CustomerMetadata) : M unit :=
  match metadata with
  | None => ret tt
  | Some _ =>
      try_catch
        (call (UpdateCustomerMetadata customerId metadata)
           (fun api => updateCustomerMetadata api customerId metadata) ;;
         ret tt)
        (perform (Logged Debug "Error updating customer metadata!"))
  end.

Definition joinConversationChannel (conversationId customerId : js string)
  : M unit :=
  previous <- getChannel ;;
  match previous with
  | Some c => perform (ChannelLeave c)
  | None => ret tt
  end ;;
  perform (Logged Debug "Joining channel:") ;;
  let c :=
    mkChannel ConversationChannel
      ("conversation:" ++ to_string conversationId) customerId in
  setChannel c ;;
  perform (ChannelJoin c) ;;
  emit "conversation:join" (Joined conversationId customerId) ;;
  scrollIntoView.

Definition emitUnseenMessage (message : Message) : M unit :=
  emit "messages:unseen" (Wrapped message).

(** The comparator of the sort: [+new Date(a.created_at) -
    +new Date(b.created_at)], where the sort reads [NaN] as [0]. *)
Definition compareCreatedAt (a b : Message) : Z :=
  match timeValue (created_at a), timeValue (created_at b) with
  | Some x, Some y => x - y
  | _, _ => 0
  end.

(** [Array.prototype.sort] is stable: an element goes before the first
    one it does not compare greater than.  Where a [created_at] is not a
    date the comparator is not consistent and the order is left to the
    engine; the model then takes this insertion, and what is stated of the
    order is stated for histories whose [created_at] are all dates. *)
Fixpoint insert (x : Message) (l : list Message) : list Message :=
  match l with
  | [] => [x]
  | y :: r =>
      if (compareCreatedAt x y <=? 0)%Z then x :: y :: r
      else y :: insert x r
  end.

Fixpoint sort (l : list Message) : list Message :=
  match l with
  | [] => []
  | x :: r => insert x (sort r)
  end.

Definition isUnseenAgentMessage (msg : Message) : bool :=
  negb (truthy (seen_at msg)) && truthy (user_id msg).

Definition fetchLatestConversation (cachedCustomerId : js string)
    (metadata : option CustomerMetadata) : M unit :=
  customerId <- checkForExistingCustomer metadata cachedCustomerId ;;
  if negb (truthy customerId) then
    g <- getDefaultGreeting ;; setState (set_messages g)
  else
    perform (Logged Debug "Fetching conversations for customer:") ;;
    try_catch
      (conversations <-
         call (FetchCustomerConversations customerId (accountId config))
           (fun api =>
              fetchCustomerConversations api customerId (accountId config)) ;;
       perform (Logged Debug "Found existing conversations:") ;;
       match conversations with
       | [] =>
           g <- getDefaultGreeting ;;
           setState (set_messages g) ;;
           listenForNewConversations customerId
       | latest :: _ =>
           let conversationId := conv_id latest in
           let formattedMessages := sort (conv_messages latest) in
           g <- getDefaultGreeting ;;
           setState
             (fun s =>
                set_messages (g ++ formattedMessages)
                  (set_conversationId conversationId s)) ;;
           joinConversationChannel conversationId customerId ;;
           updateExistingCustomer customerId metadata ;;
           match filter isUnseenAgentMessage formattedMessages with
           | firstUnseenMessage :: _ => emitUnseenMessage firstUnseenMessage
           | [] => ret tt
           end
       end)
      (perform (Logged Debug "Error fetching conversations!")).

(** [{...customer, email}]. *)
Definition with_email (c : option CustomerMetadata) (e : js string)
  : CustomerMetadata :=
  match c with
  | Some md => mkMetadata (name md) e (host md) (external_id md)
  | None => mkMetadata Undefined e Undefined Undefined
  end.

Definition createOrUpdateCustomer (account : string)
    (existingCustomerId email : js string) : M (js string) :=
  let metadata :=
    if truthy email then Some (with_email (customer config) email)
    else customer config in
  try_catch
    (customerId <-
       (if truthy existingCustomerId then
          call (UpdateCustomerMetadata existingCustomerId metadata)
            (fun api => updateCustomerMetadata api existingCustomerId metadata)
        else
          call (CreateNewCustomer account metadata)
            (fun api => createNewCustomer api account metadata)) ;;
     when (negb (truthy existingCustomerId))
       (emit "customer:created" (CustomerId customerId)) ;;
     ret customerId)
    (perform (Logged Error "Failed to update or create customer:") ;;
     perform (Logged Error "Retrying...") ;;
     customerId <-
       call (CreateNewCustomer account metadata)
         (fun api => createNewCustomer api account metadata) ;;
     emit "customer:created" (CustomerId customerId) ;;
     ret customerId).

Definition initializeNewConversation (existingCustomerId email : js string)
  : M (js string * js string) :=
  customerId <-
    createOrUpdateCustomer (accountId config) existingCustomerId email ;;
  conversationId <-
    call (CreateNewConversation (accountId config) customerId)
      (fun api => createNewConversation api (accountId config) customerId) ;;
  setState (set_conversation customerId conversationId) ;;
  joinConversationChannel conversationId customerId ;;
  ret (customerId, conversationId).

(** The predicate of [messages.find] in [handleNewMessage]. *)
Definition isUnsent (message m : Message) : bool :=
  negb (truthy (created_at m)) &&
  areDatesEqual (sent_at m) (sent_at message) &&
  (strict_eq (body m) (body message) ||
   (negb (truthy (body m)) && negb (truthy (body message)))).

(** The new timeline of [handleNewMessage]. *)
Definition reconcile (message : Message) (messages : list Message)
  : list Message :=
  match find (isUnsent message) messages with
  | Some unsent =>
      map
        (fun m => if strict_eq (sent_at m) (sent_at unsent) then message else m)
        messages
  | None => messages ++ [message]
  end.

Definition shouldMarkAsSeen (message : Message) : M bool :=
  s <- getState ;;
  let isAgentMessage := truthy (user_id message) in
  if truthy (seen_at message) then ret false
  else
    h <- isWindowHidden ;;
    if h then ret false else ret (isAgentMessage && isOpen s).

Definition with_seen_at (t : js string) (msg : Message) : Message :=
  mkMessage (id msg) (body msg) (file_ids msg) (customer_id msg)
    (user_id msg) (type msg) (sent_at msg) (created_at msg) t
    (conversation_id msg).

(** The callback of [messages.map] in [markMessagesAsSeen]. *)
Definition stamp (msg : Message) : M Message :=
  if truthy (seen_at msg) then ret msg
  else t <- now_iso ;; ret (with_seen_at t msg).

Definition markMessagesAsSeen : M unit :=
  s <- getState ;;
  ch <- getChannel ;;
  match ch with
  | None => ret tt
  | Some c =>
      if negb (truthy (customerId s)) || negb (truthy (conversationId s))
      then ret tt
      else
        perform (Logged Debug "Marking messages as seen!") ;;
        perform (ChannelPush c "messages:seen" EmptyObject) ;;
        emit "messages:seen" EmptyObject ;;
        stamped <- mapM stamp (messages s) ;;
        setState (set_messages stamped)
  end.

Definition handleNewMessage (message : Message) : M unit :=
  emit "message:received" (OfMessage message) ;;
  s <- getState ;;
  let unsent := find (isUnsent message) (messages s) in
  setState (set_messages (reconcile message (messages s))) ;;
  scrollIntoView ;;
  seen <- shouldMarkAsSeen message ;;
  if seen then markMessagesAsSeen
  else
    match unsent with
    | None => emitUnseenMessage message
    | Some _ => ret tt
    end.

(** The message [handleSendMessage] builds from the draft:
    [{...message, body, customer_id, type, sent_at}] and, for the host
    page, [conversation_id]. *)
Definition outgoing (message : Message) (customer kind sentAt
    conversation : js string) : Message :=
  mkMessage (id message) (body message) (file_ids message) customer
    (user_id message) kind sentAt (created_at message) (seen_at message)
    conversation.

Definition isMissingBody (b : js string) : bool :=
  match b with
  | Val s => negb (truthy b) || (String.length (trim s) =? 0)%nat
  | _ => true
  end.

Definition isMissingAttachments (f : option (list string)) : bool :=
  match f with
  | Some l => (List.length l =? 0)%nat
  | None => true
  end.

Definition handleSendMessage (message : Message) (email : js string)
  : M unit :=
  s <- getState ;;
  let shouldSkipSending :=
    isMissingBody (body message) && isMissingAttachments (file_ids message) in
  if isSending s || shouldSkipSending then ret tt
  else if shouldActivateGameMode (body message) then
    setState (set_isGameMode true)
  else
    sentAt <- now_iso ;;
    let payload :=
      outgoing message (customerId s) (Val "customer") sentAt
        (conversation_id message) in
    now <- getState ;;
    setState (set_messages (messages now ++ [payload])) ;;
    scrollIntoView ;;
    (if negb (truthy (customerId s)) || negb (truthy (conversationId s))
     then initializeNewConversation (customerId s) email ;; ret tt
     else ret tt) ;;
    ch <- getChannel ;;
    match ch with
    | None => ret tt
    | Some c =>
        after <- getState ;;
        perform
          (ChannelPush c "shout"
             (OfMessage
                (outgoing message (customerId after) (type message) sentAt
                   (conversation_id message)))) ;;
        emit "message:sent"
          (OfMessage
             (outgoing message (customerId after) (Val "customer") sentAt
                (conversationId after)))
    end.

Definition handleVisibilityChange : M unit :=
  h <- isWindowHidden ;;
  if h then ret tt
  else
    s <- getState ;;
    shouldMarkSeen <- someM shouldMarkAsSeen (messages s) ;;
    if shouldMarkSeen then markMessagesAsSeen else ret tt.

Definition handleToggleDisplay (open : bool) : M unit :=
  setState (fun s => set_isTransitioning false (set_isOpen open s)) ;;
  handleVisibilityChange ;;
  when open scrollIntoView.

Definition componentWillUnmount : M unit :=
  ch <- getChannel ;;
  match ch with
  | Some c => perform (ChannelLeave c)
  | None => ret tt
  end.

Definition listenForAgentAvailability : M unit :=
  perform
    (ChannelJoin
       (mkChannel RoomChannel ("room:" ++ accountId config) Undefined)).

(** The callback of [presence.onSync], given [presence.list()] as the
    [metas] of each tracked entity: reading the [user_id] of an entity
    without metas throws. *)
Definition syncPresence (list_ : list (list AgentInfo)) : M unit :=
  perform (Logged Debug "Syncing presence:") ;;
  infos <-
    mapM
      (fun metas =>
         match metas with
         | info :: _ => ret info
         | [] => throw
         end)
      list_ ;;
  setState
    (set_availableAgents
       (filter (fun info => truthy (agent_user_id info)) infos)).

(** The callback of the lobby's [conversation:created]: the fetch is put
    off by a second. *)
Definition conversationCreated : M unit :=
  perform (Logged Debug "Conversation created!") ;;
  perform (SetTimeout 1000).

Definition handlePapercupsPlan : M unit :=
  perform (Logged Debug "Handling subscription plan:") ;;
  setState (set_shouldDisplayBranding true).

(** The messages of the host page, as [postMessageHandlers] reads
    [msg.data].  A command names its event and carries the fields of its
    payload that are read; a payload that is left out counts as [{}].
    [NullPayload] is a message of the given event whose payload is [null],
    which the default [= {}] does not replace; [NoData] is a message whose
    [data] is [null] or [undefined]. *)
Inductive command :=
| CustomerUpdate (customerId : js string) (metadata : option CustomerMetadata)
| NotificationsDisplay (shouldDisplayNotifications : bool)
| PapercupsToggle (isOpen : bool)
| PapercupsPlan
| PapercupsPing
| OtherCommand
| NullPayload (event : string)
| NoData.

(** Destructuring [msg.data] throws when there is none.  With [null] for
    payload, [customer:update] throws when it destructures the payload,
    and [notifications:display] and [papercups:toggle] when they read a
    field of it; the other events do not read it. *)
Definition postMessageHandlers (msg : command) : M unit :=
  match msg with
  | NoData => throw
  | _ =>
      perform (Logged Debug "Handling in iframe:") ;;
      match msg with
      | CustomerUpdate customerId metadata =>
          updateExistingCustomer customerId metadata
      | NotificationsDisplay b => setState (set_shouldDisplayNotifications b)
      | PapercupsToggle isOpen => handleToggleDisplay isOpen
      | PapercupsPlan => handlePapercupsPlan
      | PapercupsPing => perform (Logged Debug "Pong!")
      | OtherCommand => ret tt
      | NullPayload event =>
          if (event =? "customer:update") ||
             (event =? "notifications:display") ||
             (event =? "papercups:toggle")
          then throw
          else if event =? "papercups:plan" then handlePapercupsPlan
          else if event =? "papercups:ping" then
            perform (Logged Debug "Pong!")
          else ret tt
      | NoData => throw
      end
  end.

Definition emitOpenWindow : M unit :=
  emit "papercups:open" EmptyObject ;;
  setState (set_isTransitioning true).

Definition emitCloseWindow : M unit := emit "papercups:close" EmptyObject.

Definition handleLeaveGameMode : M unit :=
  setState (set_isGameMode false) ;; scrollIntoView.

(** [version < '1.1.2'], with ['1.0.0'] for a version that is not
    given. *)
Definition isOnDeprecatedVersion : bool :=
  match version with
  | Undefined => "1.0.0" <? "1.1.2"
  | Val v => v <? "1.1.2"
  | Null => false
  end.

Definition componentDidMount : M unit :=
  let cachedCustomerId := cfg_customerId config in
  let metadata := customer config in
  isValid <- isValidCustomer cachedCustomerId ;;
  let customerId := if isValid then cachedCustomerId else Null in
  setState (set_customerId customerId) ;;
  perform (SocketConnect (baseUrl config)) ;;
  listenForAgentAvailability ;;
  fetchLatestConversation customerId metadata ;;
  emit "chat:loaded" NoPayload ;;
  when isOnDeprecatedVersion
    (perform
       (Logged Warn "You are currently on a deprecated version of Papercups.") ;;
     perform (Logged Warn "Please upgrade to version 1.1.2 or above.")).

(** ** Executions *)

(** What can happen to the component: it is mounted; the lobby announces a
    conversation and, a second later, the timer fires; the customer sends
    a draft; a message arrives on the conversation channel; the presence
    of agents is synchronised; the page becomes hidden or visible; the host
    page sends a command; the customer opens or closes the window or
    leaves the game; the component is unmounted. *)
Inductive event :=
| Mount
| ConversationCreated
| TimerFired (customerId : js string)
| Send (message : Message) (email : js string)
| Shout (message : Message)
| PresenceSync (list_ : list (list AgentInfo))
| VisibilityChange (nowHidden : bool)
| HostMessage (msg : command)
| OpenWindow
| CloseWindow
| LeaveGameMode
| Unmount.

Definition setHidden (h : bool) : M unit :=
  fun w =>
    (Returned tt, mkWorld (state w) (channel w) h (ticks w) (log w)).

(** The handler of each event, of the component while it is mounted.
    After the unmount React drops a [setState] together with its callback,
    so what [handle] does with a message that follows an [Unmount] is the
    code of the callback, not what the unmounted component does; a
    statement that would not hold of the unmounted component is made for
    the executions without an unmount. *)
Definition handle (e : event) : M unit :=
  match e with
  | Mount => componentDidMount
  | ConversationCreated => conversationCreated
  | TimerFired customerId =>
      fetchLatestConversation customerId (customer config)
  | Send message email => handleSendMessage message email
  | Shout message =>
      setState (set_isGameMode false) ;; handleNewMessage message
  | PresenceSync list_ => syncPresence list_
  | VisibilityChange h => setHidden h ;; handleVisibilityChange
  | HostMessage msg => postMessageHandlers msg
  | OpenWindow => emitOpenWindow
  | CloseWindow => emitCloseWindow
  | LeaveGameMode => handleLeaveGameMode
  | Unmount => componentWillUnmount
  end.

(** A handler that throws rejects its promise; the world keeps what it
    did until then. *)
Definition step (w : World) (e : event) : World := snd (handle e w).

Definition run (es : list event) (w : World) : World := fold_left step es w.

End Component.

(** ** The previews of unread messages *)

Section Previews.

(** From [../helpers/utils]. *)
Variable isCustomerMessage : Message -> js string -> bool.
Variable shorten : js string -> nat -> string.

Definition MAX_CHARS : nat := 140.

(** [{...msg, body: shorten(body, MAX_CHARS)}]. *)
Definition preview (msg : Message) : Message :=
  mkMessage (id msg) (Val (shorten (body msg) MAX_CHARS)) (file_ids msg)
    (customer_id msg) (user_id msg) (type msg) (sent_at msg) (created_at msg)
    (seen_at msg) (conversation_id msg).

(** The filter of [renderUnreadMessages]. *)
Definition isUnread (customerId : js string) (msg : Message) : bool :=
  if truthy (seen_at msg) then false
  else negb (isCustomerMessage msg customerId).

(** [msg.body.length] of a preview, whose body is a string. *)
Definition bodyLength (msg : Message) : nat :=
  match body msg with
  | Val b => String.length b
  | _ => 0
  end.

Definition chars (unread : list Message) : nat :=
  fold_left (fun acc msg => acc + bodyLength msg) unread 0.

(** The messages [renderUnreadMessages] displays; [None] when it renders
    nothing. *)
Definition renderUnreadMessages (s : State) : option (list Message) :=
  let unread :=
    map preview (firstn 2 (filter (isUnread (customerId s)) (messages s))) in
  if (length unread =? 0)%nat then None
  else Some (if (100 <? chars unread)%nat then firstn 1 unread else unread).

End Previews.

(** ** Vocabulary of the specification *)

(** A field is absent when it is not set to anything truthy. *)
Definition absent (v : js string) : Prop := truthy v = false.
Definition present (v : js string) : Prop := truthy v = true.

(** Two bodies are equal, empty and absent bodies counting as equal. *)
Definition sameBody (a b : js string) : Prop := a = b \/ (absent a /\ absent b).

(** [m] is an optimistic entry that the inbound [message] confirms: it has
    no [created_at], its [sent_at] is date-equal to the message's and the
    bodies are equal. *)
Definition optimisticFor (areDatesEqual : js string -> js string -> bool)
    (message m : Message) : Prop :=
  absent (created_at m) /\
  areDatesEqual (sent_at m) (sent_at message) = true /\
  sameBody (body m) (body message).

(** The draft has no body worth sending: none, or white space only. *)
Definition blank (b : js string) : Prop :=
  match b with
  | Val s => forall c, In c (list_ascii_of_string s) -> is_ws c = true
  | _ => True
  end.

Definition noAttachments (f : option (list string)) : Prop :=
  match f with
  | Some l => l = []
  | None => True
  end.

(** The notifications sent to the host page, oldest first. *)
Fixpoint notifications (l : list effect) : list (string * payload) :=
  match l with
  | [] => []
  | PostMessage event p :: r => (event, p) :: notifications r
  | _ :: r => notifications r
  end.

(** The notifications of one event. *)
Fixpoint notified (event : string) (l : list effect) : list payload :=
  match l with
  | [] => []
  | PostMessage e p :: r =>
      if e =? event then p :: notified event r else notified event r
  | _ :: r => notified event r
  end.

(** The requests sent to the backend. *)
Fixpoint requests (l : list effect) : list api_call :=
  match l with
  | [] => []
  | Request c :: r => c :: requests r
  | _ :: r => requests r
  end.

(** The pushes on channels. *)
Fixpoint pushes (l : list effect) : list (Channel * string * payload) :=
  match l with
  | [] => []
  | ChannelPush c e p :: r => (c, e, p) :: pushes r
  | _ :: r => pushes r
  end.

Definition role_eqb (a b : role) : bool :=
  match a, b with
  | RoomChannel, RoomChannel => true
  | LobbyChannel, LobbyChannel => true
  | ConversationChannel, ConversationChannel => true
  | _, _ => false
  end.

Definition channel_eqb (a b : Channel) : bool :=
  role_eqb (chan_role a) (chan_role b) && (topic a =? topic b) &&
  strict_eq (chan_customer_id a) (chan_customer_id b).

Fixpoint remove_one (c : Channel) (l : list Channel) : list Channel :=
  match l with
  | [] => []
  | x :: r => if channel_eqb c x then r else x :: remove_one c r
  end.

(** The conversation channels joined and not left, after one more effect
    and after a whole log. *)
Definition subscribe (active : list Channel) (e : effect) : list Channel :=
  match e with
  | ChannelJoin c =>
      match chan_role c with
      | ConversationChannel => c :: active
      | _ => active
      end
  | ChannelLeave c => remove_one c active
  | _ => active
  end.

Definition subscribed (l : list effect) : list Channel :=
  fold_left subscribe l [].

(** The timeline after [markMessagesAsSeen] went through it, reading the
    clock from its [k]-th reading on, and the next reading. *)
Fixpoint stampFrom (clock : nat -> Date) (k : nat) (l : list Message)
  : list Message * nat :=
  match l with
  | [] => ([], k)
  | m :: r =>
      if truthy (seen_at m) then
        (m :: fst (stampFrom clock k r), snd (stampFrom clock k r))
      else
        (with_seen_at (Val (toISOString (clock k))) m
           :: fst (stampFrom clock (S k) r),
         snd (stampFrom clock (S k) r))
  end.

(** What the pass does to one entry, between two readings of the clock: an
    entry that has [seen_at] stays as it is, one that lacks it gets one of
    the readings. *)
Definition stamped (clock : nat -> Date) (from upto : nat)
    (old new : Message) : Prop :=
  (present (seen_at old) -> new = old) /\
  (absent (seen_at old) ->
   exists k, from <= k < upto /\
             new = with_seen_at (Val (toISOString (clock k))) old).

(** The world after [markMessagesAsSeen] went ahead on channel [c]. *)
Definition acknowledged (clock : nat -> Date) (c : Channel) (w : World)
  : World :=
  mkWorld
    (set_messages (fst (stampFrom clock (ticks w) (messages (state w))))
       (state w))
    (channel w) (hidden w)
    (snd (stampFrom clock (ticks w) (messages (state w))))
    (log w ++
     [Logged Debug "Marking messages as seen!";
      ChannelPush c "messages:seen" EmptyObject;
      Logged Debug "Sending event from iframe:";
      PostMessage "messages:seen" EmptyObject]).

(** A cached customer id is syntactically valid: a string that is not empty
    and that [isValidUuid] accepts. *)
Definition syntacticallyValid (isValidUuid : string -> bool)
    (customerId : js string) : Prop :=
  exists s, customerId = Val s /\ s <> "" /\ isValidUuid s = true.

(** The metadata carries an external id. *)
Definition hasExternalId (metadata : option CustomerMetadata) : Prop :=
  exists md, metadata = Some md /\ present (external_id md).

(** The greeting entry as built when the clock is at its [t]-th reading. *)
Definition greetingAt (config : Config) (clock : nat -> Date) (t : nat)
  : list Message :=
  if truthy (greeting config) then
    [ mkMessage Undefined (greeting config) None (Val "bot") Undefined
        (Val "bot") Undefined (Val (toISOString (clock t)))
        (Val (toISOString (clock (S t)))) Undefined ]
  else [].

(** The message has a [created_at] that is a date. *)
Definition dated (timeValue : js string -> option Z) (m : Message) : Prop :=
  timeValue (created_at m) <> None.

(** [a] was created no later than [b]. *)
Definition createdBefore (timeValue : js string -> option Z)
    (a b : Message) : Prop :=
  exists x y,
    timeValue (created_at a) = Some x /\
    timeValue (created_at b) = Some y /\ (x <= y)%Z.

(** A message of an agent that was not seen: no [seen_at], a [user_id]. *)
Definition unseenFromAgent (m : Message) : Prop :=
  absent (seen_at m) /\ present (user_id m).

(** The channel [joinConversationChannel] creates. *)
Definition conversationChannel (conversationId customerId : js string)
  : Channel :=
  mkChannel ConversationChannel ("conversation:" ++ to_string conversationId)
    customerId.

(** The leave of the channel held so far, when there is one. *)
Definition leaving (previous : option Channel) : list effect :=
  match previous with
  | Some c => [ChannelLeave c]
  | None => []
  end.

(** The world after [joinConversationChannel]: the previous channel is
    left, then the new one is joined and the host page is told. *)
Definition joined (conversationId customerId : js string) (w : World)
  : World :=
  mkWorld (state w)
    (Some (conversationChannel conversationId customerId))
    (hidden w) (ticks w)
    (log w ++ leaving (channel w) ++
     [Logged Debug "Joining channel:";
      ChannelJoin (conversationChannel conversationId customerId);
      Logged Debug "Sending event from iframe:";
      PostMessage "conversation:join" (Joined conversationId customerId);
      ScrollIntoView]).

(** At no moment of the log were two conversation channels joined and not
    left, and a channel that is still joined is the one the component
    holds. *)
Definition oneSubscription (w : World) : Prop :=
  (forall n, length (subscribed (firstn n (log w))) <= 1) /\
  (subscribed (log w) = [] \/
   exists c, channel w = Some c /\ subscribed (log w) = [c]).

(** A computation keeps an invariant of the world. *)
Definition preserves {A} (I : World -> Prop) (m : M A) : Prop :=
  forall w, I w -> I (snd (m w)).

(** What an invariant does not depend on: one more effect in the log, the
    readings of the clock, an update of the state, the channel held, the
    visibility of the page. *)
Definition ignoresEffect (I : World -> Prop) (e : effect) : Prop :=
  forall s c h t l, I (mkWorld s c h t l) -> I (mkWorld s c h t (l ++ [e])).

Definition ignoresTicks (I : World -> Prop) : Prop :=
  forall s c h t t' l, I (mkWorld s c h t l) -> I (mkWorld s c h t' l).

Definition keptBy (I : World -> Prop) (f : State -> State) : Prop :=
  forall s c h t l, I (mkWorld s c h t l) -> I (mkWorld (f s) c h t l).

Definition ignoresChannel (I : World -> Prop) : Prop :=
  forall s c c' h t l, I (mkWorld s c h t l) -> I (mkWorld s c' h t l).

Definition ignoresHidden (I : World -> Prop) : Prop :=
  forall s c h h' t l, I (mkWorld s c h t l) -> I (mkWorld s c h' t l).

(** The state is [s] and the host page was told [n] about unseen
    messages. *)
Definition sameStateAndUnseen (s : State) (n : list payload) (w : World)
  : Prop :=
  state w = s /\ notified "messages:unseen" (log w) = n.

(** An effect that neither joins nor leaves a conversation channel. *)
Definition silent (e : effect) : Prop :=
  forall active, subscribe active e = active.

(** What a pass of [markMessagesAsSeen] may have done to an entry: nothing
    to one that has [seen_at], nothing or a new [seen_at] to the others. *)
Definition seenStamped (old new : Message) : Prop :=
  (present (seen_at old) -> new = old) /\
  (new = old \/ exists t, new = with_seen_at t old).

(** An entry is keyed: as long as it has no [created_at] it carries a
    [sent_at]. *)
Definition keyed (m : Message) : Prop :=
  absent (created_at m) -> sent_at m <> Undefined.

(** The comparison of dates finds an absent date equal to none. *)
Definition datesNeedDate (areDatesEqual : js string -> js string -> bool)
  : Prop :=
  forall y, areDatesEqual Undefined y = false.

(** An entry that is matched as optimistic carries a [sent_at]: so it is
    for keyed entries, and for all entries when dates need a date. *)
Definition keyedFor (areDatesEqual : js string -> js string -> bool)
    (m : Message) : Prop :=
  forall y,
    absent (created_at m) -> areDatesEqual (sent_at m) y = true ->
    sent_at m <> Undefined.

(** An entry built like the greeting: [created_at] and [seen_at] are set,
    there is neither a [user_id] nor a [sent_at]. *)
Definition greetingLike (g : Message) : Prop :=
  present (created_at g) /\ present (seen_at g) /\
  user_id g = Undefined /\ sent_at g = Undefined.

(** The events that build the timeline anew, from the backend's answer: the
    mount and the fetch the lobby asks for. *)
Definition rebuilds (e : event) : Prop :=
  match e with
  | Mount | TimerFired _ => True
  | _ => False
  end.

(** An event that does not build the timeline anew and, when it is an
    inbound message, brings a keyed one. *)
Definition steady (e : event) : Prop :=
  match e with
  | Mount | TimerFired _ => False
  | Shout message => keyed message
  | _ => True
  end.

Definition steadyFor (areDatesEqual : js string -> js string -> bool)
    (e : event) : Prop :=
  match e with
  | Mount | TimerFired _ => False
  | Shout message => keyedFor areDatesEqual message
  | _ => True
  end.

(** Two entries with the same [sent_at] and body are one slot. *)
Definition oneSlotPerKey (l : list Message) : Prop :=
  forall i j a b,
    nth_error l i = Some a -> nth_error l j = Some b ->
    sent_at a = sent_at b -> body a = body b -> i = j.

(** The four conditions of a message worth marking as seen. *)
Definition seenWorthy (message : Message) (w : World) : Prop :=
  absent (seen_at message) /\ hidden w = false /\
  present (user_id message) /\ isOpen (state w) = true.

Definition seenWorthyb (message : Message) (w : World) : bool :=
  negb (truthy (seen_at message)) && negb (hidden w) &&
  truthy (user_id message) && isOpen (state w).

(** The world in which [handleNewMessage] decides whether the message was
    seen: the message was announced, the timeline updated and the view
    scrolled. *)
Definition arrived (areDatesEqual : js string -> js string -> bool)
    (message : Message) (w : World) : World :=
  mkWorld
    (set_messages (reconcile areDatesEqual message (messages (state w)))
       (state w))
    (channel w) (hidden w) (ticks w)
    (log w ++
     [Logged Debug "Sending event from iframe:";
      PostMessage "message:received" (OfMessage message);
      ScrollIntoView]).

(** The conditions under which [markMessagesAsSeen] goes ahead. *)
Definition canAcknowledge (w : World) : Prop :=
  channel w <> None /\
  present (customerId (state w)) /\ present (conversationId (state w)).

(** ** More vocabulary *)

(** The metadata [createOrUpdateCustomer] sends: the configured ones, with
    the email the customer gave when there is one. *)
Definition metadataFor (config : Config) (email : js string)
  : option CustomerMetadata :=
  if truthy email then Some (with_email (customer config) email)
  else customer config.

(** The first request of [createOrUpdateCustomer]. *)
Definition firstRequest (config : Config) (existing email : js string)
  : api_call :=
  if truthy existing then
    UpdateCustomerMetadata existing (metadataFor config email)
  else CreateNewCustomer (accountId config) (metadataFor config email).

(** The backend's answer to it, after the history [h]. *)
Definition firstAnswer (config : Config) (backend : list effect -> Api)
    (existing email : js string) (h : list effect) : response (js string) :=
  if truthy existing then
    updateCustomerMetadata (backend h) existing (metadataFor config email)
  else
    createNewCustomer (backend h) (accountId config) (metadataFor config email).

(** The history at the second attempt. *)
Definition retryHistory (config : Config) (existing email : js string)
    (h : list effect) : list effect :=
  h ++
  [Request (firstRequest config existing email);
   Logged Error "Failed to update or create customer:";
   Logged Error "Retrying..."].

(** The draft is one [handleSendMessage] sends: no send is in flight, the
    draft has a body that is not blank or an attachment, and its body does
    not start the game. *)
Definition accepted (shouldActivateGameMode : js string -> bool)
    (message : Message) (w : World) : Prop :=
  isSending (state w) = false /\
  ~ (blank (body message) /\ noAttachments (file_ids message)) /\
  shouldActivateGameMode (body message) = false.

(** The time [handleSendMessage] stamps on the draft, and the entry it
    inserts, in world [w]. *)
Definition sentAtIn (clock : nat -> Date) (w : World) : js string :=
  Val (toISOString (clock (ticks w))).

Definition optimisticEntry (clock : nat -> Date) (message : Message)
    (w : World) : Message :=
  outgoing message (customerId (state w)) (Val "customer") (sentAtIn clock w)
    (conversation_id message).

(** The timeline, the pushes and the [message:sent] notifications are
    [ms], [p] and [n]. *)
Definition sentSoFar (ms : list Message)
    (p : list (Channel * string * payload)) (n : list payload) (w : World)
  : Prop :=
  messages (state w) = ms /\ pushes (log w) = p /\
  notified "message:sent" (log w) = n.

(** An entry of the local customer, as far as the timeline tells: it
    carries a [sent_at] and no agent sent it. *)
Definition ofCustomer (m : Message) : Prop :=
  present (sent_at m) /\ absent (user_id m).

(** Two entries clash: they carry the same [sent_at], and one of them is
    not confirmed (it has no [created_at]) or both are the customer's and
    have the same body. *)
Definition clash (a b : Message) : Prop :=
  sent_at a = sent_at b /\
  (absent (created_at a) \/ absent (created_at b) \/
   (ofCustomer a /\ ofCustomer b /\ body a = body b)).

(** No two slots of the timeline clash. *)
Definition clashFree (l : list Message) : Prop :=
  forall i j a b,
    nth_error l i = Some a -> nth_error l j = Some b -> clash a b -> i = j.

(** Two entries of the customer with the same [sent_at] and body are one
    slot. *)
Definition oneSlotPerCustomerKey (l : list Message) : Prop :=
  forall i j a b,
    nth_error l i = Some a -> nth_error l j = Some b ->
    ofCustomer a -> ofCustomer b ->
    sent_at a = sent_at b -> body a = body b -> i = j.

Section Clean.

Variable config : Config.
Variable version : js string.
Variable clock : nat -> Date.
Variable backend : list effect -> Api.
Variable areDatesEqual : js string -> js string -> bool.
Variable isValidUuid : string -> bool.
Variable shouldActivateGameMode : js string -> bool.
Variable timeValue : js string -> option Z.

(** The event brings no clash: the entry that an accepted send inserts
    clashes with no entry of the timeline; an inbound message clashes with
    no entry of the timeline, the entries it replaces apart, which are
    those that carry the [sent_at] of the optimistic entry it confirms.
    The timeline is not rebuilt. *)
Definition clean (w : World) (e : event) : Prop :=
  let timeline := messages (state w) in
  match e with
  | Mount | TimerFired _ => False
  | Send message _ =>
      accepted shouldActivateGameMode message w ->
      forall m, In m timeline -> ~ clash (optimisticEntry clock message w) m
  | Shout message =>
      match find (isUnsent areDatesEqual message) timeline with
      | Some unsent =>
          forall m,
            In m timeline -> sent_at m <> sent_at unsent -> ~ clash message m
      | None => forall m, In m timeline -> ~ clash message m
      end
  | _ => True
  end.

Fixpoint cleanly (w : World) (es : list event) : Prop :=
  match es with
  | [] => True
  | e :: r =>
      clean w e /\
      cleanly
        (step config version clock backend areDatesEqual isValidUuid
           shouldActivateGameMode timeValue w e) r
  end.

End Clean.

(** The inbound messages of a sequence of events, as the host page is told
    them. *)
Definition inbound (es : list event) : list payload :=
  flat_map
    (fun e =>
       match e with
       | Shout message => [OfMessage message]
       | _ => []
       end)
    es.

(** The host page was told [n] on [message:received]. *)
Definition receivedSoFar (n : list payload) (w : World) : Prop :=
  notified "message:received" (log w) = n.

(** The messages [postMessageHandlers] cannot read: there is no data to
    destructure, or the payload is [null] and the event reads it. *)
Definition unreadable (msg : command) : Prop :=
  match msg with
  | NoData => True
  | NullPayload event =>
      event = "customer:update" \/ event = "notifications:display" \/
      event = "papercups:toggle"
  | _ => False
  end.

(** The events that may change the customer, the conversation or the
    channel of the component, and the events that may ask the backend. *)
Definition binds (e : event) : Prop :=
  match e with
  | Mount | TimerFired _ | Send _ _ => True
  | _ => False
  end.

Definition asks (e : event) : Prop :=
  match e with
  | Mount | TimerFired _ | Send _ _ => True
  | HostMessage (CustomerUpdate _ (Some _)) => True
  | _ => False
  end.

(** The component works for customer [a] in conversation [b] and holds
    channel [c]. *)
Definition boundTo (a b : js string) (c : option Channel) (w : World)
  : Prop :=
  customerId (state w) = a /\ conversationId (state w) = b /\ channel w = c.

(** The backend was asked [q]. *)
Definition askedSoFar (q : list api_call) (w : World) : Prop :=
  requests (log w) = q.

(** The flag of a send in flight is [b]. *)
Definition sendingFlag (b : bool) (w : World) : Prop :=
  isSending (state w) = b.

(** ** Sample data *)

Module Sample.

Definition noon : Date := mkDate 2021 3 4 12 0 0 0.
Definition later : Date := mkDate 2021 3 4 12 0 5 250.

Definition frozen (_ : nat) : Date := noon.
Definition ticking (n : nat) : Date :=
  mkDate 2021 3 4 12 0 (N.of_nat n) 0.

(** Dates are equal when both are strings and the same string. *)
Definition sameText (x y : js string) : bool :=
  match x, y with
  | Val a, Val b => a =? b
  | _, _ => false
  end.

Definition blankMessage : Message :=
  mkMessage Undefined Undefined None Undefined Undefined Undefined
    Undefined Undefined Undefined Undefined.

Definition draft (text : string) : Message :=
  mkMessage Undefined (Val text) (Some []) Undefined Undefined Undefined
    Undefined Undefined Undefined Undefined.

(** An entry as [handleSendMessage] inserts it. *)
Definition pending (text : string) (at_ : Date) : Message :=
  mkMessage Undefined (Val text) (Some []) (Val "cust-1") Undefined
    (Val "customer") (Val (toISOString at_)) Undefined Undefined Undefined.

(** The same message as the server sends it back. *)
Definition echo (text : string) (at_ : Date) : Message :=
  mkMessage (Val "msg-1") (Val text) (Some []) (Val "cust-1") Undefined
    Undefined (Val (toISOString at_)) (Val "2021-03-04T12:00:01.000Z")
    Undefined (Val "conv-1").

(** A message of an agent, not seen yet. *)
Definition fromAgent (text created : string) : Message :=
  mkMessage (Val "msg-2") (Val text) (Some []) Undefined (Val "agent-7")
    Undefined (Val created) (Val created) Undefined (Val "conv-1").

(** A message of an agent that carries no [sent_at], seen already. *)
Definition unstamped (text : string) : Message :=
  mkMessage (Val "msg-3") (Val text) (Some []) Undefined (Val "agent-7")
    Undefined Undefined (Val "2021-03-04T11:58:00.000Z")
    (Val "2021-03-04T11:58:30.000Z") (Val "conv-1").

(** The greeting as [getDefaultGreeting] builds it at noon. *)
Definition greeted : Message :=
  mkMessage Undefined (Val "Hi!") None (Val "bot") Undefined (Val "bot")
    Undefined (Val (toISOString noon)) (Val (toISOString noon)) Undefined.

Definition config : Config :=
  mkConfig "acct-1" (Val "cust-1") Undefined (Val "Hi!") None.

Definition live : Channel :=
  mkChannel ConversationChannel "conversation:conv-1" (Val "cust-1").

Definition stateWith (ms : list Message) : State :=
  mkState ms (Val "cust-1") (Val "conv-1") [] false true false false false
    false.

Definition worldWith (ms : list Message) : World :=
  mkWorld (stateWith ms) (Some live) false 0 [].

(** The same, before any conversation channel was joined. *)
Definition unjoined (ms : list Message) : World :=
  mkWorld (stateWith ms) None false 0 [].

(** A backend that is down. *)
Definition down : Api :=
  mkApi (fun _ _ => Failed) (fun _ _ _ _ => Failed) (fun _ _ => Failed)
    (fun _ _ => Failed) (fun _ _ => Failed) (fun _ _ => Failed).

(** The component as constructed. *)
Definition initial : World := initialWorld.

Definition identified (external : string) : option CustomerMetadata :=
  Some (mkMetadata (Val "Ada") (Val "ada@example.com") (Val "example.com")
          (Val external)).

(** A backend that knows every external id as customer [known]. *)
Definition knowing (known : js string) : Api :=
  mkApi (fun _ _ => Ok true) (fun _ _ _ _ => Ok known) (fun _ _ => Ok [])
    (fun _ _ => Ok known) (fun c _ => Ok c) (fun _ _ => Ok (Val "conv-1")).

(** The numeric value of the dates the samples use. *)
Definition epoch (v : js string) : option Z :=
  match v with
  | Val s =>
      if s =? "2021-03-04T11:58:00.000Z" then Some 1614859080000%Z
      else if s =? "2021-03-04T11:59:00.000Z" then Some 1614859140000%Z
      else if s =? "2021-03-04T12:00:01.000Z" then Some 1614859201000%Z
      else None
  | Null => Some 0%Z
  | Undefined => None
  end.

(** A backend that lists one conversation. *)
Definition serving (c : Conversation) : Api :=
  mkApi (fun _ _ => Ok true) (fun _ _ _ _ => Failed) (fun _ _ => Ok [c])
    (fun _ _ => Failed) (fun c _ => Ok c) (fun _ _ => Failed).

(** The component of a customer the page knows by an external id. *)
Definition identifiedConfig : Config :=
  mkConfig "acct-1" (Val "cust-1") Undefined (Val "Hi!") (identified "ext-9").

Definition isLookup (c : api_call) : bool :=
  match c with
  | FindCustomerByExternalId _ _ _ _ => true
  | _ => false
  end.

(** A backend that finds the customer by the external id once and no
    more after that, and has no conversation of the customer. *)
Definition forgetful (history : list effect) : Api :=
  mkApi (fun _ _ => Ok true)
    (fun _ _ _ _ =>
       if existsb isLookup (requests history) then Ok Null
       else Ok (Val "cust-1"))
    (fun _ _ => Ok []) (fun _ _ => Ok (Val "cust-1")) (fun c _ => Ok c)
    (fun _ _ => Ok (Val "conv-1")).

(** A backend that creates customer [made] and no conversation. *)
Definition halfway (made : js string) : Api :=
  mkApi (fun _ _ => Ok true) (fun _ _ _ _ => Failed) (fun _ _ => Failed)
    (fun _ _ => Ok made) (fun c _ => Ok c) (fun _ _ => Failed).

Definition anyUuid (_ : string) : bool := true.
Definition noGame (_ : js string) : bool := false.
Definition noUuid (_ : string) : bool := false.
Definition gameOn (_ : js string) : bool := true.

(** The page in the background, with the window open. *)
Definition background (ms : list Message) : World :=
  mkWorld (stateWith ms) (Some live) true 0 [].

End Sample.

(** * Properties *)

(** ** JavaScript values and dates *)

Lemma strict_eq_true (x y : js string) : strict_eq x y = true <-> x = y.
Proof.
  destruct x, y; simpl; split; intro H; try congruence; try reflexivity.
  - apply String.eqb_eq in H. now subst.
  - inversion H. apply String.eqb_refl.
Qed.

Lemma strict_eq_refl (x : js string) : strict_eq x x = true.
Proof. now apply strict_eq_true. Qed.

Lemma toISOString_truthy (d : Date) : truthy (Val (toISOString d)) = true.
Proof.
  unfold toISOString, truthy.
  now destruct (pad 4 (year d)).
Qed.

Lemma world_eta (w : World) :
  mkWorld (state w) (channel w) (hidden w) (ticks w) (log w) = w.
Proof. now destruct w. Qed.

(** ** Stamping the timeline *)

Section Stamping.

Variable clock : nat -> Date.

Lemma mapM_stamp (l : list Message) (w : World) :
  mapM (stamp clock) l w =
  (Returned (fst (stampFrom clock (ticks w) l)),
   mkWorld (state w) (channel w) (hidden w)
     (snd (stampFrom clock (ticks w) l)) (log w)).
Proof.
  revert w. induction l as [|m r IH]; intro w.
  - simpl. unfold ret. now rewrite world_eta.
  - simpl. unfold bind at 1. unfold stamp.
    destruct (truthy (seen_at m)).
    + unfold ret at 1. unfold bind. rewrite IH. reflexivity.
    + unfold now_iso, new_Date, bind at 1 2. unfold ret at 1 2.
      unfold bind. rewrite IH. reflexivity.
Qed.

Lemma stampFrom_ticks (l : list Message) (k : nat) :
  k <= snd (stampFrom clock k l).
Proof.
  revert k. induction l as [|m r IH]; intro k; simpl; [lia|].
  destruct (truthy (seen_at m)); simpl; [apply IH|].
  specialize (IH (S k)). lia.
Qed.

Lemma stampFrom_stamped (l : list Message) (k : nat) :
  Forall2 (stamped clock k (snd (stampFrom clock k l))) l
    (fst (stampFrom clock k l)).
Proof.
  revert k. induction l as [|m r IH]; intro k; simpl; [constructor|].
  destruct (truthy (seen_at m)) eqn:E; simpl.
  - constructor; [|apply IH].
    split; unfold present, absent; intro H; [reflexivity | congruence].
  - constructor.
    + split; unfold present, absent; intro H; [congruence|].
      exists k. split; [|reflexivity].
      pose proof (stampFrom_ticks r (S k)). lia.
    + eapply Forall2_impl; [|apply IH].
      intros a b [H1 H2]. split; [exact H1|].
      intro H. destruct (H2 H) as (j & Hj & ->). exists j. split; [lia|easy].
Qed.

Lemma stampFrom_present (l : list Message) (k : nat) :
  Forall (fun m => present (seen_at m)) (fst (stampFrom clock k l)).
Proof.
  revert k. induction l as [|m r IH]; intro k; simpl; [constructor|].
  destruct (truthy (seen_at m)) eqn:E; simpl; constructor;
    try apply IH; try exact E.
  apply toISOString_truthy.
Qed.

Lemma stampFrom_seen (l : list Message) (k : nat) :
  Forall (fun m => present (seen_at m)) l -> stampFrom clock k l = (l, k).
Proof.
  induction 1 as [|m r Hm _ IH]; simpl; [reflexivity|].
  unfold present in Hm. rewrite Hm, IH. reflexivity.
Qed.

Lemma markMessagesAsSeen_run (w : World) :
  markMessagesAsSeen clock w =
  (Returned tt,
   match channel w with
   | Some c =>
       if truthy (customerId (state w)) && truthy (conversationId (state w))
       then acknowledged clock c w
       else w
   | None => w
   end).
Proof.
  unfold markMessagesAsSeen, bind at 1 2, getState, getChannel.
  destruct (channel w) as [c|] eqn:Ec; [|reflexivity].
  destruct (truthy (customerId (state w))); simpl; [|reflexivity].
  destruct (truthy (conversationId (state w))); simpl; [|reflexivity].
  unfold emit, perform, bind at 1 2 3 4. simpl.
  unfold bind. rewrite mapM_stamp. simpl.
  unfold acknowledged. rewrite Ec, <- !app_assoc. reflexivity.
Qed.

Lemma canAcknowledge_dec (w : World) :
  canAcknowledge w ->
  exists c, channel w = Some c /\
    truthy (customerId (state w)) && truthy (conversationId (state w)) = true.
Proof.
  intros (Hc & H1 & H2). destruct (channel w) as [c|]; [|congruence].
  exists c. unfold present in *. now rewrite H1, H2.
Qed.

Lemma not_canAcknowledge (w : World) :
  ~ canAcknowledge w ->
  match channel w with
  | Some c =>
      truthy (customerId (state w)) && truthy (conversationId (state w))
      = false
  | None => True
  end.
Proof.
  intro H. destruct (channel w) as [c|] eqn:E; [|exact I].
  destruct (truthy (customerId (state w))) eqn:E1;
    destruct (truthy (conversationId (state w))) eqn:E2; try reflexivity.
  exfalso. apply H. unfold canAcknowledge, present.
  rewrite E. repeat split; congruence.
Qed.

(** C6, amended: when the component holds a channel, a customer id and a
    conversation id, [markMessagesAsSeen] stamps a reading of the clock
    onto exactly the timeline entries that lack [seen_at] and leaves
    every entry that has one unchanged; otherwise it changes nothing;
    and in every state a second call right after the first leaves the
    timeline, and so every [seen_at] the first call set, as it is. *)
Theorem markMessagesAsSeen_stamps_once (w : World) :
  let w1 := snd (markMessagesAsSeen clock w) in
  let w2 := snd (markMessagesAsSeen clock w1) in
  (canAcknowledge w ->
   Forall2 (stamped clock (ticks w) (ticks w1))
     (messages (state w)) (messages (state w1))) /\
  (~ canAcknowledge w -> w1 = w) /\
  messages (state w2) = messages (state w1).
Proof.
  cbv zeta. rewrite !markMessagesAsSeen_run. cbn [snd].
  split; [|split].
  - intro H. destruct (canAcknowledge_dec w H) as (c & -> & ->).
    unfold acknowledged. cbn. apply stampFrom_stamped.
  - intro H. apply not_canAcknowledge in H.
    destruct (channel w); [now rewrite H | reflexivity].
  - destruct (channel w) as [c|] eqn:Ec; [|now rewrite Ec].
    destruct (truthy (customerId (state w)) &&
              truthy (conversationId (state w))) eqn:Eg.
    + set (w1 := acknowledged clock c w).
      assert (H1 : channel w1 = Some c) by exact Ec.
      assert (H2 : truthy (customerId (state w1)) &&
                   truthy (conversationId (state w1)) = true) by exact Eg.
      rewrite H1, H2. unfold acknowledged at 1.
      cbn [state messages set_messages].
      rewrite stampFrom_seen; [reflexivity|].
      subst w1. apply stampFrom_present.
    + now rewrite Ec, Eg.
Qed.

End Stamping.

Lemma markMessagesAsSeen_stamps_once_witness :
  let w :=
    Sample.worldWith [Sample.fromAgent "hello" "2021-03-04T11:59:00.000Z"] in
  canAcknowledge w /\
  Forall2
    (stamped Sample.ticking (ticks w)
       (ticks (snd (markMessagesAsSeen Sample.ticking w))))
    (messages (state w))
    (messages (state (snd (markMessagesAsSeen Sample.ticking w)))).
Proof.
  assert (H : canAcknowledge
                (Sample.worldWith
                   [Sample.fromAgent "hello" "2021-03-04T11:59:00.000Z"])).
  { split; [discriminate | split; reflexivity]. }
  split; [exact H|].
  exact (proj1 (markMessagesAsSeen_stamps_once Sample.ticking _) H).
Defined.

(** C6 as stated fails where no conversation channel was joined: an agent's
    message without [seen_at] is still without it after
    [markMessagesAsSeen]. *)
Lemma markMessagesAsSeen_without_channel :
  let unseen := Sample.fromAgent "hello" "2021-03-04T11:59:00.000Z" in
  let w := Sample.unjoined [unseen] in
  absent (seen_at unseen) /\
  messages (state (snd (markMessagesAsSeen Sample.ticking w))) = [unseen].
Proof. split; reflexivity. Qed.

(** ** Logs *)

Lemma notifications_app (l l' : list effect) :
  notifications (l ++ l') = notifications l ++ notifications l'.
Proof.
  induction l as [|e r IH]; [reflexivity|].
  destruct e; simpl; now rewrite ?IH.
Qed.

Lemma notified_app (event : string) (l l' : list effect) :
  notified event (l ++ l') = notified event l ++ notified event l'.
Proof.
  induction l as [|e r IH]; [reflexivity|].
  destruct e; simpl; rewrite ?IH; try reflexivity.
  now destruct (event0 =? event).
Qed.

Lemma requests_app (l l' : list effect) :
  requests (l ++ l') = requests l ++ requests l'.
Proof.
  induction l as [|e r IH]; [reflexivity|].
  destruct e; simpl; now rewrite ?IH.
Qed.

Lemma pushes_app (l l' : list effect) :
  pushes (l ++ l') = pushes l ++ pushes l'.
Proof.
  induction l as [|e r IH]; [reflexivity|].
  destruct e; simpl; now rewrite ?IH.
Qed.

Lemma Forall2_nth_error {A B} (R : A -> B -> Prop) (l : list A)
    (l' : list B) (i : nat) (a : A) :
  Forall2 R l l' -> nth_error l i = Some a ->
  exists b, nth_error l' i = Some b /\ R a b.
Proof.
  intro H. revert i. induction H as [|x y r r' Hxy _ IH]; intros [|i] Hi;
    simpl in *; try discriminate.
  - inversion Hi; subst. now exists y.
  - now apply IH.
Qed.

(** ** Inbound reconciliation *)

Section Reconciliation.

Variable clock : nat -> Date.
Variable areDatesEqual : js string -> js string -> bool.

Lemma isUnsent_optimisticFor (message m : Message) :
  isUnsent areDatesEqual message m = true <->
  optimisticFor areDatesEqual message m.
Proof.
  unfold isUnsent, optimisticFor, sameBody, absent.
  rewrite !andb_true_iff, orb_true_iff, andb_true_iff, !negb_true_iff.
  rewrite strict_eq_true. tauto.
Qed.

Lemma find_isUnsent_some (message : Message) (l : list Message) :
  (exists m, In m l /\ optimisticFor areDatesEqual message m) ->
  exists u, find (isUnsent areDatesEqual message) l = Some u /\
            In u l /\ optimisticFor areDatesEqual message u.
Proof.
  intros (m & Hin & Hm).
  destruct (find (isUnsent areDatesEqual message) l) as [u|] eqn:E.
  - exists u. apply find_some in E. destruct E as [H1 H2].
    split; [reflexivity|]. split; [assumption|].
    now apply isUnsent_optimisticFor.
  - apply isUnsent_optimisticFor in Hm.
    rewrite (find_none _ _ E m Hin) in Hm. discriminate.
Qed.

Lemma find_isUnsent_none (message : Message) (l : list Message) :
  (forall m, In m l -> ~ optimisticFor areDatesEqual message m) ->
  find (isUnsent areDatesEqual message) l = None.
Proof.
  intro H. destruct (find (isUnsent areDatesEqual message) l) as [u|] eqn:E;
    [|reflexivity].
  apply find_some in E. destruct E as [H1 H2].
  apply isUnsent_optimisticFor in H2. now elim (H u).
Qed.

Lemma reconcile_length (message : Message) (l : list Message) :
  length (reconcile areDatesEqual message l) =
  match find (isUnsent areDatesEqual message) l with
  | Some _ => length l
  | None => S (length l)
  end.
Proof.
  unfold reconcile. destruct (find _ l).
  - apply length_map.
  - rewrite length_app. simpl. lia.
Qed.

Lemma shouldMarkAsSeen_run (message : Message) (w : World) :
  shouldMarkAsSeen message w = (Returned (seenWorthyb message w), w).
Proof.
  unfold shouldMarkAsSeen, seenWorthyb, bind, getState, isWindowHidden, ret.
  destruct (truthy (seen_at message)); [reflexivity|].
  destruct (hidden w); reflexivity.
Qed.

Lemma seenWorthyb_true (message : Message) (w : World) :
  seenWorthyb message w = true <-> seenWorthy message w.
Proof.
  unfold seenWorthyb, seenWorthy, absent, present.
  rewrite !andb_true_iff, !negb_true_iff. tauto.
Qed.

Lemma seenWorthyb_false (message : Message) (w : World) :
  seenWorthyb message w = false <-> ~ seenWorthy message w.
Proof.
  rewrite <- seenWorthyb_true. now destruct (seenWorthyb message w).
Qed.

Lemma handleNewMessage_run (message : Message) (w : World) :
  handleNewMessage clock areDatesEqual message w =
  if seenWorthyb message w then
    markMessagesAsSeen clock (arrived areDatesEqual message w)
  else
    match find (isUnsent areDatesEqual message) (messages (state w)) with
    | None => emitUnseenMessage message (arrived areDatesEqual message w)
    | Some _ => (Returned tt, arrived areDatesEqual message w)
    end.
Proof.
  unfold handleNewMessage, emit, scrollIntoView, perform, setState, getState.
  unfold bind at 1 2 3 4 5 6. cbn [state channel hidden ticks log].
  rewrite <- !app_assoc. cbn [app].
  unfold bind. rewrite shouldMarkAsSeen_run. unfold arrived, seenWorthyb.
  cbn [hidden state isOpen set_messages].
  destruct (_ && _ && _ && _); [reflexivity|].
  destruct (find _ _); reflexivity.
Qed.

Lemma seenStamped_refl (l : list Message) : Forall2 seenStamped l l.
Proof. induction l; constructor; [split|]; auto. Qed.

Lemma markMessagesAsSeen_stamped (w : World) :
  Forall2 seenStamped (messages (state w))
    (messages (state (snd (markMessagesAsSeen clock w)))).
Proof.
  rewrite markMessagesAsSeen_run. cbn [snd].
  destruct (channel w) as [c|]; [|apply seenStamped_refl].
  destruct (_ && _); [|apply seenStamped_refl].
  unfold acknowledged. cbn [state messages set_messages].
  generalize (ticks w). induction (messages (state w)) as [|m r IH];
    intro k; simpl; [constructor|].
  destruct (truthy (seen_at m)) eqn:E; simpl; constructor; auto.
  - split; auto.
  - split; [unfold present; congruence|]. right. eexists. reflexivity.
Qed.

Lemma handleNewMessage_timeline (message : Message) (w : World) :
  Forall2 seenStamped
    (reconcile areDatesEqual message (messages (state w)))
    (messages (state (snd (handleNewMessage clock areDatesEqual message w)))).
Proof.
  rewrite handleNewMessage_run.
  destruct (seenWorthyb message w).
  - apply (markMessagesAsSeen_stamped (arrived areDatesEqual message w)).
  - destruct (find _ _); apply seenStamped_refl.
Qed.

(** C1: when the timeline holds an optimistic entry (no [created_at])
    whose [sent_at] is date-equal to the inbound message's and whose body
    is equal to its body (empty and absent bodies counting as equal),
    [handleNewMessage] leaves the timeline's length as it was and the
    slot of such an entry holds the server's message (stamped as seen at
    most); when no entry of the timeline is such an entry, the timeline
    is exactly one longer. *)
Theorem handleNewMessage_collapses (w : World) (message : Message) :
  let before := messages (state w) in
  let after :=
    messages (state (snd (handleNewMessage clock areDatesEqual message w))) in
  ((exists m, In m before /\ optimisticFor areDatesEqual message m) ->
   length after = length before /\
   exists i u m',
     nth_error before i = Some u /\
     optimisticFor areDatesEqual message u /\
     nth_error after i = Some m' /\
     (m' = message \/ exists t, m' = with_seen_at t message)) /\
  ((forall m, In m before -> ~ optimisticFor areDatesEqual message m) ->
   length after = S (length before)).
Proof.
  cbv zeta.
  pose proof (handleNewMessage_timeline message w) as T.
  pose proof (Forall2_length T) as L. rewrite reconcile_length in L.
  split.
  - intro H. apply find_isUnsent_some in H.
    destruct H as (u & Hfind & Hin & Hu).
    rewrite Hfind in L. split; [now symmetry|].
    apply In_nth_error in Hin. destruct Hin as [i Hi].
    assert (Hr : nth_error
                   (reconcile areDatesEqual message (messages (state w))) i
                 = Some message).
    { unfold reconcile. rewrite Hfind, nth_error_map, Hi. simpl.
      now rewrite strict_eq_refl. }
    destruct (Forall2_nth_error _ _ _ _ _ T Hr) as (m' & Hm' & _ & Hrel).
    now exists i, u, m'.
  - intro H. apply find_isUnsent_none in H. rewrite H in L. now symmetry.
Qed.

(** C5: a message is worth marking as seen exactly when it has no
    [seen_at], the page is not hidden, it has a [user_id] and the widget
    is open; on receipt of such a message [handleNewMessage] goes on to
    [markMessagesAsSeen], once, on the updated timeline; when any of the
    four conditions fails it does not: no entry is stamped and no
    [messages:seen] is pushed or notified. *)
Theorem shouldMarkAsSeen_four_conditions (w : World) (message : Message) :
  let w' := snd (handleNewMessage clock areDatesEqual message w) in
  (shouldMarkAsSeen message w = (Returned true, w) <->
   seenWorthy message w) /\
  (shouldMarkAsSeen message w = (Returned false, w) <->
   ~ seenWorthy message w) /\
  (seenWorthy message w ->
   handleNewMessage clock areDatesEqual message w =
   markMessagesAsSeen clock (arrived areDatesEqual message w)) /\
  (~ seenWorthy message w ->
   messages (state w') =
     reconcile areDatesEqual message (messages (state w)) /\
   notified "messages:seen" (log w') = notified "messages:seen" (log w) /\
   pushes (log w') = pushes (log w)).
Proof.
  cbv zeta. rewrite shouldMarkAsSeen_run, handleNewMessage_run.
  destruct (seenWorthyb message w) eqn:E.
  - assert (H : seenWorthy message w) by now apply seenWorthyb_true.
    split. { split; [intros _; exact H | reflexivity]. }
    split. { split; [discriminate | intro H'; now elim H']. }
    split. { intros _. reflexivity. }
    intro H'. now elim H'.
  - assert (H : ~ seenWorthy message w) by now apply seenWorthyb_false.
    split. { split; [discriminate | intro H'; now elim H]. }
    split. { split; [intros _; exact H | reflexivity]. }
    split. { intro H'. now elim H. }
    intros _.
    destruct (find _ _); cbn; rewrite ?notified_app, ?pushes_app; cbn;
      rewrite ?app_nil_r; repeat split; reflexivity.
Qed.

End Reconciliation.

Lemma handleNewMessage_collapses_witness :
  let w := Sample.worldWith [Sample.pending "hello" Sample.noon] in
  length
    (messages
       (state
          (snd
             (handleNewMessage Sample.ticking Sample.sameText
                (Sample.echo "hello" Sample.noon) w)))) = 1 /\
  length
    (messages
       (state
          (snd
             (handleNewMessage Sample.ticking Sample.sameText
                (Sample.echo "other" Sample.noon) w)))) = 2.
Proof.
  split.
  - apply (proj1 (handleNewMessage_collapses Sample.ticking Sample.sameText
                    (Sample.worldWith [Sample.pending "hello" Sample.noon])
                    (Sample.echo "hello" Sample.noon))).
    exists (Sample.pending "hello" Sample.noon).
    split; [now left|].
    split; [reflexivity|]. split; [vm_compute; reflexivity | now left].
  - apply (proj2 (handleNewMessage_collapses Sample.ticking Sample.sameText
                    (Sample.worldWith [Sample.pending "hello" Sample.noon])
                    (Sample.echo "other" Sample.noon))).
    intros m [<-|[]] (_ & _ & [H|[H _]]); discriminate.
Defined.

Lemma shouldMarkAsSeen_four_conditions_witness :
  let agent := Sample.fromAgent "hello" "2021-03-04T11:59:00.000Z" in
  let own := Sample.echo "hello" Sample.noon in
  let w := Sample.worldWith [] in
  handleNewMessage Sample.ticking Sample.sameText agent w =
    markMessagesAsSeen Sample.ticking (arrived Sample.sameText agent w) /\
  notified "messages:seen"
    (log (snd (handleNewMessage Sample.ticking Sample.sameText own w))) = [].
Proof.
  split.
  - apply (proj1 (proj2 (proj2 (shouldMarkAsSeen_four_conditions
                                  Sample.ticking Sample.sameText
                                  (Sample.worldWith [])
                                  (Sample.fromAgent "hello"
                                     "2021-03-04T11:59:00.000Z"))))).
    repeat split.
  - apply (proj2 (proj2 (proj2 (shouldMarkAsSeen_four_conditions
                                  Sample.ticking Sample.sameText
                                  (Sample.worldWith [])
                                  (Sample.echo "hello" Sample.noon))))).
    intros (_ & _ & H & _). discriminate.
Defined.

(** ** Sending *)

Lemma trimStart_blank (s : string) :
  (forall c, In c (list_ascii_of_string s) -> is_ws c = true) ->
  trimStart s = "".
Proof.
  induction s as [|c r IH]; simpl; intro H; [reflexivity|].
  rewrite (H c (or_introl eq_refl)). apply IH. intros d Hd. apply H. now right.
Qed.

Lemma trimStart_head (s : string) :
  trimStart s = "" \/
  exists c r, trimStart s = String c r /\ is_ws c = false.
Proof.
  induction s as [|c r IH]; simpl; [now left|].
  destruct (is_ws c) eqn:E; [exact IH|]. right. now exists c, r.
Qed.

Lemma trimStart_empty (s : string) :
  trimStart s = "" ->
  forall c, In c (list_ascii_of_string s) -> is_ws c = true.
Proof.
  induction s as [|c r IH]; simpl; intros H d Hd; [contradiction|].
  destruct (is_ws c) eqn:E; [|discriminate].
  destruct Hd as [<-|Hd]; [exact E | now apply IH].
Qed.

Lemma isMissingBody_blank (b : js string) :
  isMissingBody b = true <-> blank b.
Proof.
  destruct b as [| |s]; simpl; try tauto.
  rewrite orb_true_iff, Nat.eqb_eq. unfold trim. split.
  - intros [H|H].
    + rewrite negb_true_iff, negb_false_iff in H. apply String.eqb_eq in H.
      subst. intros c [].
    + apply trimStart_empty.
      destruct (trimStart_head s) as [E|(c & r & E & Hc)]; [exact E|].
      rewrite E in H. simpl in H. rewrite Hc in H.
      destruct (trimEnd r); discriminate.
  - intro H. right. now rewrite (trimStart_blank s H).
Qed.

Lemma isMissingAttachments_none (f : option (list string)) :
  isMissingAttachments f = true <-> noAttachments f.
Proof.
  destruct f as [[|x l]|]; simpl; split; intro H;
    congruence || reflexivity || exact I.
Qed.

Section Sending.

Variable config : Config.
Variable clock : nat -> Date.
Variable backend : list effect -> Api.
Variable shouldActivateGameMode : js string -> bool.

(** The guard of [handleSendMessage]: when the flag of a send in flight
    is up, and when the draft has neither a body with a character that is
    not white space nor an attachment, it returns at once and the world is
    as it was. *)
Lemma handleSendMessage_guarded (w : World) (message : Message)
    (email : js string) :
  isSending (state w) = true \/
  (blank (body message) /\ noAttachments (file_ids message)) ->
  handleSendMessage config clock backend shouldActivateGameMode
    message email w = (Returned tt, w).
Proof.
  intro H. unfold handleSendMessage, bind at 1, getState.
  assert (G : isSending (state w) ||
              isMissingBody (body message) &&
              isMissingAttachments (file_ids message) = true).
  { destruct H as [H|[H1 H2]].
    - now rewrite H.
    - apply isMissingBody_blank in H1.
      apply isMissingAttachments_none in H2.
      rewrite H1, H2. apply orb_true_r. }
  now rewrite G.
Qed.

End Sending.

(** ** Identity *)

Section Identity.

Variable config : Config.
Variable backend : list effect -> Api.
Variable isValidUuid : string -> bool.

Lemma not_syntacticallyValid (customerId : js string) :
  ~ syntacticallyValid isValidUuid customerId ->
  match customerId with
  | Val s => (String.length s =? 0)%nat = true \/ isValidUuid s = false
  | _ => True
  end.
Proof.
  intro H. destruct customerId as [| |s]; try exact I.
  destruct s as [|c r]; [now left|]. right.
  destruct (isValidUuid (String c r)) eqn:E; [|reflexivity].
  exfalso. apply H. exists (String c r). now repeat split.
Qed.

(** C4: for a cached customer id that is syntactically valid,
    [isValidCustomer] asks the backend; when that request fails it
    returns true, and when the backend answers it returns the answer.
    A cached id that is absent, empty or not syntactically valid is
    rejected and the world is as it was: no request was sent. *)
Theorem isValidCustomer_accepts_on_error (w : World)
    (customerId : js string) :
  let r := isValidCustomer config backend isValidUuid customerId w in
  (forall s,
     customerId = Val s -> syntacticallyValid isValidUuid customerId ->
     requests (log (snd r)) =
       requests (log w) ++ [IsValidCustomer s (accountId config)] /\
     (isValidCustomer_api (backend (log w)) s (accountId config) = Failed ->
      fst r = Returned true) /\
     (forall verdict,
        isValidCustomer_api (backend (log w)) s (accountId config)
        = Ok verdict ->
        fst r = Returned verdict)) /\
  (~ syntacticallyValid isValidUuid customerId -> r = (Returned false, w)).
Proof.
  cbv zeta. split.
  - intros s -> (s' & E & Hne & Hv). inversion E; subst s'. clear E.
    unfold isValidCustomer.
    destruct s as [|c t]; [congruence|]. cbn [String.length Nat.eqb].
    rewrite Hv. cbn [negb]. unfold try_catch, call.
    cbn [state channel hidden ticks log].
    destruct (isValidCustomer_api (backend (log w)) (String c t)
                (accountId config)) as [b|] eqn:Ea.
    + cbn. rewrite requests_app. cbn. repeat split; congruence.
    + cbn. rewrite <- !app_assoc, !requests_app. cbn.
      repeat split; congruence.
  - intro H. apply not_syntacticallyValid in H. unfold isValidCustomer.
    destruct customerId as [| |s]; try reflexivity.
    destruct H as [H|H]; rewrite H; [reflexivity|].
    now destruct (String.length s =? 0)%nat.
Qed.

(** C3: with metadata that carries an external id, what
    [checkForExistingCustomer] does is decided by the lookup's answer:
    no match makes the customer id [null], whatever was cached; a match
    equal to the cached id keeps it and notifies nothing; a match that
    differs from the cached id is returned and adopted, with exactly one
    [customer:updated] notification that carries it.  Without an external
    id the cached id is returned as it is and nothing is asked or
    notified. *)
Theorem checkForExistingCustomer_outcomes (w : World)
    (metadata : option CustomerMetadata) (cached : js string) :
  let r := checkForExistingCustomer config backend metadata cached w in
  (~ hasExternalId metadata ->
   fst r = Returned cached /\ customerId (state (snd r)) = cached /\
   log (snd r) = log w) /\
  (forall md matching,
     metadata = Some md -> present (external_id md) ->
     findCustomerByExternalId (backend (log w)) (external_id md)
       (accountId config) (email md) (host md) = Ok matching ->
     (absent matching ->
      fst r = Returned Null /\ customerId (state (snd r)) = Null /\
      notifications (log (snd r)) = notifications (log w)) /\
     (present matching -> matching = cached ->
      fst r = Returned cached /\ customerId (state (snd r)) = cached /\
      notifications (log (snd r)) = notifications (log w)) /\
     (present matching -> matching <> cached ->
      fst r = Returned matching /\
      customerId (state (snd r)) = matching /\
      notifications (log (snd r)) =
        notifications (log w) ++ [("customer:updated", CustomerId matching)])).
Proof.
  cbv zeta. split.
  - intro H. unfold checkForExistingCustomer.
    destruct metadata as [md|]; [|now cbn].
    destruct (truthy (external_id md)) eqn:E; [|now cbn].
    exfalso. apply H. now exists md.
  - intros md matching -> Hext Hfind. unfold present in Hext.
    unfold checkForExistingCustomer. rewrite Hext. cbn [negb].
    unfold bind, call. rewrite Hfind.
    split; [|split].
    + intro Hm. unfold absent in Hm. rewrite Hm. cbn.
      rewrite notifications_app. cbn. now rewrite app_nil_r.
    + intros Hm ->. unfold present in Hm. rewrite Hm, strict_eq_refl. cbn.
      rewrite notifications_app. cbn. now rewrite app_nil_r.
    + intros Hm Hne. unfold present in Hm. rewrite Hm.
      destruct (strict_eq matching cached) eqn:E.
      { apply strict_eq_true in E. contradiction. }
      cbn. rewrite <- !app_assoc, notifications_app. now cbn.
Qed.

End Identity.

Lemma isValidCustomer_accepts_on_error_witness :
  fst (isValidCustomer Sample.config (fun _ => Sample.down) Sample.anyUuid
         (Val "cust-1") Sample.initial) = Returned true.
Proof.
  assert (V : syntacticallyValid Sample.anyUuid (Val "cust-1")).
  { exists "cust-1". repeat split. discriminate. }
  exact (proj1 (proj2 (proj1 (isValidCustomer_accepts_on_error Sample.config
                                (fun _ => Sample.down) Sample.anyUuid
                                Sample.initial (Val "cust-1"))
                         "cust-1" eq_refl V))
           eq_refl).
Defined.

Lemma checkForExistingCustomer_outcomes_witness :
  let r :=
    checkForExistingCustomer Sample.config
      (fun _ => Sample.knowing (Val "cust-2")) (Sample.identified "ext-9")
      (Val "cust-1") Sample.initial in
  fst r = Returned (Val "cust-2") /\
  customerId (state (snd r)) = Val "cust-2" /\
  notifications (log (snd r)) =
    [("customer:updated", CustomerId (Val "cust-2"))].
Proof.
  refine (proj2 (proj2 (proj2 (checkForExistingCustomer_outcomes Sample.config
                                 (fun _ => Sample.knowing (Val "cust-2"))
                                 Sample.initial (Sample.identified "ext-9")
                                 (Val "cust-1"))
                          _ (Val "cust-2") eq_refl eq_refl eq_refl))
            eq_refl _).
  discriminate.
Defined.

(** ** The sort of the history *)

Section Sorting.

Variable timeValue : js string -> option Z.

Lemma insert_perm (x : Message) (l : list Message) :
  Permutation (insert timeValue x l) (x :: l).
Proof.
  induction l as [|y r IH]; simpl; [reflexivity|].
  destruct (compareCreatedAt timeValue x y <=? 0)%Z; [reflexivity|].
  rewrite IH. apply perm_swap.
Qed.

Lemma sort_perm (l : list Message) : Permutation (sort timeValue l) l.
Proof.
  induction l as [|x r IH]; simpl; [reflexivity|].
  rewrite insert_perm. now constructor.
Qed.

Lemma createdBefore_trans (a b c : Message) :
  createdBefore timeValue a b -> createdBefore timeValue b c ->
  createdBefore timeValue a c.
Proof.
  intros (x & y & Hx & Hy & L1) (y' & z & Hy' & Hz & L2).
  exists x, z. repeat split; try assumption.
  rewrite Hy in Hy'. inversion Hy'. lia.
Qed.

Lemma compare_le (x y : Message) :
  dated timeValue x -> dated timeValue y ->
  (compareCreatedAt timeValue x y <=? 0)%Z = true ->
  createdBefore timeValue x y.
Proof.
  unfold dated, compareCreatedAt, createdBefore. intros Hx Hy H.
  destruct (timeValue (created_at x)) as [a|]; [|congruence].
  destruct (timeValue (created_at y)) as [b|]; [|congruence].
  exists a, b. apply Z.leb_le in H. repeat split. lia.
Qed.

Lemma compare_gt (x y : Message) :
  dated timeValue x -> dated timeValue y ->
  (compareCreatedAt timeValue x y <=? 0)%Z = false ->
  createdBefore timeValue y x.
Proof.
  unfold dated, compareCreatedAt, createdBefore. intros Hx Hy H.
  destruct (timeValue (created_at x)) as [a|]; [|congruence].
  destruct (timeValue (created_at y)) as [b|]; [|congruence].
  exists b, a. apply Z.leb_gt in H. repeat split. lia.
Qed.

Lemma insert_sorted (x : Message) (l : list Message) :
  dated timeValue x -> Forall (dated timeValue) l ->
  StronglySorted (createdBefore timeValue) l ->
  StronglySorted (createdBefore timeValue) (insert timeValue x l).
Proof.
  intros Hx Hl Hs. induction Hs as [|y r Hs IH Hy]; simpl.
  - repeat constructor.
  - inversion Hl as [|? ? Dy Dr]; subst.
    destruct (compareCreatedAt timeValue x y <=? 0)%Z eqn:E.
    + pose proof (compare_le x y Hx Dy E) as Hxy.
      constructor; [now constructor|].
      constructor; [exact Hxy|].
      eapply Forall_impl; [|exact Hy].
      intros z Hz. eapply createdBefore_trans; eassumption.
    + constructor; [now apply IH|].
      apply (Permutation_Forall (Permutation_sym (insert_perm x r))).
      constructor; [|exact Hy]. now apply compare_gt.
Qed.

Lemma sort_sorted (l : list Message) :
  Forall (dated timeValue) l ->
  StronglySorted (createdBefore timeValue) (sort timeValue l).
Proof.
  induction 1 as [|x r Hx Hr IH]; simpl; [constructor|].
  apply insert_sorted; [exact Hx | | exact IH].
  apply (Permutation_Forall (Permutation_sym (sort_perm r))). exact Hr.
Qed.

Lemma isUnseenAgentMessage_true (m : Message) :
  isUnseenAgentMessage m = true <-> unseenFromAgent m.
Proof.
  unfold isUnseenAgentMessage, unseenFromAgent, absent, present.
  now rewrite andb_true_iff, negb_true_iff.
Qed.

(** The head of a filtered sorted list comes before all that pass the
    filter. *)
Lemma filter_head_least (R : Message -> Message -> Prop)
    (f : Message -> bool) (l : list Message) (a : Message)
    (r : list Message) :
  StronglySorted R l -> filter f l = a :: r ->
  In a l /\ f a = true /\
  forall m, In m l -> f m = true -> m = a \/ R a m.
Proof.
  induction 1 as [|y t Hs IH Hy]; simpl; [discriminate|].
  destruct (f y) eqn:E.
  - intro H. inversion H; subst. repeat split; auto.
    intros m [->|Hm] _; [now left|]. right.
    rewrite Forall_forall in Hy. now apply Hy.
  - intro H. destruct (IH H) as (Hin & Hf & Hleast).
    repeat split; auto.
    intros m [->|Hm] Hfm; [congruence|]. now apply Hleast.
Qed.

End Sorting.

(** ** Invariants of handlers *)

Section Preservation.

Variable I : World -> Prop.

Lemma preserves_ret {A} (a : A) : preserves I (ret a).
Proof. intros w H. exact H. Qed.

Lemma preserves_throw {A} : preserves I (@throw A).
Proof. intros w H. exact H. Qed.

Lemma preserves_bind {A B} (m : M A) (k : A -> M B) :
  preserves I m -> (forall a, preserves I (k a)) -> preserves I (bind m k).
Proof.
  intros Hm Hk w H. unfold bind. specialize (Hm w H).
  destruct (m w) as [[a|] w']; simpl in *; [now apply Hk | exact Hm].
Qed.

Lemma preserves_try_catch {A} (body handler : M A) :
  preserves I body -> preserves I handler ->
  preserves I (try_catch body handler).
Proof.
  intros Hb Hh w H. unfold try_catch. specialize (Hb w H).
  destruct (body w) as [[a|] w']; simpl in *; [exact Hb | now apply Hh].
Qed.

Lemma preserves_when (b : bool) (m : M unit) :
  preserves I m -> preserves I (when b m).
Proof. destruct b; [easy | intros _; apply preserves_ret]. Qed.

Lemma preserves_getState : preserves I getState.
Proof. intros w H. exact H. Qed.

Lemma preserves_getChannel : preserves I getChannel.
Proof. intros w H. exact H. Qed.

Lemma preserves_isWindowHidden : preserves I isWindowHidden.
Proof. intros w H. exact H. Qed.

Lemma preserves_mapM {A B} (f : A -> M B) (l : list A) :
  (forall a, preserves I (f a)) -> preserves I (mapM f l).
Proof.
  intro Hf. induction l as [|x r IH]; simpl; [apply preserves_ret|].
  apply preserves_bind; [apply Hf|]. intro y.
  apply preserves_bind; [exact IH|]. intro ys. apply preserves_ret.
Qed.

Lemma preserves_someM {A} (p : A -> M bool) (l : list A) :
  (forall a, preserves I (p a)) -> preserves I (someM p l).
Proof.
  intro Hp. induction l as [|x r IH]; simpl; [apply preserves_ret|].
  apply preserves_bind; [apply Hp|]. intros [|]; [apply preserves_ret|].
  exact IH.
Qed.

Lemma preserves_perform (e : effect) :
  ignoresEffect I e -> preserves I (perform e).
Proof. intros Hi [s c h t l] H. cbn. now apply Hi. Qed.

Lemma preserves_call {A} (backend : list effect -> Api)
    (c : api_call) (answer : Api -> response A) :
  ignoresEffect I (Request c) -> preserves I (call backend c answer).
Proof.
  intros Hi [s ch h t l] H. unfold call. cbn.
  destruct (answer (backend l)); cbn; now apply Hi.
Qed.

Lemma preserves_new_Date (clock : nat -> Date) :
  ignoresTicks I -> preserves I (new_Date clock).
Proof. intros Hi [s c h t l] H. cbn. now apply (Hi s c h t). Qed.

Lemma preserves_now_iso (clock : nat -> Date) :
  ignoresTicks I -> preserves I (now_iso clock).
Proof.
  intro Hi. apply preserves_bind; [now apply preserves_new_Date|].
  intro d. apply preserves_ret.
Qed.

Lemma preserves_setState (f : State -> State) :
  keptBy I f -> preserves I (setState f).
Proof. intros Hi [s c h t l] H. cbn. now apply Hi. Qed.

Lemma preserves_setChannel (c : Channel) :
  ignoresChannel I -> preserves I (setChannel c).
Proof. intros Hi [s c0 h t l] H. cbn. now apply (Hi s c0). Qed.

Lemma preserves_setHidden (b : bool) :
  ignoresHidden I -> preserves I (setHidden b).
Proof. intros Hi [s c h t l] H. cbn. now apply (Hi s c h). Qed.

Lemma preserves_emit (event : string) (p : payload) :
  ignoresEffect I (Logged Debug "Sending event from iframe:") ->
  ignoresEffect I (PostMessage event p) ->
  preserves I (emit event p).
Proof.
  intros H1 H2. apply preserves_bind; [now apply preserves_perform|].
  intros _. now apply preserves_perform.
Qed.

End Preservation.

Ltac preserve_step :=
  match goal with
  | |- preserves _ (bind _ _) => apply preserves_bind; [|intro]
  | |- preserves _ (ret _) => apply preserves_ret
  | |- preserves _ throw => apply preserves_throw
  | |- preserves _ (try_catch _ _) => apply preserves_try_catch
  | |- preserves _ (when _ _) => apply preserves_when
  | |- preserves _ getState => apply preserves_getState
  | |- preserves _ getChannel => apply preserves_getChannel
  | |- preserves _ isWindowHidden => apply preserves_isWindowHidden
  | |- preserves _ (perform _) => apply preserves_perform
  | |- preserves _ scrollIntoView => apply preserves_perform
  | |- preserves _ (call _ _ _) => apply preserves_call
  | |- preserves _ (emit _ _) => apply preserves_emit
  | |- preserves _ (emitUnseenMessage _) => apply preserves_emit
  | |- preserves _ (now_iso _) => apply preserves_now_iso
  | |- preserves _ (setState _) => apply preserves_setState
  | |- preserves _ (setChannel _) => apply preserves_setChannel
  | |- preserves _ (setHidden _) => apply preserves_setHidden
  | |- preserves _ (if ?b then _ else _) => destruct b
  | |- preserves _ (match ?x with _ => _ end) => destruct x
  end.

Ltac preserve := repeat preserve_step.

(** ** Joining a conversation *)

Lemma joinConversationChannel_run (conversationId customerId : js string)
    (w : World) :
  joinConversationChannel conversationId customerId w =
  (Returned tt, joined conversationId customerId w).
Proof.
  unfold joinConversationChannel, joined, leaving, conversationChannel.
  unfold scrollIntoView, emit, perform, setChannel, getChannel, bind, ret.
  destruct (channel w) as [c|]; cbn [state channel hidden ticks log app];
    now rewrite <- !app_assoc.
Qed.

(** ** Finding the latest conversation *)

Section Fetching.

Variable config : Config.
Variable clock : nat -> Date.
Variable backend : list effect -> Api.
Variable timeValue : js string -> option Z.

Lemma getDefaultGreeting_run (w : World) :
  getDefaultGreeting config clock w =
  (Returned (greetingAt config clock (ticks w)),
   mkWorld (state w) (channel w) (hidden w)
     (if truthy (greeting config) then S (S (ticks w)) else ticks w)
     (log w)).
Proof.
  unfold getDefaultGreeting, greetingAt.
  destruct (truthy (greeting config)); cbn; [reflexivity|].
  unfold ret. now rewrite world_eta.
Qed.

Lemma updateExistingCustomer_returns (customerId : js string)
    (metadata : option CustomerMetadata) (w : World) :
  fst (updateExistingCustomer backend customerId metadata w) = Returned tt.
Proof.
  unfold updateExistingCustomer. destruct metadata; [|reflexivity].
  unfold try_catch, bind, call.
  now destruct (updateCustomerMetadata _ _ _).
Qed.

Lemma sameStateAndUnseen_ignores (s : State) (n : list payload)
    (e : effect) :
  notified "messages:unseen" [e] = [] ->
  ignoresEffect (sameStateAndUnseen s n) e.
Proof.
  intros He s0 c h t l [H1 H2]. split; [exact H1|]. cbn [log].
  rewrite notified_app, He. now rewrite app_nil_r.
Qed.

Lemma updateExistingCustomer_quiet (customerId : js string)
    (metadata : option CustomerMetadata) (s : State) (n : list payload) :
  preserves (sameStateAndUnseen s n)
    (updateExistingCustomer backend customerId metadata).
Proof.
  unfold updateExistingCustomer. preserve;
    now apply sameStateAndUnseen_ignores.
Qed.

Lemma checkForExistingCustomer_unseen (metadata : option CustomerMetadata)
    (cached : js string) (n : list payload) :
  preserves (fun w => notified "messages:unseen" (log w) = n)
    (checkForExistingCustomer config backend metadata cached).
Proof.
  unfold checkForExistingCustomer. preserve;
    try (intros ? ? ? ? ? H; exact H);
    try (intros ? ? ? ? ? H; cbn [log]; rewrite notified_app; cbn;
         now rewrite app_nil_r).
Qed.

Lemma fetchLatestConversation_run (w w1 : World) (cached : js string)
    (metadata : option CustomerMetadata) (customerId : js string)
    (latest : Conversation) (rest : list Conversation) :
  checkForExistingCustomer config backend metadata cached w =
    (Returned customerId, w1) ->
  present customerId ->
  fetchCustomerConversations
    (backend
       (log w1 ++ [Logged Debug "Fetching conversations for customer:"]))
    customerId (accountId config) = Ok (latest :: rest) ->
  exists w2,
    sameStateAndUnseen
      (set_messages
         (greetingAt config clock (ticks w1) ++
          sort timeValue (conv_messages latest))
         (set_conversationId (conv_id latest) (state w1)))
      (notified "messages:unseen" (log w))
      w2 /\
    fetchLatestConversation config clock backend timeValue cached metadata w
    = match filter isUnseenAgentMessage
              (sort timeValue (conv_messages latest)) with
      | [] => (Returned tt, w2)
      | firstUnseenMessage :: _ => emitUnseenMessage firstUnseenMessage w2
      end.
Proof.
  intros Hc Hp Hf. unfold fetchLatestConversation.
  unfold bind at 1. rewrite Hc. unfold present in Hp. rewrite Hp. cbn [negb].
  unfold bind at 1. unfold perform at 1. unfold try_catch.
  unfold bind at 1. unfold call at 1. cbn [log state channel hidden ticks].
  rewrite Hf.
  unfold bind at 1. unfold perform at 1. cbn [log state channel hidden ticks].
  unfold bind at 1. rewrite getDefaultGreeting_run.
  cbn [log state channel hidden ticks].
  unfold bind at 1. unfold setState at 1. cbn [log state channel hidden ticks].
  unfold bind at 1. rewrite joinConversationChannel_run.
  match goal with
  | |- context [joined ?a ?b ?x] => set (wj := joined a b x)
  end.
  unfold bind at 1.
  pose proof (updateExistingCustomer_returns customerId metadata wj) as Hr.
  pose proof (updateExistingCustomer_quiet customerId metadata
                (state wj) (notified "messages:unseen" (log wj)) wj
                (conj eq_refl eq_refl)) as Hq.
  destruct (updateExistingCustomer backend customerId metadata wj)
    as [r w2]. cbn [fst snd] in Hr, Hq. subst r.
  exists w2. split.
  - destruct Hq as [Hs Hn]. split; [exact Hs|]. rewrite Hn.
    subst wj. unfold joined. cbn [log].
    rewrite !notified_app. cbn.
    assert (L : notified "messages:unseen" (leaving (channel w1)) = []).
    { now destruct (channel w1). }
    rewrite L, !app_nil_r.
    pose proof (checkForExistingCustomer_unseen metadata cached
                  (notified "messages:unseen" (log w)) w eq_refl) as Hk.
    rewrite Hc in Hk. exact Hk.
  - destruct (filter _ _) as [|first others]; [reflexivity|].
    unfold emitUnseenMessage, emit, bind, perform. cbn. reflexivity.
Qed.

(** C8: when the resolved customer has conversations,
    [fetchLatestConversation] sets the timeline to the greeting (one bot
    entry with the configured text, or nothing when no greeting is
    configured) followed by the messages of the first conversation the
    backend lists, which are a rearrangement of that conversation's
    messages and, when they all carry a date in [created_at], in
    ascending order of it.  When one of these messages lacks [seen_at] and
    has a [user_id], exactly one [messages:unseen] notification is sent;
    it carries such a message, no later than every other such message;
    when there is none, no [messages:unseen] notification is sent. *)
Theorem fetchLatestConversation_timeline (w w1 : World)
    (cached : js string) (metadata : option CustomerMetadata)
    (customerId : js string) (latest : Conversation)
    (rest : list Conversation) :
  checkForExistingCustomer config backend metadata cached w =
    (Returned customerId, w1) ->
  present customerId ->
  fetchCustomerConversations
    (backend
       (log w1 ++ [Logged Debug "Fetching conversations for customer:"]))
    customerId (accountId config) = Ok (latest :: rest) ->
  let w' :=
    snd (fetchLatestConversation config clock backend timeValue cached
           metadata w) in
  let history := conv_messages latest in
  let sorted := sort timeValue history in
  messages (state w') = greetingAt config clock (ticks w1) ++ sorted /\
  Permutation sorted history /\
  (Forall (dated timeValue) history ->
   StronglySorted (createdBefore timeValue) sorted) /\
  ((forall m, In m history -> ~ unseenFromAgent m) ->
   notified "messages:unseen" (log w') =
   notified "messages:unseen" (log w)) /\
  ((exists m, In m history /\ unseenFromAgent m) ->
   exists first,
     notified "messages:unseen" (log w') =
       notified "messages:unseen" (log w) ++ [Wrapped first] /\
     In first history /\ unseenFromAgent first /\
     (Forall (dated timeValue) history ->
      forall m, In m history -> unseenFromAgent m ->
                m = first \/ createdBefore timeValue first m)).
Proof.
  intros Hc Hp Hf. cbv zeta.
  destruct (fetchLatestConversation_run w w1 cached metadata customerId
              latest rest Hc Hp Hf) as (w2 & [Hs Hn] & Hrun).
  rewrite Hrun. clear Hrun.
  pose proof (sort_perm timeValue (conv_messages latest)) as P.
  assert (Hm : forall x,
             messages (state (snd
               match filter isUnseenAgentMessage
                       (sort timeValue (conv_messages latest)) with
               | [] => (Returned tt, w2)
               | firstUnseenMessage :: _ =>
                   emitUnseenMessage firstUnseenMessage w2
               end)) = x <-> messages (state w2) = x).
  { intro x. now destruct (filter _ _). }
  split; [apply Hm; now rewrite Hs|].
  split; [exact P|].
  split; [apply sort_sorted|].
  split.
  - intro Hnone.
    destruct (filter isUnseenAgentMessage
                (sort timeValue (conv_messages latest)))
      as [|first others] eqn:E; [exact Hn|].
    exfalso. assert (Hin : In first (first :: others)) by now left.
    rewrite <- E in Hin. apply filter_In in Hin. destruct Hin as [H1 H2].
    apply (Hnone first).
    + now apply (Permutation_in _ P).
    + now apply isUnseenAgentMessage_true.
  - intros (m & Hin & Hu).
    destruct (filter isUnseenAgentMessage
                (sort timeValue (conv_messages latest)))
      as [|first others] eqn:E.
    + exfalso. assert (Hf' : In m []); [|exact Hf'].
      rewrite <- E. apply filter_In. split.
      * now apply (Permutation_in _ (Permutation_sym P)).
      * now apply isUnseenAgentMessage_true.
    + exists first.
      assert (Hin1 : In first (first :: others)) by now left.
      rewrite <- E in Hin1. apply filter_In in Hin1.
      destruct Hin1 as [H1 H2].
      split.
      { unfold emitUnseenMessage, emit, bind, perform. cbn.
        rewrite <- app_assoc, notified_app. cbn. now rewrite Hn. }
      split; [now apply (Permutation_in _ P)|].
      split; [now apply isUnseenAgentMessage_true|].
      intros Hd x Hx Hux.
      destruct (filter_head_least (createdBefore timeValue)
                  isUnseenAgentMessage _ _ _
                  (sort_sorted timeValue _ Hd) E) as (_ & _ & Hleast).
      apply Hleast.
      * now apply (Permutation_in _ (Permutation_sym P)).
      * now apply isUnseenAgentMessage_true.
Qed.

End Fetching.

(** ** One conversation channel at a time *)

Lemma role_eqb_refl (r : role) : role_eqb r r = true.
Proof. now destruct r. Qed.

Lemma channel_eqb_refl (c : Channel) : channel_eqb c c = true.
Proof.
  unfold channel_eqb.
  now rewrite role_eqb_refl, String.eqb_refl, strict_eq_refl.
Qed.

Lemma subscribed_app (l d : list effect) :
  subscribed (l ++ d) = fold_left subscribe d (subscribed l).
Proof. unfold subscribed. apply fold_left_app. Qed.

(** The log grows by [d]: the invariant holds again when it holds at every
    moment of [d] and at its end. *)
Lemma oneSubscription_app (w : World) (d : list effect) (s : State)
    (c : option Channel) (h : bool) (t : nat) :
  oneSubscription w ->
  (forall k,
     length (fold_left subscribe (firstn k d) (subscribed (log w))) <= 1) ->
  (fold_left subscribe d (subscribed (log w)) = [] \/
   exists x, c = Some x /\ fold_left subscribe d (subscribed (log w)) = [x]) ->
  oneSubscription (mkWorld s c h t (log w ++ d)).
Proof.
  intros [Hp Hj] Hk Hd. split; cbn [log channel].
  - intro n. rewrite firstn_app, subscribed_app.
    destruct (Nat.le_gt_cases n (length (log w))) as [Hn|Hn].
    + replace (n - length (log w)) with 0 by lia. cbn. apply Hp.
    + rewrite (firstn_all2 (log w)) by lia. apply Hk.
  - rewrite subscribed_app. exact Hd.
Qed.

Lemma oneSubscription_silent (e : effect) :
  silent e -> ignoresEffect oneSubscription e.
Proof.
  intros He s c h t l H.
  apply (oneSubscription_app (mkWorld s c h t l) [e] s c h t H);
    cbn [log channel].
  - intros [|k]; cbn; [|rewrite firstn_nil; cbn; rewrite He];
      destruct H as [Hp _]; cbn [log] in Hp;
      specialize (Hp (length l)); now rewrite firstn_all in Hp.
  - cbn. rewrite He. exact (proj2 H).
Qed.

Lemma oneSubscription_state (f : State -> State) : keptBy oneSubscription f.
Proof. intros s c h t l H. exact H. Qed.

Lemma oneSubscription_ticks : ignoresTicks oneSubscription.
Proof. intros s c h t t' l H. exact H. Qed.

Lemma oneSubscription_hidden : ignoresHidden oneSubscription.
Proof. intros s c h h' t l H. exact H. Qed.

Lemma joinConversationChannel_oneSubscription
    (conversationId customerId : js string) :
  preserves oneSubscription
    (joinConversationChannel conversationId customerId).
Proof.
  intros w H. rewrite joinConversationChannel_run. cbn [snd]. unfold joined.
  apply oneSubscription_app; [exact H| |].
  - intro k. destruct H as [_ [E|(c & Ec & E)]]; rewrite E.
    + destruct (channel w) as [c|]; cbn [leaving app];
        do 7 (destruct k as [|k]; [cbn; lia|]); cbn; lia.
    + rewrite Ec. cbn [leaving app].
      do 7 (destruct k as [|k];
            [cbn; rewrite ?channel_eqb_refl; cbn; lia|]).
      cbn. rewrite channel_eqb_refl. cbn. lia.
  - right. eexists. split; [reflexivity|].
    destruct H as [_ [E|(c & Ec & E)]]; rewrite E.
    + now destruct (channel w).
    + rewrite Ec. cbn. now rewrite channel_eqb_refl.
Qed.

Lemma componentWillUnmount_oneSubscription :
  preserves oneSubscription componentWillUnmount.
Proof.
  intros w H. unfold componentWillUnmount, bind, getChannel, perform.
  destruct (channel w) as [c|] eqn:Ec; cbn [snd]; [|exact H].
  apply (oneSubscription_app w [ChannelLeave c]); [exact H| |].
  - intro k. destruct H as [_ [E|(c' & Ec' & E)]]; rewrite E.
    + destruct k as [|[|k]]; cbn; lia.
    + assert (c' = c) by congruence. subst c'.
      destruct k as [|[|k]]; cbn; rewrite ?channel_eqb_refl; cbn; lia.
  - left. destruct H as [_ [E|(c' & Ec' & E)]]; rewrite E; [reflexivity|].
    assert (c' = c) by congruence. subst c'. cbn.
    now rewrite channel_eqb_refl.
Qed.

Ltac subscription_side :=
  first
    [ apply oneSubscription_state
    | apply oneSubscription_ticks
    | apply oneSubscription_hidden
    | apply oneSubscription_silent; intro; reflexivity ].

Ltac subscription :=
  repeat first
    [ apply joinConversationChannel_oneSubscription
    | apply componentWillUnmount_oneSubscription
    | preserve_step
    | subscription_side ].

Section Subscriptions.

Variable config : Config.
Variable version : js string.
Variable clock : nat -> Date.
Variable backend : list effect -> Api.
Variable areDatesEqual : js string -> js string -> bool.
Variable isValidUuid : string -> bool.
Variable shouldActivateGameMode : js string -> bool.
Variable timeValue : js string -> option Z.

Lemma markMessagesAsSeen_oneSubscription :
  preserves oneSubscription (markMessagesAsSeen clock).
Proof.
  unfold markMessagesAsSeen. subscription.
  apply preserves_mapM. intro m. unfold stamp. subscription.
Qed.

Lemma fetchLatestConversation_oneSubscription (cached : js string)
    (metadata : option CustomerMetadata) :
  preserves oneSubscription
    (fetchLatestConversation config clock backend timeValue cached metadata).
Proof.
  unfold fetchLatestConversation, checkForExistingCustomer,
    getDefaultGreeting, listenForNewConversations, updateExistingCustomer.
  subscription.
Qed.

Lemma handleVisibilityChange_oneSubscription :
  preserves oneSubscription (handleVisibilityChange clock).
Proof.
  unfold handleVisibilityChange. subscription;
    try apply markMessagesAsSeen_oneSubscription.
  apply preserves_someM. intro m. unfold shouldMarkAsSeen. subscription.
Qed.

Lemma handle_oneSubscription (e : event) :
  preserves oneSubscription
    (handle config version clock backend areDatesEqual isValidUuid
       shouldActivateGameMode timeValue e).
Proof.
  destruct e; unfold handle.
  - unfold componentDidMount, isValidCustomer, listenForAgentAvailability.
    subscription; try apply fetchLatestConversation_oneSubscription.
  - unfold conversationCreated. subscription.
  - apply fetchLatestConversation_oneSubscription.
  - unfold handleSendMessage, initializeNewConversation,
      createOrUpdateCustomer.
    subscription.
  - unfold handleNewMessage. subscription;
      try apply markMessagesAsSeen_oneSubscription.
    unfold shouldMarkAsSeen. subscription.
  - unfold syncPresence. subscription.
    apply preserves_mapM. intros [|info metas]; subscription.
  - subscription. apply handleVisibilityChange_oneSubscription.
  - unfold postMessageHandlers, updateExistingCustomer, handleToggleDisplay,
      handlePapercupsPlan.
    subscription; try apply handleVisibilityChange_oneSubscription.
  - unfold emitOpenWindow. subscription.
  - unfold emitCloseWindow. subscription.
  - unfold handleLeaveGameMode. subscription.
  - apply componentWillUnmount_oneSubscription.
Qed.

Lemma run_invariant (I : World -> Prop) (es : list event) (w : World) :
  (forall e,
     In e es ->
     preserves I
       (handle config version clock backend areDatesEqual isValidUuid
          shouldActivateGameMode timeValue e)) ->
  I w ->
  I (run config version clock backend areDatesEqual isValidUuid
       shouldActivateGameMode timeValue es w).
Proof.
  revert w. induction es as [|e r IH]; intros w Hh Hw; [exact Hw|].
  cbn. apply IH.
  - intros e' He'. apply Hh. now right.
  - apply (Hh e); [now left | exact Hw].
Qed.

(** C9: [joinConversationChannel] first leaves the conversation channel
    the component holds, when it holds one, then joins the new one, which
    the component holds from then on, and sends one [conversation:join]
    notification; and in every execution, at every moment of its log, at
    most one conversation channel is joined and not left. *)
Theorem joinConversationChannel_one_at_a_time :
  (forall conversationId customerId w,
     let w' := snd (joinConversationChannel conversationId customerId w) in
     log w' =
       log w ++ leaving (channel w) ++
       [Logged Debug "Joining channel:";
        ChannelJoin (conversationChannel conversationId customerId);
        Logged Debug "Sending event from iframe:";
        PostMessage "conversation:join" (Joined conversationId customerId);
        ScrollIntoView] /\
     channel w' = Some (conversationChannel conversationId customerId)) /\
  (forall es n,
     length
       (subscribed
          (firstn n
             (log
                (run config version clock backend areDatesEqual isValidUuid
                   shouldActivateGameMode timeValue es initialWorld))))
     <= 1).
Proof.
  split.
  - intros conversationId customerId w. cbv zeta.
    rewrite joinConversationChannel_run. now cbn.
  - intros es.
    assert (H : oneSubscription
                  (run config version clock backend areDatesEqual isValidUuid
                     shouldActivateGameMode timeValue es initialWorld)).
    { apply run_invariant.
      - intros e _. apply handle_oneSubscription.
      - split; [|now left]. intro n. cbn. rewrite firstn_nil. cbn. lia. }
    exact (proj1 H).
Qed.

End Subscriptions.

(** ** What each event does to the timeline *)

Ltac timeline_side :=
  first
    [ intros ? ? ? ? ? ? H; exact H
    | intros ? ? ? ? ? H; exact H ].

Section Timeline.

Variable config : Config.
Variable version : js string.
Variable clock : nat -> Date.
Variable backend : list effect -> Api.
Variable areDatesEqual : js string -> js string -> bool.
Variable isValidUuid : string -> bool.
Variable shouldActivateGameMode : js string -> bool.
Variable timeValue : js string -> option Z.

Lemma bind_getState {A} (k : State -> M A) (w : World) :
  bind getState k w = k (state w) w.
Proof. reflexivity. Qed.

Lemma bind_setState {A} (f : State -> State) (k : unit -> M A) (w : World) :
  bind (setState f) k w =
  k tt (mkWorld (f (state w)) (channel w) (hidden w) (ticks w) (log w)).
Proof. reflexivity. Qed.

Lemma bind_now_iso {A} (k : js string -> M A) (w : World) :
  bind (now_iso clock) k w =
  k (Val (toISOString (clock (ticks w))))
    (mkWorld (state w) (channel w) (hidden w) (S (ticks w)) (log w)).
Proof. reflexivity. Qed.

Lemma someM_shouldMarkAsSeen_run (l : list Message) (w : World) :
  someM shouldMarkAsSeen l w =
  (Returned (existsb (fun m => seenWorthyb m w) l), w).
Proof.
  induction l as [|m r IH]; [reflexivity|].
  cbn [someM existsb]. unfold bind. rewrite shouldMarkAsSeen_run.
  destruct (seenWorthyb m w); [reflexivity | exact IH].
Qed.

Lemma handleVisibilityChange_timeline (w : World) :
  Forall2 seenStamped (messages (state w))
    (messages (state (snd (handleVisibilityChange clock w)))).
Proof.
  unfold handleVisibilityChange, bind, isWindowHidden, getState.
  destruct (hidden w); [apply seenStamped_refl|].
  rewrite someM_shouldMarkAsSeen_run.
  destruct (existsb _ _); [|apply seenStamped_refl].
  apply markMessagesAsSeen_stamped.
Qed.

Lemma handleToggleDisplay_timeline (open : bool) (w : World) :
  Forall2 seenStamped (messages (state w))
    (messages (state (snd (handleToggleDisplay clock open w)))).
Proof.
  unfold handleToggleDisplay. unfold bind at 1. unfold setState at 1.
  match goal with
  | |- context [bind (handleVisibilityChange clock) ?k ?x] =>
      pose proof (handleVisibilityChange_timeline x) as H;
      unfold bind;
      destruct (handleVisibilityChange clock x) as [[[]|] w1]
  end; cbn [snd fst state messages set_messages set_isOpen
            set_isTransitioning] in *; try exact H.
  destruct open; exact H.
Qed.

Lemma initializeNewConversation_timeline (existing email : js string)
    (ms : list Message) :
  preserves (fun w => messages (state w) = ms)
    (initializeNewConversation config backend existing email).
Proof.
  unfold initializeNewConversation, createOrUpdateCustomer,
    joinConversationChannel.
  preserve; timeline_side.
Qed.

(** The entry [handleSendMessage] inserts when the clock is at its
    [t]-th reading. *)
Lemma handleSendMessage_timeline (message : Message) (email : js string)
    (w : World) :
  let after :=
    messages
      (state
         (snd
            (handleSendMessage config clock backend shouldActivateGameMode
               message email w))) in
  after = messages (state w) \/
  after =
    messages (state w) ++
    [outgoing message (customerId (state w)) (Val "customer")
       (Val (toISOString (clock (ticks w)))) (conversation_id message)].
Proof.
  cbv zeta. unfold handleSendMessage. rewrite bind_getState.
  destruct (isSending (state w) || _); [now left|].
  destruct (shouldActivateGameMode (body message)); [now left|].
  right. rewrite bind_now_iso, bind_getState, bind_setState.
  cbn [state channel hidden ticks log messages].
  match goal with
  | |- messages (state (snd (?m ?x))) = ?ms =>
      assert (P : preserves (fun w' => messages (state w') = ms) m)
  end.
  { preserve; try timeline_side.
    apply initializeNewConversation_timeline. }
  apply P. reflexivity.
Qed.

Lemma untouched_timeline {A} (m : M A) (w : World) :
  preserves (fun w' => messages (state w') = messages (state w)) m ->
  Forall2 seenStamped (messages (state w)) (messages (state (snd (m w)))).
Proof. intro P. rewrite (P w eq_refl). apply seenStamped_refl. Qed.

Lemma updateExistingCustomer_timeline (customerId : js string)
    (metadata : option CustomerMetadata) (ms : list Message) :
  preserves (fun w => messages (state w) = ms)
    (updateExistingCustomer backend customerId metadata).
Proof. unfold updateExistingCustomer. preserve; timeline_side. Qed.

Lemma step_timeline (e : event) (w : World) :
  let before := messages (state w) in
  let after :=
    messages
      (state
         (step config version clock backend areDatesEqual isValidUuid
            shouldActivateGameMode timeValue w e)) in
  match e with
  | Mount | TimerFired _ => True
  | Send message _ =>
      after = before \/
      after =
        before ++
        [outgoing message (customerId (state w)) (Val "customer")
           (Val (toISOString (clock (ticks w)))) (conversation_id message)]
  | Shout message =>
      Forall2 seenStamped (reconcile areDatesEqual message before) after
  | _ => Forall2 seenStamped before after
  end.
Proof.
  cbv zeta. unfold step. destruct e; cbn [handle].
  - exact I.
  - apply untouched_timeline. unfold conversationCreated.
    preserve; timeline_side.
  - exact I.
  - apply handleSendMessage_timeline.
  - unfold bind at 1. unfold setState at 1. cbn [snd].
    match goal with
    | |- context [handleNewMessage clock areDatesEqual message ?x] =>
        exact (handleNewMessage_timeline clock areDatesEqual message x)
    end.
  - apply untouched_timeline. unfold syncPresence.
    preserve; try timeline_side.
    apply preserves_mapM. intros [|info metas]; preserve.
  - unfold bind at 1. unfold setHidden at 1.
    match goal with
    | |- context [handleVisibilityChange clock ?x] =>
        exact (handleVisibilityChange_timeline x)
    end.
  - destruct msg; unfold postMessageHandlers;
      try (unfold bind at 1; unfold perform at 1; cbn [snd];
           match goal with
           | |- Forall2 _ _ (messages (state (snd (_ ?x)))) =>
               change (messages (state w)) with (messages (state x))
           end).
    + apply untouched_timeline. apply updateExistingCustomer_timeline.
    + apply untouched_timeline. preserve; timeline_side.
    + apply handleToggleDisplay_timeline.
    + apply untouched_timeline. unfold handlePapercupsPlan.
      preserve; timeline_side.
    + apply untouched_timeline. preserve; timeline_side.
    + apply untouched_timeline. preserve.
    + apply untouched_timeline. unfold handlePapercupsPlan.
      preserve; timeline_side.
    + apply seenStamped_refl.
  - apply untouched_timeline. unfold emitOpenWindow. preserve; timeline_side.
  - apply untouched_timeline. unfold emitCloseWindow. preserve; timeline_side.
  - apply untouched_timeline. unfold handleLeaveGameMode.
    preserve; timeline_side.
  - unfold componentWillUnmount, bind, getChannel, perform.
    destruct (channel w); apply seenStamped_refl.
Qed.

End Timeline.

(** ** The greeting *)

Lemma seenStamped_keeps (l l' : list Message) (i : nat) (g : Message) :
  Forall2 seenStamped l l' -> present (seen_at g) ->
  nth_error l i = Some g -> nth_error l' i = Some g.
Proof.
  intros H Hg Hi.
  destruct (Forall2_nth_error _ _ _ _ _ H Hi) as (b & Hb & Hs & _).
  now rewrite Hb, (Hs Hg).
Qed.

Lemma keyed_keyedFor (areDatesEqual : js string -> js string -> bool)
    (m : Message) :
  keyed m -> keyedFor areDatesEqual m.
Proof. intros H y Hc _. now apply H. Qed.

Lemma datesNeedDate_keyedFor (areDatesEqual : js string -> js string -> bool)
    (m : Message) :
  datesNeedDate areDatesEqual -> keyedFor areDatesEqual m.
Proof. intros H y _ He Hs. rewrite Hs, H in He. discriminate. Qed.

Lemma seenStamped_keyedFor (areDatesEqual : js string -> js string -> bool)
    (l l' : list Message) :
  Forall2 seenStamped l l' ->
  Forall (keyedFor areDatesEqual) l -> Forall (keyedFor areDatesEqual) l'.
Proof.
  induction 1 as [|a b r r' [_ Hab] _ IH]; intro Hk; [constructor|].
  inversion Hk; subst. constructor; [|now apply IH].
  destruct Hab as [->|[t ->]]; assumption.
Qed.

Section Greeting.

Variable config : Config.
Variable version : js string.
Variable clock : nat -> Date.
Variable backend : list effect -> Api.
Variable areDatesEqual : js string -> js string -> bool.
Variable isValidUuid : string -> bool.
Variable shouldActivateGameMode : js string -> bool.
Variable timeValue : js string -> option Z.

Lemma greetingAt_greetingLike (t : nat) :
  Forall (fun g => greetingLike g /\ body g = greeting config)
    (greetingAt config clock t).
Proof.
  unfold greetingAt. destruct (truthy (greeting config)); constructor;
    [|constructor].
  repeat split; apply toISOString_truthy.
Qed.

Lemma reconcile_keeps_greeting (message g : Message) (l : list Message)
    (i : nat) :
  sent_at g = Undefined -> Forall (keyedFor areDatesEqual) l ->
  nth_error l i = Some g ->
  nth_error (reconcile areDatesEqual message l) i = Some g.
Proof.
  intros Hg Hk Hi. unfold reconcile.
  destruct (find (isUnsent areDatesEqual message) l) as [u|] eqn:E.
  - apply find_some in E. destruct E as [Hin Hu].
    apply isUnsent_optimisticFor in Hu. destruct Hu as (Hc & He & _).
    rewrite Forall_forall in Hk. specialize (Hk u Hin _ Hc He).
    rewrite nth_error_map, Hi. cbn. rewrite Hg.
    destruct (sent_at u); [congruence | reflexivity | reflexivity].
  - rewrite nth_error_app1; [exact Hi|].
    apply nth_error_Some. congruence.
Qed.

Lemma reconcile_keyedFor (message : Message) (l : list Message) :
  keyedFor areDatesEqual message -> Forall (keyedFor areDatesEqual) l ->
  Forall (keyedFor areDatesEqual) (reconcile areDatesEqual message l).
Proof.
  intros Hm Hl. unfold reconcile. destruct (find _ l) as [u|].
  - apply Forall_map. eapply Forall_impl; [|exact Hl].
    intros a Ha. now destruct (strict_eq (sent_at a) (sent_at u)).
  - apply Forall_app. split; [exact Hl | now constructor].
Qed.

Lemma step_greeting (e : event) (w : World) (i : nat) (g : Message) :
  steadyFor areDatesEqual e -> greetingLike g ->
  Forall (keyedFor areDatesEqual) (messages (state w)) ->
  nth_error (messages (state w)) i = Some g ->
  let w' :=
    step config version clock backend areDatesEqual isValidUuid
      shouldActivateGameMode timeValue w e in
  Forall (keyedFor areDatesEqual) (messages (state w')) /\
  nth_error (messages (state w')) i = Some g.
Proof.
  intros He (Hc & Hs & Hu & Hsent) Hk Hi. cbv zeta.
  pose proof (step_timeline config version clock backend areDatesEqual
                isValidUuid shouldActivateGameMode timeValue e w) as T.
  cbv zeta in T. destruct e; cbn [steadyFor] in He; try contradiction;
    try (split; [exact (seenStamped_keyedFor _ _ _ T Hk)
                | exact (seenStamped_keeps _ _ _ _ T Hs Hi)]).
  - destruct T as [-> | ->]; [now split|]. split.
    + apply Forall_app. split; [exact Hk|]. constructor; [|constructor].
      intros y _ _. discriminate.
    + rewrite nth_error_app1; [exact Hi|].
      apply nth_error_Some. congruence.
  - split.
    + apply (seenStamped_keyedFor _ _ _ T). now apply reconcile_keyedFor.
    + apply (seenStamped_keeps _ _ _ _ T Hs).
      now apply reconcile_keeps_greeting.
Qed.

Lemma run_greeting (es : list event) (w : World) (i : nat) (g : Message) :
  greetingLike g ->
  Forall (steadyFor areDatesEqual) es ->
  Forall (keyedFor areDatesEqual) (messages (state w)) ->
  nth_error (messages (state w)) i = Some g ->
  nth_error
    (messages
       (state
          (run config version clock backend areDatesEqual isValidUuid
             shouldActivateGameMode timeValue es w))) i
  = Some g.
Proof.
  intro Hg. revert w. induction es as [|e r IH]; intros w He Hk Hi;
    [exact Hi|].
  inversion He as [|? ? He1 He2]; subst. cbn [run fold_left].
  destruct (step_greeting e w i g He1 Hg Hk Hi) as [Hk' Hi'].
  now apply IH.
Qed.

(** C10: the entries [getDefaultGreeting] builds have [created_at] and
    [seen_at] set, no [user_id] and the configured text as body.  An
    entry built this way is never the optimistic entry of an inbound
    message, is returned as it is by the stamping of
    [markMessagesAsSeen], is not an unseen message of an agent and is not
    worth marking as seen.  It stays at its place in the timeline, as it
    is, along every sequence of events that does not build the timeline
    anew: on every timeline when the comparison of dates finds an absent
    date equal to none, and otherwise when the entries of the timeline
    and the inbound messages are keyed. *)
Theorem greeting_stays_as_built :
  (forall w l,
     fst (getDefaultGreeting config clock w) = Returned l ->
     Forall (fun g => greetingLike g /\ body g = greeting config) l) /\
  (forall g,
     greetingLike g ->
     (forall message, isUnsent areDatesEqual message g = false) /\
     (forall w, stamp clock g w = (Returned g, w)) /\
     isUnseenAgentMessage g = false /\
     (forall w, shouldMarkAsSeen g w = (Returned false, w)) /\
     (forall es w i,
        datesNeedDate areDatesEqual ->
        Forall (fun e => ~ rebuilds e) es ->
        nth_error (messages (state w)) i = Some g ->
        nth_error
          (messages
             (state
                (run config version clock backend areDatesEqual isValidUuid
                   shouldActivateGameMode timeValue es w))) i
        = Some g) /\
     (forall es w i,
        Forall steady es ->
        Forall keyed (messages (state w)) ->
        nth_error (messages (state w)) i = Some g ->
        nth_error
          (messages
             (state
                (run config version clock backend areDatesEqual isValidUuid
                   shouldActivateGameMode timeValue es w))) i
        = Some g)).
Proof.
  split.
  - intros w l H. rewrite getDefaultGreeting_run in H. cbn in H.
    inversion H. apply greetingAt_greetingLike.
  - intros g Hg. pose proof Hg as (Hc & Hs & Hu & Hsent).
    unfold present in Hc, Hs.
    split; [|split; [|split; [|split; [|split]]]].
    + intro message. unfold isUnsent. now rewrite Hc.
    + intro w. unfold stamp. now rewrite Hs.
    + unfold isUnseenAgentMessage. now rewrite Hs.
    + intro w. rewrite shouldMarkAsSeen_run. unfold seenWorthyb.
      now rewrite Hs.
    + intros es w i Hd He Hi. apply run_greeting; try assumption.
      * eapply Forall_impl; [|exact He].
        intros e Hr. destruct e; cbn in *; try exact I; try now elim Hr.
        now apply datesNeedDate_keyedFor.
      * apply Forall_forall. intros m _. now apply datesNeedDate_keyedFor.
    + intros es w i He Hk Hi. apply run_greeting; try assumption.
      * eapply Forall_impl; [|exact He].
        intros e Hr. destruct e; cbn in *; try exact I; try contradiction.
        now apply keyed_keyedFor.
      * eapply Forall_impl; [|exact Hk].
        intros m. apply keyed_keyedFor.
Qed.

End Greeting.

(** ** The theorems at work on sample data *)

Lemma fetchLatestConversation_timeline_witness :
  let newer := Sample.fromAgent "second" "2021-03-04T11:59:00.000Z" in
  let older := Sample.fromAgent "first" "2021-03-04T11:58:00.000Z" in
  let backend := fun _ : list effect =>
    Sample.serving (mkConversation (Val "conv-1") [newer; older]) in
  let w' :=
    snd (fetchLatestConversation Sample.config Sample.frozen backend
           Sample.epoch (Val "cust-1") None Sample.initial) in
  messages (state w') =
  greetingAt Sample.config Sample.frozen 0 ++ [older; newer].
Proof.
  exact (proj1 (fetchLatestConversation_timeline Sample.config Sample.frozen
                  (fun _ =>
                     Sample.serving
                       (mkConversation (Val "conv-1")
                          [Sample.fromAgent "second" "2021-03-04T11:59:00.000Z";
                           Sample.fromAgent "first" "2021-03-04T11:58:00.000Z"]))
                  Sample.epoch Sample.initial
                  (mkWorld (set_customerId (Val "cust-1") initialState) None
                     false 0 [])
                  (Val "cust-1") None (Val "cust-1")
                  (mkConversation (Val "conv-1")
                     [Sample.fromAgent "second" "2021-03-04T11:59:00.000Z";
                      Sample.fromAgent "first" "2021-03-04T11:58:00.000Z"])
                  [] eq_refl eq_refl eq_refl)).
Defined.

Lemma greeting_stays_as_built_witness :
  let g :=
    mkMessage Undefined (Val "Hi!") None (Val "bot") Undefined (Val "bot")
      Undefined (Val (toISOString Sample.noon)) (Val (toISOString Sample.noon))
      Undefined in
  let w := Sample.worldWith [g; Sample.pending "hello" Sample.later] in
  let es :=
    [Shout (Sample.echo "hello" Sample.later);
     HostMessage (PapercupsToggle true);
     Send (Sample.draft "more") Undefined] in
  let after (w' : World) :=
    nth_error
      (messages
         (state
            (run Sample.config Undefined Sample.ticking (fun _ => Sample.down)
               Sample.sameText Sample.anyUuid Sample.noGame Sample.epoch
               es w'))) 0 in
  after w = Some g /\ after (Sample.unjoined [g; Sample.blankMessage]) = Some g.
Proof.
  cbv zeta.
  assert (Hg : greetingLike
                 (mkMessage Undefined (Val "Hi!") None (Val "bot") Undefined
                    (Val "bot") Undefined (Val (toISOString Sample.noon))
                    (Val (toISOString Sample.noon)) Undefined)).
  { repeat split. }
  destruct (proj2 (greeting_stays_as_built Sample.config Undefined
                     Sample.ticking (fun _ => Sample.down) Sample.sameText
                     Sample.anyUuid Sample.noGame Sample.epoch) _ Hg)
    as (_ & _ & _ & _ & Hdates & Hkeyed).
  split.
  - apply Hkeyed.
    + repeat constructor. intros _. discriminate.
    + repeat constructor; intro A; discriminate.
    + reflexivity.
  - apply Hdates.
    + intro y. reflexivity.
    + repeat constructor; intros [].
    + reflexivity.
Defined.

(** C2 as stated fails: after the mount, two sends of the same text that
    read the same time leave two entries with the same [sent_at] and body
    in the timeline, both of them the customer's. *)
Lemma two_sends_at_one_time :
  let w :=
    run Sample.config Undefined Sample.frozen
      (fun _ => Sample.serving (mkConversation (Val "conv-1") []))
      Sample.sameText Sample.anyUuid Sample.noGame Sample.epoch
      [Mount; Send (Sample.draft "hi") Undefined;
       Send (Sample.draft "hi") Undefined]
      initialWorld in
  messages (state w) =
    greetingAt Sample.config Sample.frozen 0 ++
    [Sample.pending "hi" Sample.noon; Sample.pending "hi" Sample.noon] /\
  ~ oneSlotPerKey (messages (state w)) /\
  ~ oneSlotPerCustomerKey (messages (state w)).
Proof.
  cbv zeta. split; [reflexivity|]. split.
  - intro H. specialize (H 1 2 _ _ eq_refl eq_refl eq_refl eq_refl).
    discriminate.
  - intro H.
    assert (C : ofCustomer (Sample.pending "hi" Sample.noon))
      by (split; reflexivity).
    specialize (H 1 2 _ _ eq_refl eq_refl C C eq_refl eq_refl).
    discriminate.
Qed.

(** What [handleNewMessage] does when two entries carry the [sent_at] of
    the entry an inbound message confirms: the message takes both
    places. *)
Lemma message_takes_every_slot_of_its_key :
  let w :=
    run Sample.config Undefined Sample.frozen (fun _ => Sample.down)
        Sample.sameText Sample.anyUuid
      Sample.noGame Sample.epoch
      [Send (Sample.draft "a") Undefined; Send (Sample.draft "b") Undefined;
       Shout (Sample.echo "a" Sample.noon)]
      (Sample.worldWith []) in
  messages (state w) =
    [Sample.echo "a" Sample.noon; Sample.echo "a" Sample.noon].
Proof. reflexivity. Qed.

(** The same when the second entry is an agent's message that carries
    the [sent_at] of an entry still waiting for its confirmation: the
    confirmation takes the agent's slot as well. *)
Lemma message_takes_the_slot_of_an_agent :
  let w :=
    run Sample.config Undefined Sample.frozen (fun _ => Sample.down)
      Sample.sameText Sample.anyUuid Sample.noGame Sample.epoch
      [Send (Sample.draft "a") Undefined;
       Shout (Sample.fromAgent "b" (toISOString Sample.noon));
       Shout (Sample.echo "a" Sample.noon)]
      (Sample.worldWith []) in
  messages (state w) =
    [Sample.echo "a" Sample.noon; Sample.echo "a" Sample.noon].
Proof. reflexivity. Qed.

(** A run in which [markMessagesAsSeen] is called and returns at once: the
    customer is found at the mount and has no conversation, sends a first
    message, and is not found any more when the lobby's fetch comes; the
    agent's message that arrives then, with the window open and the page
    visible, stays without [seen_at] and no [messages:seen] is pushed. *)
Lemma unseen_after_the_customer_is_lost :
  let agent := Sample.fromAgent "hello" "2021-03-04T11:59:00.000Z" in
  let w :=
    run Sample.identifiedConfig Undefined Sample.ticking Sample.forgetful
      Sample.sameText Sample.anyUuid Sample.noGame Sample.epoch
      [Mount; HostMessage (PapercupsToggle true);
       Send (Sample.draft "hi") Undefined; ConversationCreated;
       TimerFired (Val "cust-1"); Shout agent]
      initialWorld in
  customerId (state w) = Null /\
  channel w = Some Sample.live /\
  nth_error (messages (state w)) 1 = Some agent /\
  seenWorthy agent w /\
  filter (fun p => snd (fst p) =? "messages:seen") (pushes (log w)) = [].
Proof. cbv zeta. repeat split. Qed.

(** * More of the component *)

(** ** The other ways of [fetchLatestConversation] *)

Section FetchBranches.

Variable config : Config.
Variable clock : nat -> Date.
Variable backend : list effect -> Api.
Variable timeValue : js string -> option Z.

Lemma fetchLatestConversation_run_visitor (w w1 : World)
    (cached : js string) (metadata : option CustomerMetadata)
    (customerId : js string) :
  checkForExistingCustomer config backend metadata cached w =
    (Returned customerId, w1) ->
  absent customerId ->
  fetchLatestConversation config clock backend timeValue cached metadata w =
  (Returned tt,
   mkWorld (set_messages (greetingAt config clock (ticks w1)) (state w1))
     (channel w1) (hidden w1)
     (if truthy (greeting config) then S (S (ticks w1)) else ticks w1)
     (log w1)).
Proof.
  intros Hc Ha. unfold fetchLatestConversation.
  unfold bind at 1. rewrite Hc. unfold absent in Ha. rewrite Ha. cbn [negb].
  unfold bind. now rewrite getDefaultGreeting_run.
Qed.

(** X1: when the identity resolves to no customer, [fetchLatestConversation]
    returns with the greeting as the whole timeline and does nothing else:
    no request for conversations goes out, no channel is joined, the log is
    as the resolution left it. *)
Theorem fetchLatestConversation_unseen_visitor (w w1 : World)
    (cached : js string) (metadata : option CustomerMetadata)
    (customerId : js string) :
  checkForExistingCustomer config backend metadata cached w =
    (Returned customerId, w1) ->
  absent customerId ->
  let r :=
    fetchLatestConversation config clock backend timeValue cached metadata w in
  fst r = Returned tt /\
  messages (state (snd r)) = greetingAt config clock (ticks w1) /\
  conversationId (state (snd r)) = conversationId (state w1) /\
  channel (snd r) = channel w1 /\
  log (snd r) = log w1.
Proof.
  intros Hc Ha. cbv zeta.
  rewrite (fetchLatestConversation_run_visitor w w1 _ _ _ Hc Ha).
  repeat split.
Qed.

Lemma fetchLatestConversation_run_lobby (w w1 : World)
    (cached : js string) (metadata : option CustomerMetadata)
    (customerId : js string) :
  checkForExistingCustomer config backend metadata cached w =
    (Returned customerId, w1) ->
  present customerId ->
  fetchCustomerConversations
    (backend
       (log w1 ++ [Logged Debug "Fetching conversations for customer:"]))
    customerId (accountId config) = Ok [] ->
  fetchLatestConversation config clock backend timeValue cached metadata w =
  (Returned tt,
   mkWorld (set_messages (greetingAt config clock (ticks w1)) (state w1))
     (channel w1) (hidden w1)
     (if truthy (greeting config) then S (S (ticks w1)) else ticks w1)
     (log w1 ++
      [Logged Debug "Fetching conversations for customer:";
       Request (FetchCustomerConversations customerId (accountId config));
       Logged Debug "Found existing conversations:";
       ChannelJoin
         (mkChannel LobbyChannel
            ("conversation:lobby:" ++ to_string customerId) Undefined)])).
Proof.
  intros Hc Hp Hf. unfold fetchLatestConversation.
  unfold bind at 1. rewrite Hc. unfold present in Hp. rewrite Hp. cbn [negb].
  unfold bind at 1. unfold perform at 1. unfold try_catch.
  unfold bind at 1. unfold call at 1. cbn [log state channel hidden ticks].
  rewrite Hf.
  unfold bind at 1. unfold perform at 1. cbn [log state channel hidden ticks].
  unfold bind at 1. rewrite getDefaultGreeting_run.
  unfold listenForNewConversations, bind, setState, perform.
  cbn [log state channel hidden ticks fst snd].
  now rewrite <- !app_assoc.
Qed.

(** X2: when the customer has no conversation yet, the timeline is the
    greeting alone and the component joins the lobby of that customer; it
    joins no conversation channel and keeps the channel it holds. *)
Theorem fetchLatestConversation_waits_in_lobby (w w1 : World)
    (cached : js string) (metadata : option CustomerMetadata)
    (customerId : js string) :
  checkForExistingCustomer config backend metadata cached w =
    (Returned customerId, w1) ->
  present customerId ->
  fetchCustomerConversations
    (backend
       (log w1 ++ [Logged Debug "Fetching conversations for customer:"]))
    customerId (accountId config) = Ok [] ->
  let r :=
    fetchLatestConversation config clock backend timeValue cached metadata w in
  fst r = Returned tt /\
  messages (state (snd r)) = greetingAt config clock (ticks w1) /\
  conversationId (state (snd r)) = conversationId (state w1) /\
  channel (snd r) = channel w1 /\
  log (snd r) =
    log w1 ++
    [Logged Debug "Fetching conversations for customer:";
     Request (FetchCustomerConversations customerId (accountId config));
     Logged Debug "Found existing conversations:";
     ChannelJoin
       (mkChannel LobbyChannel
          ("conversation:lobby:" ++ to_string customerId) Undefined)].
Proof.
  intros Hc Hp Hf. cbv zeta.
  rewrite (fetchLatestConversation_run_lobby w w1 _ _ _ Hc Hp Hf).
  repeat split.
Qed.

Lemma fetchLatestConversation_run_failure (w w1 : World)
    (cached : js string) (metadata : option CustomerMetadata)
    (customerId : js string) :
  checkForExistingCustomer config backend metadata cached w =
    (Returned customerId, w1) ->
  present customerId ->
  fetchCustomerConversations
    (backend
       (log w1 ++ [Logged Debug "Fetching conversations for customer:"]))
    customerId (accountId config) = Failed ->
  fetchLatestConversation config clock backend timeValue cached metadata w =
  (Returned tt,
   mkWorld (state w1) (channel w1) (hidden w1) (ticks w1)
     (log w1 ++
      [Logged Debug "Fetching conversations for customer:";
       Request (FetchCustomerConversations customerId (accountId config));
       Logged Debug "Error fetching conversations!"])).
Proof.
  intros Hc Hp Hf. unfold fetchLatestConversation.
  unfold bind at 1. rewrite Hc. unfold present in Hp. rewrite Hp. cbn [negb].
  unfold bind at 1. unfold perform at 1. unfold try_catch.
  unfold bind at 1. unfold call at 1. cbn [log state channel hidden ticks].
  rewrite Hf. unfold perform. cbn [log state channel hidden ticks].
  now rewrite <- !app_assoc.
Qed.

(** X3: a failure of the request for the conversations is caught:
    [fetchLatestConversation] returns, the state and the channel are as the
    identity resolution left them, and nothing is joined or notified. *)
Theorem fetchLatestConversation_survives_failure (w w1 : World)
    (cached : js string) (metadata : option CustomerMetadata)
    (customerId : js string) :
  checkForExistingCustomer config backend metadata cached w =
    (Returned customerId, w1) ->
  present customerId ->
  fetchCustomerConversations
    (backend
       (log w1 ++ [Logged Debug "Fetching conversations for customer:"]))
    customerId (accountId config) = Failed ->
  let r :=
    fetchLatestConversation config clock backend timeValue cached metadata w in
  fst r = Returned tt /\
  state (snd r) = state w1 /\
  channel (snd r) = channel w1 /\
  log (snd r) =
    log w1 ++
    [Logged Debug "Fetching conversations for customer:";
     Request (FetchCustomerConversations customerId (accountId config));
     Logged Debug "Error fetching conversations!"].
Proof.
  intros Hc Hp Hf. cbv zeta.
  rewrite (fetchLatestConversation_run_failure w w1 _ _ _ Hc Hp Hf).
  repeat split.
Qed.

(** X4: a failure of the lookup by external id is not caught:
    [fetchLatestConversation] throws after that one request, with the
    state, the timeline and the channel untouched. *)
Theorem fetchLatestConversation_lookup_failure (w : World)
    (cached : js string) (md : CustomerMetadata) :
  present (external_id md) ->
  findCustomerByExternalId (backend (log w)) (external_id md)
    (accountId config) (email md) (host md) = Failed ->
  fetchLatestConversation config clock backend timeValue cached (Some md) w =
  (Thrown,
   mkWorld (state w) (channel w) (hidden w) (ticks w)
     (log w ++
      [Request
         (FindCustomerByExternalId (external_id md) (accountId config)
            (email md) (host md))])).
Proof.
  intros Hp Hf. unfold fetchLatestConversation, checkForExistingCustomer.
  unfold present in Hp. rewrite Hp. cbn [negb].
  unfold bind, call. now rewrite Hf.
Qed.

End FetchBranches.

(** ** Customers *)

Section Customers.

Variable config : Config.
Variable backend : list effect -> Api.

(** X5: [createOrUpdateCustomer] asks once, updating the existing customer
    or creating one; when that request succeeds it returns the id, and
    notifies [customer:created] only for a created customer.  When it
    fails, the second attempt creates a new customer whatever the existing
    id was: its id is returned and notified, or the failure is thrown and
    nothing is notified.  The state is never changed. *)
Theorem createOrUpdateCustomer_retries_by_creating (w : World)
    (existing email : js string) :
  let md := metadataFor config email in
  let first := firstRequest config existing email in
  let r :=
    createOrUpdateCustomer config backend (accountId config) existing email
      w in
  (forall id,
     firstAnswer config backend existing email (log w) = Ok id ->
     fst r = Returned id /\
     requests (log (snd r)) = requests (log w) ++ [first] /\
     notifications (log (snd r)) =
       notifications (log w) ++
       (if truthy existing then []
        else [("customer:created", CustomerId id)])) /\
  (firstAnswer config backend existing email (log w) = Failed ->
   requests (log (snd r)) =
     requests (log w) ++ [first; CreateNewCustomer (accountId config) md] /\
   (forall id,
      createNewCustomer
        (backend (retryHistory config existing email (log w)))
        (accountId config) md = Ok id ->
      fst r = Returned id /\
      notifications (log (snd r)) =
        notifications (log w) ++ [("customer:created", CustomerId id)]) /\
   (createNewCustomer
      (backend (retryHistory config existing email (log w)))
      (accountId config) md = Failed ->
    fst r = Thrown /\
    notifications (log (snd r)) = notifications (log w))) /\
  state (snd r) = state w.
Proof.
  cbv zeta.
  unfold createOrUpdateCustomer, firstAnswer, retryHistory, firstRequest,
    metadataFor.
  unfold try_catch, bind, call, when, emit, perform, ret.
  cbn [state channel hidden ticks log].
  destruct (truthy existing); cbn [negb];
    match goal with
    | |- context [updateCustomerMetadata ?a ?b ?c] =>
        destruct (updateCustomerMetadata a b c) as [i|] eqn:E1
    | |- context [createNewCustomer (backend (log w)) ?b ?c] =>
        destruct (createNewCustomer (backend (log w)) b c) as [i|] eqn:E1
    end;
    cbn [fst snd state log];
    rewrite <- ?app_assoc; cbn [app];
    try match goal with
    | |- context [createNewCustomer (backend ?h) ?b ?c] =>
        destruct (createNewCustomer (backend h) b c) as [j|] eqn:E2
    end;
    cbn [fst snd state log];
    rewrite <- ?app_assoc, ?requests_app, ?notifications_app; cbn;
    rewrite ?app_nil_r;
    repeat split; intros;
    rewrite <- ?app_assoc, ?requests_app, ?notifications_app; cbn;
    rewrite ?app_nil_r; try congruence.
Qed.

(** X6: [updateExistingCustomer] never throws and touches nothing of the
    component: whatever the backend answers, the state and the channel are
    as before and nothing is notified or pushed.  Without metadata no
    request goes out. *)
Theorem updateExistingCustomer_is_harmless (w : World)
    (customerId : js string) (metadata : option CustomerMetadata) :
  let r := updateExistingCustomer backend customerId metadata w in
  fst r = Returned tt /\
  state (snd r) = state w /\
  channel (snd r) = channel w /\
  notifications (log (snd r)) = notifications (log w) /\
  pushes (log (snd r)) = pushes (log w) /\
  requests (log (snd r)) =
    requests (log w) ++
    match metadata with
    | Some _ => [UpdateCustomerMetadata customerId metadata]
    | None => []
    end.
Proof.
  cbv zeta. unfold updateExistingCustomer.
  destruct metadata as [md|]; [|cbn; now rewrite app_nil_r].
  unfold try_catch, bind, call, perform, ret.
  destruct (updateCustomerMetadata _ _ _); cbn;
    rewrite <- ?app_assoc, ?requests_app, ?notifications_app, ?pushes_app;
    cbn; rewrite ?app_nil_r; repeat split.
Qed.

End Customers.

(** ** Sending a draft *)

Lemma find_snoc {A} (f : A -> bool) (l : list A) (x : A) :
  find f l = None -> find f (l ++ [x]) = if f x then Some x else None.
Proof.
  induction l as [|a r IH]; cbn; [reflexivity|].
  destruct (f a); [discriminate | exact IH].
Qed.

Section SendingOn.

Variable config : Config.
Variable clock : nat -> Date.
Variable backend : list effect -> Api.
Variable areDatesEqual : js string -> js string -> bool.
Variable shouldActivateGameMode : js string -> bool.

Lemma accepted_guard (message : Message) (w : World) :
  accepted shouldActivateGameMode message w ->
  isSending (state w) ||
  isMissingBody (body message) && isMissingAttachments (file_ids message)
  = false.
Proof.
  intros (Hs & Hb & _). rewrite Hs. cbn.
  destruct (isMissingBody (body message)) eqn:E1; [|reflexivity].
  destruct (isMissingAttachments (file_ids message)) eqn:E2; [|reflexivity].
  exfalso. apply Hb. split.
  - now apply isMissingBody_blank.
  - now apply isMissingAttachments_none.
Qed.

Lemma sentSoFar_ignores (ms : list Message)
    (p : list (Channel * string * payload)) (n : list payload) (e : effect) :
  pushes [e] = [] -> notified "message:sent" [e] = [] ->
  ignoresEffect (sentSoFar ms p n) e.
Proof.
  intros H1 H2 s c h t l (Hm & Hp & Hn). repeat split; cbn [log state].
  - exact Hm.
  - now rewrite pushes_app, H1, app_nil_r.
  - now rewrite notified_app, H2, app_nil_r.
Qed.

Lemma initializeNewConversation_sentSoFar (existing email : js string)
    (ms : list Message) (p : list (Channel * string * payload))
    (n : list payload) :
  preserves (sentSoFar ms p n)
    (initializeNewConversation config backend existing email).
Proof.
  unfold initializeNewConversation, createOrUpdateCustomer,
    joinConversationChannel.
  preserve;
    try (apply sentSoFar_ignores; reflexivity);
    try (intros ? ? ? ? ? ? H; exact H);
    try (intros ? ? ? ? ? H; exact H).
Qed.

Lemma handleSendMessage_run (message : Message) (email : js string)
    (w : World) :
  accepted shouldActivateGameMode message w ->
  handleSendMessage config clock backend shouldActivateGameMode message email
    w =
  let w1 :=
    mkWorld
      (set_messages (messages (state w) ++ [optimisticEntry clock message w])
         (state w))
      (channel w) (hidden w) (S (ticks w)) (log w ++ [ScrollIntoView]) in
  let push (w2 : World) :=
    match channel w2 with
    | None => (Returned tt, w2)
    | Some c =>
        (Returned tt,
         mkWorld (state w2) (channel w2) (hidden w2) (ticks w2)
           (log w2 ++
            [ChannelPush c "shout"
               (OfMessage
                  (outgoing message (customerId (state w2)) (type message)
                     (sentAtIn clock w) (conversation_id message)));
             Logged Debug "Sending event from iframe:";
             PostMessage "message:sent"
               (OfMessage
                  (outgoing message (customerId (state w2)) (Val "customer")
                     (sentAtIn clock w) (conversationId (state w2))))]))
    end in
  if negb (truthy (customerId (state w))) ||
     negb (truthy (conversationId (state w)))
  then
    match
      initializeNewConversation config backend (customerId (state w)) email w1
    with
    | (Returned _, w2) => push w2
    | (Thrown, w2) => (Thrown, w2)
    end
  else push w1.
Proof.
  intro Ha. pose proof (accepted_guard message w Ha) as G.
  destruct Ha as (_ & _ & Hg). cbv zeta.
  unfold handleSendMessage. rewrite bind_getState, G, Hg.
  rewrite bind_now_iso, bind_getState, bind_setState.
  unfold bind at 1. unfold scrollIntoView at 1. unfold perform at 1.
  cbn [state channel hidden ticks log messages].
  unfold optimisticEntry, sentAtIn.
  assert (P : forall w2 : World,
            (ch <- getChannel ;;
             match ch with
             | Some c =>
                 after <- getState ;;
                 perform
                   (ChannelPush c "shout"
                      (OfMessage
                         (outgoing message (customerId after) (type message)
                            (Val (toISOString (clock (ticks w))))
                            (conversation_id message)))) ;;
                 emit "message:sent"
                   (OfMessage
                      (outgoing message (customerId after) (Val "customer")
                         (Val (toISOString (clock (ticks w))))
                         (conversationId after)))
             | None => ret tt
             end)%monad w2 =
            match channel w2 with
            | None => (Returned tt, w2)
            | Some c =>
                (Returned tt,
                 mkWorld (state w2) (channel w2) (hidden w2) (ticks w2)
                   (log w2 ++
                    [ChannelPush c "shout"
                       (OfMessage
                          (outgoing message (customerId (state w2))
                             (type message)
                             (Val (toISOString (clock (ticks w))))
                             (conversation_id message)));
                     Logged Debug "Sending event from iframe:";
                     PostMessage "message:sent"
                       (OfMessage
                          (outgoing message (customerId (state w2))
                             (Val "customer")
                             (Val (toISOString (clock (ticks w))))
                             (conversationId (state w2))))]))
            end).
  { intro w2. unfold emit. unfold bind, getChannel, getState, perform, ret.
    destruct (channel w2) as [c|] eqn:Ec; [|reflexivity].
    cbn [state channel hidden ticks log]. rewrite ?Ec.
    now rewrite <- !app_assoc. }
  destruct (negb (truthy (customerId (state w))) ||
            negb (truthy (conversationId (state w)))).
  - unfold bind at 1. unfold bind at 1.
    match goal with
    | |- context [initializeNewConversation config backend ?a ?b ?x] =>
        destruct (initializeNewConversation config backend a b x)
          as [[ids|] w2]
    end; [|reflexivity].
    unfold ret at 1. rewrite P. reflexivity.
  - unfold bind at 1. unfold ret at 1. rewrite P. reflexivity.
Qed.

Lemma guard_accepted (message : Message) (w : World) :
  isSending (state w) ||
  isMissingBody (body message) && isMissingAttachments (file_ids message)
  = false ->
  shouldActivateGameMode (body message) = false ->
  accepted shouldActivateGameMode message w.
Proof.
  intros G Hg. apply orb_false_iff in G. destruct G as [Hs Hm].
  repeat split; try assumption.
  intros [Hb Hf]. apply isMissingBody_blank in Hb.
  apply isMissingAttachments_none in Hf. rewrite Hb, Hf in Hm. discriminate.
Qed.

(** X7: with a customer and a conversation, an accepted draft is inserted
    at the end of the timeline at once, with the clock's reading as
    [sent_at]; no request goes out; and on the channel the component holds
    exactly one [shout] is pushed and one [message:sent] is notified, both
    with the [sent_at] of the inserted entry.  Without a channel nothing is
    pushed or notified. *)
Theorem handleSendMessage_sends_what_it_inserts (w : World)
    (message : Message) (email : js string) :
  accepted shouldActivateGameMode message w ->
  present (customerId (state w)) ->
  present (conversationId (state w)) ->
  let r :=
    handleSendMessage config clock backend shouldActivateGameMode message
      email w in
  fst r = Returned tt /\
  messages (state (snd r)) =
    messages (state w) ++ [optimisticEntry clock message w] /\
  requests (log (snd r)) = requests (log w) /\
  pushes (log (snd r)) =
    pushes (log w) ++
    match channel w with
    | Some c =>
        [(c, "shout",
          OfMessage
            (outgoing message (customerId (state w)) (type message)
               (sentAtIn clock w) (conversation_id message)))]
    | None => []
    end /\
  notified "message:sent" (log (snd r)) =
    notified "message:sent" (log w) ++
    match channel w with
    | Some _ =>
        [OfMessage
           (outgoing message (customerId (state w)) (Val "customer")
              (sentAtIn clock w) (conversationId (state w)))]
    | None => []
    end.
Proof.
  intros Ha Hc Hv. cbv zeta. rewrite (handleSendMessage_run _ _ _ Ha).
  unfold present in Hc, Hv. rewrite Hc, Hv. cbn [negb orb].
  cbv zeta. cbn [channel].
  destruct (channel w) as [c|]; cbn [fst snd state log messages set_messages
    customerId conversationId];
    rewrite ?requests_app, ?pushes_app, ?notified_app; cbn;
    rewrite ?app_nil_r; repeat split.
Qed.

Lemma initializeNewConversation_run_created (w : World)
    (existing email cid vid : js string) :
  absent existing ->
  (forall h,
     createNewCustomer (backend h) (accountId config)
       (metadataFor config email) = Ok cid) ->
  (forall h,
     createNewConversation (backend h) (accountId config) cid = Ok vid) ->
  initializeNewConversation config backend existing email w =
  (Returned (cid, vid),
   mkWorld (set_conversation cid vid (state w))
     (Some (conversationChannel vid cid)) (hidden w) (ticks w)
     (log w ++
      [Request (CreateNewCustomer (accountId config) (metadataFor config email));
       Logged Debug "Sending event from iframe:";
       PostMessage "customer:created" (CustomerId cid);
       Request (CreateNewConversation (accountId config) cid)] ++
      leaving (channel w) ++
      [Logged Debug "Joining channel:";
       ChannelJoin (conversationChannel vid cid);
       Logged Debug "Sending event from iframe:";
       PostMessage "conversation:join" (Joined vid cid);
       ScrollIntoView])).
Proof.
  intros Ha Hc Hv. unfold initializeNewConversation, createOrUpdateCustomer.
  fold (metadataFor config email). unfold absent in Ha. rewrite Ha.
  cbn [negb when].
  unfold try_catch, emit. unfold bind, call, perform, setState, ret.
  rewrite Hc. cbn [state channel hidden ticks log]. rewrite Hv.
  rewrite joinConversationChannel_run. unfold joined.
  cbn [state channel hidden ticks log]. now rewrite <- !app_assoc.
Qed.

(** X8: the first message of a customer the component does not know, with
    a backend that creates customer [cid] and conversation [vid]: the
    component adopts both ids, holds the channel of the new conversation
    joined as that customer, and pushes the [shout] on that channel with
    the new customer id; the host page is told [customer:created],
    [conversation:join] and [message:sent], in this order.  The entry that
    was inserted before the creation still carries the customer id of
    before. *)
Theorem handleSendMessage_first_message (w : World) (message : Message)
    (email cid vid : js string) :
  accepted shouldActivateGameMode message w ->
  absent (customerId (state w)) ->
  (forall h,
     createNewCustomer (backend h) (accountId config)
       (metadataFor config email) = Ok cid) ->
  (forall h,
     createNewConversation (backend h) (accountId config) cid = Ok vid) ->
  let r :=
    handleSendMessage config clock backend shouldActivateGameMode message
      email w in
  fst r = Returned tt /\
  customerId (state (snd r)) = cid /\
  conversationId (state (snd r)) = vid /\
  channel (snd r) = Some (conversationChannel vid cid) /\
  messages (state (snd r)) =
    messages (state w) ++ [optimisticEntry clock message w] /\
  customer_id (optimisticEntry clock message w) = customerId (state w) /\
  pushes (log (snd r)) =
    pushes (log w) ++
    [(conversationChannel vid cid, "shout",
      OfMessage
        (outgoing message cid (type message) (sentAtIn clock w)
           (conversation_id message)))] /\
  notifications (log (snd r)) =
    notifications (log w) ++
    [("customer:created", CustomerId cid);
     ("conversation:join", Joined vid cid);
     ("message:sent",
      OfMessage
        (outgoing message cid (Val "customer") (sentAtIn clock w) vid))].
Proof.
  intros Ha Hn Hc Hv. cbv zeta. rewrite (handleSendMessage_run _ _ _ Ha).
  pose proof Hn as Hn'. unfold absent in Hn'. rewrite Hn'. cbn [negb orb].
  cbv zeta.
  rewrite (initializeNewConversation_run_created _ _ _ cid vid Hn Hc Hv).
  cbn [channel fst snd state log messages set_messages set_conversation
       set_conversationId set_customerId customerId conversationId].
  rewrite !pushes_app, !notifications_app.
  assert (L1 : pushes (leaving (channel w)) = []) by now destruct (channel w).
  assert (L2 : notifications (leaving (channel w)) = [])
    by now destruct (channel w).
  rewrite L1, L2. cbn. rewrite ?app_nil_r, <- ?app_assoc. repeat split.
Qed.

(** X9: [handleSendMessage] throws only when the customer or the
    conversation had to be created and could not be.  The draft then stays
    in the timeline as the entry inserted before the attempt, and nothing
    of it was pushed or notified as sent. *)
Theorem handleSendMessage_failure_keeps_entry (w : World)
    (message : Message) (email : js string) :
  let r :=
    handleSendMessage config clock backend shouldActivateGameMode message
      email w in
  fst r = Thrown ->
  (absent (customerId (state w)) \/ absent (conversationId (state w))) /\
  messages (state (snd r)) =
    messages (state w) ++ [optimisticEntry clock message w] /\
  pushes (log (snd r)) = pushes (log w) /\
  notified "message:sent" (log (snd r)) = notified "message:sent" (log w).
Proof.
  cbv zeta. intro H.
  assert (Ha : accepted shouldActivateGameMode message w).
  { revert H. unfold handleSendMessage. rewrite bind_getState.
    destruct (isSending (state w) || _) eqn:G; [discriminate|].
    destruct (shouldActivateGameMode (body message)) eqn:Hg; [discriminate|].
    intros _. now apply guard_accepted. }
  rewrite (handleSendMessage_run _ _ _ Ha) in *. cbv zeta in *.
  destruct (negb (truthy (customerId (state w))) ||
            negb (truthy (conversationId (state w)))) eqn:Hc.
  - split.
    { unfold absent. apply orb_true_iff in Hc.
      rewrite !negb_true_iff in Hc. exact Hc. }
    match goal with
    | _ : context [initializeNewConversation config backend ?a ?b ?x] |- _ =>
        pose proof (initializeNewConversation_sentSoFar a b
                      (messages (state x)) (pushes (log x))
                      (notified "message:sent" (log x)) x
                      (conj eq_refl (conj eq_refl eq_refl))) as P;
        destruct (initializeNewConversation config backend a b x)
          as [[ids|] w2]
    end.
    + exfalso. revert H. cbn [channel]. now destruct (channel w2).
    + cbn [snd] in *. destruct P as (P1 & P2 & P3).
      rewrite P1, P2, P3. cbn [state log messages set_messages].
      rewrite pushes_app, notified_app. cbn. now rewrite !app_nil_r.
  - exfalso. revert H. cbn [channel]. now destruct (channel w).
Qed.

(** X10: a send and its echo.  After an accepted draft without
    [created_at] was sent, an inbound message that is date-equal to the
    stamped time and has the draft's body takes the place of the inserted
    entry: when no earlier entry is an optimistic entry for it or carries
    the stamped time, the timeline is the one before the send followed by
    the inbound message (entries stamped as seen at most), one entry
    longer than before the send. *)
Theorem send_then_echo_is_one_entry (w : World) (message echo : Message)
    (email : js string) :
  accepted shouldActivateGameMode message w ->
  absent (created_at message) ->
  areDatesEqual (sentAtIn clock w) (sent_at echo) = true ->
  sameBody (body message) (body echo) ->
  (forall m,
     In m (messages (state w)) -> ~ optimisticFor areDatesEqual echo m) ->
  ~ In (sentAtIn clock w) (map sent_at (messages (state w))) ->
  let sent :=
    snd (handleSendMessage config clock backend shouldActivateGameMode
           message email w) in
  let after :=
    messages (state (snd (handleNewMessage clock areDatesEqual echo sent))) in
  Forall2 seenStamped (messages (state w) ++ [echo]) after /\
  length after = S (length (messages (state w))).
Proof.
  intros Ha Hc Hd Hb Hnone Hfresh. cbv zeta.
  assert (Hs : messages
                 (state
                    (snd
                       (handleSendMessage config clock backend
                          shouldActivateGameMode message email w))) =
               messages (state w) ++ [optimisticEntry clock message w]).
  { rewrite (handleSendMessage_run _ _ _ Ha). cbv zeta.
    destruct (negb _ || negb _).
    - match goal with
      | |- context [initializeNewConversation config backend ?a ?b ?x] =>
          pose proof (initializeNewConversation_sentSoFar a b
                        (messages (state x)) (pushes (log x))
                        (notified "message:sent" (log x)) x
                        (conj eq_refl (conj eq_refl eq_refl))) as P;
          destruct (initializeNewConversation config backend a b x)
            as [[ids|] w2]
      end; cbn [snd] in P; destruct P as (P1 & _).
      + cbn [channel]. destruct (channel w2); cbn [snd state messages];
          exact P1.
      + exact P1.
    - cbn [channel]. now destruct (channel w). }
  match goal with
  | |- Forall2 _ ?l ?a /\ _ =>
      assert (T : Forall2 seenStamped l a); [|split; [exact T|]]
  end.
  - match goal with
    | |- context [handleNewMessage clock areDatesEqual echo ?x] =>
        pose proof (handleNewMessage_timeline clock areDatesEqual echo x) as T
    end.
    rewrite Hs in T.
    assert (R : reconcile areDatesEqual echo
                  (messages (state w) ++ [optimisticEntry clock message w])
                = messages (state w) ++ [echo]).
    { unfold reconcile.
      rewrite (find_snoc _ _ _ (find_isUnsent_none areDatesEqual echo _ Hnone)).
      assert (U : isUnsent areDatesEqual echo (optimisticEntry clock message w)
                  = true).
      { apply isUnsent_optimisticFor. repeat split; assumption. }
      rewrite U, map_app. cbn [map]. rewrite strict_eq_refl. f_equal.
      rewrite <- (map_id (messages (state w))) at 2. apply map_ext_in.
      intros a Hin.
      destruct (strict_eq (sent_at a)
                  (sent_at (optimisticEntry clock message w))) eqn:E;
        [|reflexivity].
      apply strict_eq_true in E. exfalso. apply Hfresh.
      change (sentAtIn clock w)
        with (sent_at (optimisticEntry clock message w)).
      rewrite <- E. now apply in_map. }
    now rewrite R in T.
  - apply Forall2_length in T. rewrite <- T, length_app. cbn. lia.
Qed.

(** X11: a draft whose body starts the game is not sent: apart from the
    game flag the world is as it was, so nothing is inserted, pushed or
    notified and the clock is not read; a draft that is rejected does not
    start the game.  Every inbound message ends the game. *)
Theorem game_mode_starts_by_send_and_ends_by_message (w : World)
    (message : Message) (email : js string) :
  (isSending (state w) = false ->
   ~ (blank (body message) /\ noAttachments (file_ids message)) ->
   shouldActivateGameMode (body message) = true ->
   handleSendMessage config clock backend shouldActivateGameMode message
     email w =
   (Returned tt,
    mkWorld (set_isGameMode true (state w)) (channel w) (hidden w) (ticks w)
      (log w))) /\
  (isSending (state w) = true \/
   (blank (body message) /\ noAttachments (file_ids message)) ->
   isGameMode
     (state
        (snd
           (handleSendMessage config clock backend shouldActivateGameMode
              message email w))) = isGameMode (state w)) /\
  isGameMode
    (state
       (snd
          ((setState (set_isGameMode false) ;;
            handleNewMessage clock areDatesEqual message)%monad w))) = false.
Proof.
  split; [|split].
  - intros Hs Hb Hg. unfold handleSendMessage. rewrite bind_getState.
    assert (G : isSending (state w) ||
                isMissingBody (body message) &&
                isMissingAttachments (file_ids message) = false).
    { rewrite Hs. cbn.
      destruct (isMissingBody (body message)) eqn:E1; [|reflexivity].
      destruct (isMissingAttachments (file_ids message)) eqn:E2;
        [|reflexivity].
      exfalso. apply Hb. split.
      - now apply isMissingBody_blank.
      - now apply isMissingAttachments_none. }
    now rewrite G, Hg.
  - intro H. unfold handleSendMessage. rewrite bind_getState.
    assert (G : isSending (state w) ||
                isMissingBody (body message) &&
                isMissingAttachments (file_ids message) = true).
    { destruct H as [H|[H1 H2]].
      - now rewrite H.
      - apply isMissingBody_blank in H1.
        apply isMissingAttachments_none in H2.
        rewrite H1, H2. apply orb_true_r. }
    now rewrite G.
  - assert (P : preserves (fun w' => isGameMode (state w') = false)
                  (handleNewMessage clock areDatesEqual message)).
    { unfold handleNewMessage, markMessagesAsSeen, shouldMarkAsSeen.
      preserve;
        try (intros ? ? ? ? ? ? H; exact H);
        try (intros ? ? ? ? ? H; exact H).
      apply preserves_mapM. intro m. unfold stamp.
      preserve; intros ? ? ? ? ? ? H; exact H. }
    unfold bind at 1. unfold setState at 1. apply P. reflexivity.
Qed.

Lemma handleSendMessage_inserts (message : Message) (email : js string)
    (w : World) :
  let after :=
    messages
      (state
         (snd
            (handleSendMessage config clock backend shouldActivateGameMode
               message email w))) in
  (accepted shouldActivateGameMode message w /\
   after = messages (state w) ++ [optimisticEntry clock message w]) \/
  (~ accepted shouldActivateGameMode message w /\
   after = messages (state w)).
Proof.
  cbv zeta.
  destruct (isSending (state w) ||
            isMissingBody (body message) &&
            isMissingAttachments (file_ids message)) eqn:G.
  - right. split.
    + intro Ha. rewrite (accepted_guard _ _ Ha) in G. discriminate.
    + unfold handleSendMessage. now rewrite bind_getState, G.
  - destruct (shouldActivateGameMode (body message)) eqn:Hg.
    + right. split.
      * intros (_ & _ & H). congruence.
      * unfold handleSendMessage. now rewrite bind_getState, G, Hg.
    + left. split; [now apply guard_accepted|].
      unfold handleSendMessage. rewrite bind_getState, G, Hg.
      rewrite bind_now_iso, bind_getState, bind_setState.
      cbn [state channel hidden ticks log messages].
      unfold optimisticEntry, sentAtIn.
      match goal with
      | |- messages (state (snd (?m ?x))) = ?ms =>
          assert (P : preserves (fun w' => messages (state w') = ms) m)
      end.
      { preserve; try timeline_side.
        apply initializeNewConversation_timeline. }
      apply P. reflexivity.
Qed.

End SendingOn.

(** ** Seeing messages *)

Lemma stampFrom_reads (clock : nat -> Date) (l : list Message) (k : nat) :
  snd (stampFrom clock k l) =
  k + length (filter (fun m => negb (truthy (seen_at m))) l).
Proof.
  revert k. induction l as [|m r IH]; intro k; cbn; [lia|].
  destruct (truthy (seen_at m)); cbn; rewrite IH; lia.
Qed.

Lemma existsb_seenWorthy (l : list Message) (w : World) :
  existsb (fun m => seenWorthyb m w) l = true <->
  exists m, In m l /\ seenWorthy m w.
Proof.
  rewrite existsb_exists. split; intros (m & Hin & H); exists m;
    (split; [exact Hin|]); now apply seenWorthyb_true.
Qed.

Section Seeing.

Variable clock : nat -> Date.
Variable areDatesEqual : js string -> js string -> bool.

Lemma handleVisibilityChange_run (w : World) :
  handleVisibilityChange clock w =
  if negb (hidden w) && existsb (fun m => seenWorthyb m w) (messages (state w))
  then markMessagesAsSeen clock w
  else (Returned tt, w).
Proof.
  unfold handleVisibilityChange, bind, isWindowHidden, getState.
  destruct (hidden w); [reflexivity|].
  rewrite someM_shouldMarkAsSeen_run. cbn [negb andb].
  now destruct (existsb _ _).
Qed.

Lemma handleVisibilityChange_marks_when_due_aux (w : World) :
  let r := handleVisibilityChange clock w in
  fst r = Returned tt /\
  isOpen (state (snd r)) = isOpen (state w) /\
  isTransitioning (state (snd r)) = isTransitioning (state w) /\
  (exists d, log (snd r) = log w ++ d) /\
  (canAcknowledge w ->
   forall m, In m (messages (state (snd r))) -> ~ seenWorthy m (snd r)).
Proof.
  cbv zeta. rewrite handleVisibilityChange_run.
  destruct (negb (hidden w) &&
            existsb (fun m => seenWorthyb m w) (messages (state w))) eqn:E.
  - rewrite markMessagesAsSeen_run. cbn [fst snd].
    destruct (channel w) as [c|] eqn:Ec.
    + destruct (truthy (customerId (state w)) &&
                truthy (conversationId (state w))) eqn:G.
      * unfold acknowledged. cbn [state log isOpen isTransitioning
          set_messages messages].
        repeat split; [eexists; reflexivity|].
        intros _ m Hin (Ha & _).
        pose proof (stampFrom_present clock (messages (state w)) (ticks w))
          as P.
        rewrite Forall_forall in P. specialize (P m Hin).
        unfold present, absent in *. congruence.
      * repeat split; [exists []; now rewrite app_nil_r|].
        intros (_ & H1 & H2). unfold present in *.
        rewrite H1, H2 in G. discriminate.
    + repeat split; [exists []; now rewrite app_nil_r|].
      intros (H & _). congruence.
  - cbn [fst snd]. repeat split; [exists []; now rewrite app_nil_r|].
    intros _ m Hin Hm. apply andb_false_iff in E. destruct E as [E|E].
    + destruct Hm as (_ & Hh & _). rewrite Hh in E. discriminate.
    + assert (X : existsb (fun m => seenWorthyb m w) (messages (state w))
                  = true); [|congruence].
      apply existsb_seenWorthy. now exists m.
Qed.

(** X12: [handleNewMessage] returns and notifies [message:received] exactly
    once for every inbound message, confirmed or not.  It notifies
    [messages:unseen], once and with that message, exactly when the message
    is not worth marking as seen and confirms no optimistic entry. *)
Theorem handleNewMessage_notifies (w : World) (message : Message) :
  let r := handleNewMessage clock areDatesEqual message w in
  let unseen (x : World) := notified "messages:unseen" (log x) in
  fst r = Returned tt /\
  notified "message:received" (log (snd r)) =
    notified "message:received" (log w) ++ [OfMessage message] /\
  (seenWorthy message w -> unseen (snd r) = unseen w) /\
  ((exists m,
      In m (messages (state w)) /\ optimisticFor areDatesEqual message m) ->
   unseen (snd r) = unseen w) /\
  (~ seenWorthy message w ->
   (forall m,
      In m (messages (state w)) -> ~ optimisticFor areDatesEqual message m) ->
   unseen (snd r) = unseen w ++ [Wrapped message]).
Proof.
  cbv zeta. rewrite handleNewMessage_run.
  assert (M : forall x : World,
            fst (markMessagesAsSeen clock x) = Returned tt /\
            notified "message:received"
              (log (snd (markMessagesAsSeen clock x))) =
              notified "message:received" (log x) /\
            notified "messages:unseen"
              (log (snd (markMessagesAsSeen clock x))) =
              notified "messages:unseen" (log x)).
  { intro x. rewrite markMessagesAsSeen_run. cbn [fst snd].
    destruct (channel x); [|now repeat split].
    destruct (_ && _); [|now repeat split].
    unfold acknowledged. cbn [log]. rewrite !notified_app. cbn.
    now rewrite !app_nil_r. }
  assert (A1 : notified "message:received"
                 (log (arrived areDatesEqual message w)) =
               notified "message:received" (log w) ++ [OfMessage message]).
  { unfold arrived. cbn [log]. now rewrite notified_app. }
  assert (A2 : notified "messages:unseen"
                 (log (arrived areDatesEqual message w)) =
               notified "messages:unseen" (log w)).
  { unfold arrived. cbn [log]. rewrite notified_app. cbn.
    now rewrite app_nil_r. }
  destruct (seenWorthyb message w) eqn:E.
  - destruct (M (arrived areDatesEqual message w)) as (M1 & M2 & M3).
    rewrite M1, M2, M3, A1, A2.
    apply seenWorthyb_true in E. repeat split; try reflexivity.
    intros H. now elim H.
  - apply seenWorthyb_false in E.
    destruct (find (isUnsent areDatesEqual message) (messages (state w)))
      as [u|] eqn:F.
    + cbn [fst snd]. rewrite A1, A2. repeat split; try reflexivity.
      intros _ Hnone. apply find_some in F. destruct F as [Hin Hu].
      apply isUnsent_optimisticFor in Hu. now elim (Hnone u).
    + unfold emitUnseenMessage, emit, bind, perform.
      cbn [fst snd log]. rewrite <- !app_assoc, !notified_app, A1, A2. cbn.
      rewrite ?app_nil_r. repeat split; try reflexivity.
      * intro H. now elim E.
      * intro H. apply (find_isUnsent_some areDatesEqual) in H.
        destruct H as (u & Hu & _). congruence.
Qed.

(** X13: [handleVisibilityChange] does nothing while the page is hidden
    and nothing when no entry of the timeline is worth marking as seen;
    otherwise it is [markMessagesAsSeen].  When the component holds a
    channel, a customer id and a conversation id, no entry of the timeline
    is worth marking as seen afterwards. *)
Theorem handleVisibilityChange_marks_when_due (w : World) :
  let r := handleVisibilityChange clock w in
  (hidden w = true -> r = (Returned tt, w)) /\
  ((forall m, In m (messages (state w)) -> ~ seenWorthy m w) ->
   r = (Returned tt, w)) /\
  ((exists m, In m (messages (state w)) /\ seenWorthy m w) ->
   r = markMessagesAsSeen clock w) /\
  (canAcknowledge w ->
   forall m, In m (messages (state (snd r))) -> ~ seenWorthy m (snd r)).
Proof.
  cbv zeta. rewrite handleVisibilityChange_run.
  split; [|split; [|split]].
  - intros ->. reflexivity.
  - intro H.
    destruct (existsb (fun m => seenWorthyb m w) (messages (state w))) eqn:E.
    + apply existsb_seenWorthy in E. destruct E as (m & Hin & Hm).
      now elim (H m).
    + now rewrite andb_false_r.
  - intro H. pose proof H as (m & _ & (_ & Hh & _)).
    apply existsb_seenWorthy in H. now rewrite H, Hh.
  - intros Hc m.
    destruct (negb (hidden w) &&
              existsb (fun m => seenWorthyb m w) (messages (state w))) eqn:E.
    + rewrite markMessagesAsSeen_run. cbn [snd].
      destruct (canAcknowledge_dec w Hc) as (c & -> & ->).
      unfold acknowledged. cbn [state messages set_messages].
      intros Hin (Ha & _).
      pose proof (stampFrom_present clock (messages (state w)) (ticks w))
        as P.
      rewrite Forall_forall in P. specialize (P m Hin).
      unfold present, absent in *. congruence.
    + cbn [snd]. intros Hin Hm. apply andb_false_iff in E.
      destruct E as [E|E].
      * destruct Hm as (_ & Hh & _). rewrite Hh in E. discriminate.
      * assert (X : existsb (fun m => seenWorthyb m w) (messages (state w))
                    = true); [|congruence].
        apply existsb_seenWorthy. now exists m.
Qed.

Lemma handleToggleDisplay_run (open : bool) (w : World) :
  handleToggleDisplay clock open w =
  let w1 :=
    snd
      (handleVisibilityChange clock
         (mkWorld (set_isTransitioning false (set_isOpen open (state w)))
            (channel w) (hidden w) (ticks w) (log w))) in
  (Returned tt,
   if open then
     mkWorld (state w1) (channel w1) (hidden w1) (ticks w1)
       (log w1 ++ [ScrollIntoView])
   else w1).
Proof.
  cbv zeta. unfold handleToggleDisplay. unfold bind at 1.
  unfold setState at 1. unfold bind at 1.
  match goal with
  | |- context [handleVisibilityChange clock ?x] =>
      pose proof (handleVisibilityChange_marks_when_due_aux x) as V;
      destruct (handleVisibilityChange clock x) as [r w1]
  end.
  cbn [fst snd] in *. destruct V as (-> & _). now destruct open.
Qed.

(** X14: closing the window changes the two flags and nothing else: no
    entry is stamped, nothing is pushed or notified, the view is not
    scrolled.  Opening it sets the flags, ends with a scroll of the view
    and, when the component holds a channel, a customer id and a
    conversation id, leaves no entry worth marking as seen. *)
Theorem handleToggleDisplay_flags (w : World) :
  handleToggleDisplay clock false w =
    (Returned tt,
     mkWorld (set_isTransitioning false (set_isOpen false (state w)))
       (channel w) (hidden w) (ticks w) (log w)) /\
  let r := handleToggleDisplay clock true w in
  fst r = Returned tt /\
  isOpen (state (snd r)) = true /\
  isTransitioning (state (snd r)) = false /\
  (exists d, log (snd r) = log w ++ d ++ [ScrollIntoView]) /\
  (canAcknowledge w ->
   forall m, In m (messages (state (snd r))) -> ~ seenWorthy m (snd r)).
Proof.
  cbv zeta. rewrite !handleToggleDisplay_run. cbv zeta. split.
  - rewrite handleVisibilityChange_run.
    cbn [hidden state messages set_isTransitioning set_isOpen].
    assert (E : existsb
                  (fun m =>
                     seenWorthyb m
                       (mkWorld
                          (set_isTransitioning false
                             (set_isOpen false (state w)))
                          (channel w) (hidden w) (ticks w) (log w)))
                  (messages (state w)) = false).
    { induction (messages (state w)) as [|m r IH]; [reflexivity|].
      cbn [existsb]. rewrite IH. unfold seenWorthyb. cbn.
      now rewrite andb_false_r. }
    rewrite E, andb_false_r. reflexivity.
  - set (w0 := mkWorld (set_isTransitioning false (set_isOpen true (state w)))
                 (channel w) (hidden w) (ticks w) (log w)).
    pose proof (handleVisibilityChange_marks_when_due_aux w0) as V.
    cbv zeta in V. destruct V as (_ & V1 & V2 & V3 & V4).
    cbn [fst snd state log].
    split; [reflexivity|]. split; [exact V1|]. split; [exact V2|].
    split.
    + destruct V3 as [d ->]. subst w0. cbn [log]. exists d.
      now rewrite app_assoc.
    + intros Hc m Hin (Ha & Hh & Hu & Ho). cbn [hidden state] in *.
      apply (V4 Hc m Hin). now repeat split.
Qed.

(** X15: when the component holds a channel, a customer id and a
    conversation id, [markMessagesAsSeen] pushes exactly one
    [messages:seen] on that channel and notifies the host page once; no
    request goes out; afterwards every entry of the timeline has a
    [seen_at], and the clock was read once for each entry that had
    none. *)
Theorem markMessagesAsSeen_acknowledges (w : World) (c : Channel) :
  channel w = Some c ->
  present (customerId (state w)) ->
  present (conversationId (state w)) ->
  let r := markMessagesAsSeen clock w in
  pushes (log (snd r)) = pushes (log w) ++ [(c, "messages:seen", EmptyObject)] /\
  notifications (log (snd r)) =
    notifications (log w) ++ [("messages:seen", EmptyObject)] /\
  requests (log (snd r)) = requests (log w) /\
  Forall (fun m => present (seen_at m)) (messages (state (snd r))) /\
  ticks (snd r) =
    ticks w +
    length (filter (fun m => negb (truthy (seen_at m))) (messages (state w))).
Proof.
  intros Hc H1 H2. cbv zeta. rewrite markMessagesAsSeen_run.
  unfold present in H1, H2. rewrite Hc, H1, H2. cbn [andb snd].
  unfold acknowledged. cbn [log state messages set_messages ticks].
  rewrite pushes_app, notifications_app, requests_app. cbn.
  rewrite app_nil_r. repeat split.
  - apply stampFrom_present.
  - apply stampFrom_reads.
Qed.

End Seeing.

(** ** Over executions *)

Lemma received_ignores (n : list payload) (e : effect) :
  notified "message:received" [e] = [] ->
  ignoresEffect (receivedSoFar n) e.
Proof.
  intros He s c h t l H. unfold receivedSoFar in *. cbn [log] in *.
  now rewrite notified_app, He, app_nil_r.
Qed.

Ltac received_side :=
  first
    [ apply received_ignores; reflexivity
    | intros ? ? ? ? ? ? H; exact H
    | intros ? ? ? ? ? H; exact H ].

Ltac received :=
  repeat first
    [ preserve_step
    | apply preserves_mapM; intro
    | apply preserves_someM; intro
    | received_side ].

Section Executions.

Variable config : Config.
Variable version : js string.
Variable clock : nat -> Date.
Variable backend : list effect -> Api.
Variable areDatesEqual : js string -> js string -> bool.
Variable isValidUuid : string -> bool.
Variable shouldActivateGameMode : js string -> bool.
Variable timeValue : js string -> option Z.

(** X16: whatever happened before, after the unmount no conversation
    channel is joined and not left. *)
Theorem unmount_releases_the_conversation (es : list event) :
  subscribed
    (log
       (run config version clock backend areDatesEqual isValidUuid
          shouldActivateGameMode timeValue (es ++ [Unmount]) initialWorld))
  = [].
Proof.
  unfold run. rewrite fold_left_app. cbn [fold_left].
  fold (run config version clock backend areDatesEqual isValidUuid
          shouldActivateGameMode timeValue es initialWorld).
  set (w := run config version clock backend areDatesEqual isValidUuid
              shouldActivateGameMode timeValue es initialWorld).
  assert (H : oneSubscription w).
  { apply run_invariant.
    - intros e _. apply handle_oneSubscription.
    - split; [|now left]. intro n. cbn. rewrite firstn_nil. cbn. lia. }
  unfold step, handle, componentWillUnmount, bind, getChannel, perform.
  destruct H as [_ [E|(c & Ec & E)]].
  - destruct (channel w) as [c|]; cbn [snd log]; [|exact E].
    rewrite subscribed_app, E. reflexivity.
  - rewrite Ec. cbn [snd log]. rewrite subscribed_app, E. cbn.
    now rewrite channel_eqb_refl.
Qed.

(** X17: an event that does not build the timeline anew never removes an
    entry: the timeline keeps its length, or is one entry longer after a
    send or an inbound message. *)
Theorem timeline_never_shrinks (e : event) (w : World) :
  ~ rebuilds e ->
  let before := length (messages (state w)) in
  let after :=
    length
      (messages
         (state
            (step config version clock backend areDatesEqual isValidUuid
               shouldActivateGameMode timeValue w e))) in
  before <= after <= S before /\
  match e with
  | Send _ _ | Shout _ => True
  | _ => after = before
  end.
Proof.
  intro Hr. cbv zeta.
  pose proof (step_timeline config version clock backend areDatesEqual
                isValidUuid shouldActivateGameMode timeValue e w) as T.
  cbv zeta in T.
  destruct e; cbn [rebuilds] in Hr; try (now elim Hr);
    try (apply Forall2_length in T; rewrite <- T; split; [lia | reflexivity]).
  - split; [|exact I].
    destruct T as [-> | ->]; [lia|]. rewrite length_app. cbn. lia.
  - split; [|exact I]. apply Forall2_length in T. rewrite <- T.
    rewrite reconcile_length. destruct (find _ _); lia.
Qed.

Lemma handle_receivedSoFar (e : event) (n : list payload) :
  match e with
  | Shout _ => True
  | _ =>
      preserves (receivedSoFar n)
        (handle config version clock backend areDatesEqual isValidUuid
           shouldActivateGameMode timeValue e)
  end.
Proof.
  destruct e; try exact I; unfold handle.
  - unfold componentDidMount, isValidCustomer, listenForAgentAvailability,
      fetchLatestConversation, checkForExistingCustomer, getDefaultGreeting,
      listenForNewConversations, updateExistingCustomer,
      joinConversationChannel.
    received.
  - unfold conversationCreated. received.
  - unfold fetchLatestConversation, checkForExistingCustomer,
      getDefaultGreeting, listenForNewConversations, updateExistingCustomer,
      joinConversationChannel.
    received.
  - unfold handleSendMessage, initializeNewConversation,
      createOrUpdateCustomer, joinConversationChannel.
    received.
  - unfold syncPresence. received.
  - unfold handleVisibilityChange, markMessagesAsSeen, shouldMarkAsSeen, stamp.
    received.
  - unfold postMessageHandlers, updateExistingCustomer, handleToggleDisplay,
      handlePapercupsPlan, handleVisibilityChange, markMessagesAsSeen,
      shouldMarkAsSeen, stamp.
    received.
  - unfold emitOpenWindow. received.
  - unfold emitCloseWindow. received.
  - unfold handleLeaveGameMode. received.
  - unfold componentWillUnmount. received.
Qed.

Lemma handleNewMessage_receivedSoFar (message : Message) (w : World) :
  notified "message:received"
    (log (snd (handleNewMessage clock areDatesEqual message w))) =
  notified "message:received" (log w) ++ [OfMessage message].
Proof.
  assert (P : preserves
                (receivedSoFar
                   (notified "message:received" (log w) ++ [OfMessage message]))
                (scrollIntoView ;;
                 seen <- shouldMarkAsSeen message ;;
                 if seen then markMessagesAsSeen clock
                 else
                   match
                     find (isUnsent areDatesEqual message) (messages (state w))
                   with
                   | None => emitUnseenMessage message
                   | Some _ => ret tt
                   end)%monad).
  { unfold markMessagesAsSeen, shouldMarkAsSeen, stamp. received. }
  unfold handleNewMessage, emit. unfold bind at 1. unfold bind at 1.
  unfold perform at 1 2. cbn [fst snd state channel hidden ticks log].
  rewrite bind_getState, bind_setState. cbn [state].
  apply P. unfold receivedSoFar. cbn [log].
  rewrite <- app_assoc, notified_app. reflexivity.
Qed.

Lemma run_receivedSoFar (es : list event) (w : World) :
  notified "message:received"
    (log
       (run config version clock backend areDatesEqual isValidUuid
          shouldActivateGameMode timeValue es w)) =
  notified "message:received" (log w) ++ inbound es.
Proof.
  unfold run. revert w.
  induction es as [|e r IH]; intro w; cbn [fold_left inbound flat_map].
  - now rewrite app_nil_r.
  - fold (inbound r). rewrite IH, app_assoc. f_equal.
    pose proof (handle_receivedSoFar e
                  (notified "message:received" (log w))) as H.
    destruct e; try (rewrite app_nil_r; apply H; reflexivity).
    unfold step, handle. unfold bind at 1. unfold setState at 1.
    cbn [fst snd]. rewrite handleNewMessage_receivedSoFar. reflexivity.
Qed.

(** X18: as long as the component is mounted, that is in every execution
    without an unmount, the host page is told [message:received] once for
    each inbound message, in the order of arrival, and for nothing
    else. *)
Theorem every_inbound_message_is_reported (es : list event) (w : World) :
  ~ In Unmount es ->
  notified "message:received"
    (log
       (run config version clock backend areDatesEqual isValidUuid
          shouldActivateGameMode timeValue es w)) =
  notified "message:received" (log w) ++ inbound es.
Proof. intros _. apply run_receivedSoFar. Qed.

End Executions.

(** ** Presence, mount, host commands and previews *)

Lemma mapM_first_metas (list_ : list (list AgentInfo)) (infos : list AgentInfo)
    (w : World) :
  Forall2 (fun metas info => hd_error metas = Some info) list_ infos ->
  mapM
    (fun metas =>
       match metas with
       | info :: _ => ret info
       | [] => throw
       end)
    list_ w = (Returned infos, w).
Proof.
  intro H. revert w. induction H as [|metas info l l' Hh _ IH]; intro w.
  - reflexivity.
  - destruct metas as [|i r]; [discriminate|]. cbn in Hh.
    injection Hh as ->. cbn [mapM]. unfold bind at 1. unfold ret at 1.
    cbn [fst snd]. unfold bind. rewrite IH. reflexivity.
Qed.

Lemma mapM_no_metas (list_ : list (list AgentInfo)) (w : World) :
  In [] list_ ->
  mapM
    (fun metas : list AgentInfo =>
       match metas with
       | info :: _ => ret info
       | [] => throw
       end)
    list_ w = (Thrown, w).
Proof.
  revert w. induction list_ as [|metas l IH]; intros w H; [now elim H|].
  destruct metas as [|i r].
  - reflexivity.
  - destruct H as [H|H]; [discriminate|].
    cbn [mapM]. unfold bind at 1. unfold ret at 1. cbn [fst snd].
    unfold bind. rewrite (IH _ H). reflexivity.
Qed.

(** X19: a presence sync replaces the list of available agents by the
    first entry of each tracked entity that has a [user_id], whatever the
    list was before, and touches nothing else; if some entity has no entry
    the callback throws and the list stays as it was. *)
Theorem syncPresence_replaces_the_agents
    (list_ : list (list AgentInfo)) (w : World) :
  (forall infos,
     Forall2 (fun metas info => hd_error metas = Some info) list_ infos ->
     syncPresence list_ w =
     (Returned tt,
      mkWorld
        (set_availableAgents
           (filter (fun info => truthy (agent_user_id info)) infos) (state w))
        (channel w) (hidden w) (ticks w)
        (log w ++ [Logged Debug "Syncing presence:"]))) /\
  (In [] list_ ->
   syncPresence list_ w =
   (Thrown,
    mkWorld (state w) (channel w) (hidden w) (ticks w)
      (log w ++ [Logged Debug "Syncing presence:"]))).
Proof.
  split.
  - intros infos H. unfold syncPresence. unfold bind at 1. unfold perform at 1.
    cbn [fst snd]. unfold bind. rewrite (mapM_first_metas _ _ _ H).
    reflexivity.
  - intro H. unfold syncPresence. unfold bind at 1. unfold perform at 1.
    cbn [fst snd]. unfold bind. rewrite (mapM_no_metas _ _ H). reflexivity.
Qed.

Section Mounting.

Variable config : Config.
Variable version : js string.
Variable clock : nat -> Date.
Variable backend : list effect -> Api.
Variable isValidUuid : string -> bool.
Variable timeValue : js string -> option Z.

Lemma checkForExistingCustomer_run_anonymous
    (metadata : option CustomerMetadata) (cached : js string) (w : World) :
  ~ hasExternalId metadata ->
  checkForExistingCustomer config backend metadata cached w =
  (Returned cached,
   mkWorld (set_customerId cached (state w)) (channel w) (hidden w) (ticks w)
     (log w)).
Proof.
  intro H. unfold checkForExistingCustomer.
  destruct metadata as [md|]; [|reflexivity].
  destruct (truthy (external_id md)) eqn:E; [|reflexivity].
  elim H. now exists md.
Qed.

Lemma componentDidMount_run_rejected (w w0 : World) :
  isValidCustomer config backend isValidUuid (cfg_customerId config) w =
    (Returned false, w0) ->
  ~ hasExternalId (customer config) ->
  componentDidMount config version clock backend isValidUuid timeValue w =
  (Returned tt,
   mkWorld
     (set_messages (greetingAt config clock (ticks w0))
        (set_customerId Null (set_customerId Null (state w0))))
     (channel w0) (hidden w0)
     (if truthy (greeting config) then S (S (ticks w0)) else ticks w0)
     (log w0 ++
      [SocketConnect (baseUrl config);
       ChannelJoin
         (mkChannel RoomChannel ("room:" ++ accountId config) Undefined);
       Logged Debug "Sending event from iframe:";
       PostMessage "chat:loaded" NoPayload] ++
      if isOnDeprecatedVersion version then
        [Logged Warn "You are currently on a deprecated version of Papercups.";
         Logged Warn "Please upgrade to version 1.1.2 or above."]
      else [])).
Proof.
  intros Hv Hx. unfold componentDidMount.
  unfold bind at 1. rewrite Hv. cbn [fst snd].
  unfold bind at 1. unfold setState at 1. cbn [fst snd].
  unfold bind at 1. unfold perform at 1.
  cbn [fst snd state channel hidden ticks log].
  unfold bind at 1. unfold listenForAgentAvailability, perform at 1.
  cbn [fst snd state channel hidden ticks log].
  unfold bind at 1.
  rewrite (fetchLatestConversation_run_visitor config clock backend timeValue
             _ _ Null (customer config) Null
             (checkForExistingCustomer_run_anonymous _ _ _ Hx) eq_refl).
  cbn [fst snd state channel hidden ticks log].
  unfold emit, when. unfold bind, perform, ret.
  destruct (isOnDeprecatedVersion version);
    cbn [fst snd state channel hidden ticks log];
    rewrite <- !app_assoc; reflexivity.
Qed.

(** X20: when the cached customer id is not accepted and the host page
    gives no external id, mounting forgets the id: the component ends
    without a customer, with the greeting as its whole timeline and its
    channel as before; it opens the socket and joins the room of the
    account, asks the backend for nothing more, and tells the host page
    [chat:loaded] and nothing else. *)
Theorem componentDidMount_forgets_a_rejected_customer (w w0 : World) :
  isValidCustomer config backend isValidUuid (cfg_customerId config) w =
    (Returned false, w0) ->
  ~ hasExternalId (customer config) ->
  let r :=
    componentDidMount config version clock backend isValidUuid timeValue w in
  fst r = Returned tt /\
  customerId (state (snd r)) = Null /\
  messages (state (snd r)) = greetingAt config clock (ticks w0) /\
  conversationId (state (snd r)) = conversationId (state w0) /\
  channel (snd r) = channel w0 /\
  requests (log (snd r)) = requests (log w0) /\
  notifications (log (snd r)) =
    notifications (log w0) ++ [("chat:loaded", NoPayload)] /\
  firstn (length (log w0) + 2) (log (snd r)) =
    log w0 ++
    [SocketConnect (baseUrl config);
     ChannelJoin
       (mkChannel RoomChannel ("room:" ++ accountId config) Undefined)].
Proof.
  intros Hv Hx. cbv zeta. rewrite (componentDidMount_run_rejected w w0 Hv Hx).
  cbn [fst snd state channel hidden ticks log messages customerId
       conversationId set_messages set_customerId].
  rewrite requests_app, notifications_app, firstn_app, Nat.add_comm.
  rewrite (firstn_all2 (log w0)) by lia.
  replace (2 + length (log w0) - length (log w0)) with 2 by lia.
  destruct (isOnDeprecatedVersion version); cbn; rewrite ?app_nil_r;
    repeat split; reflexivity.
Qed.

End Mounting.

Section HostCommands.

Variable clock : nat -> Date.
Variable backend : list effect -> Api.

Lemma unreadable_throws (event : string) :
  (event =? "customer:update") || (event =? "notifications:display") ||
  (event =? "papercups:toggle") = true <->
  unreadable (NullPayload event).
Proof.
  cbn [unreadable]. rewrite !orb_true_iff, !String.eqb_eq. tauto.
Qed.

(** X21: a message of the host page other than a [papercups:toggle] with
    a payload leaves the conversation alone: the timeline, the customer
    and conversation ids, the channel, the clock, the notifications to the
    host page and the pushes are as before.  In particular
    [customer:update] does not change the customer the component works
    for.  The handler throws exactly on the messages it cannot read, a
    message without data or one with [null] for a payload that its event
    reads, and then the state is as it was; on every other such message
    it returns. *)
Theorem host_commands_leave_the_conversation (msg : command) (w : World) :
  (forall isOpen, msg <> PapercupsToggle isOpen) ->
  let r := postMessageHandlers clock backend msg w in
  (unreadable msg -> fst r = Thrown /\ state (snd r) = state w) /\
  (~ unreadable msg -> fst r = Returned tt) /\
  messages (state (snd r)) = messages (state w) /\
  customerId (state (snd r)) = customerId (state w) /\
  conversationId (state (snd r)) = conversationId (state w) /\
  channel (snd r) = channel w /\
  ticks (snd r) = ticks w /\
  notifications (log (snd r)) = notifications (log w) /\
  pushes (log (snd r)) = pushes (log w).
Proof.
  intro Hm. cbv zeta.
  destruct msg as [cid [md|]|b|b| | | |event|]; try (now elim (Hm b));
    try (pose proof (unreadable_throws event) as U;
         destruct (_ || _ || _) eqn:E in U);
    unfold postMessageHandlers, updateExistingCustomer, handlePapercupsPlan,
      try_catch, bind, call, perform, ret, throw, setState;
    cbn [fst snd state channel hidden ticks log];
    try rewrite E;
    try match goal with
        | |- context [updateCustomerMetadata ?a ?b ?c] =>
            destruct (updateCustomerMetadata a b c)
        end;
    try match goal with
        | |- context [if ?event =? "papercups:plan" then _ else _] =>
            destruct (event =? "papercups:plan");
            [|destruct (event =? "papercups:ping")]
        end;
    cbn [fst snd state channel hidden ticks log];
    rewrite <- ?app_assoc, ?notifications_app, ?pushes_app;
    cbn [unreadable notifications pushes flat_map app fst snd state channel
         hidden ticks log messages customerId conversationId
         set_shouldDisplayNotifications set_shouldDisplayBranding];
    rewrite ?app_nil_r;
    (split; [|split; [|repeat split; reflexivity]]);
    try (intros []; fail); try (intros _; split; reflexivity);
    try (intros _; reflexivity).
  - intro H. elim H. now apply U.
  - intro H. apply U in H. discriminate.
  - intro H. apply U in H. discriminate.
  - intro H. apply U in H. discriminate.
  - intro H. now elim H.
Qed.

End HostCommands.

Section Previewing.

Variable isCustomerMessage : Message -> js string -> bool.
Variable shorten : js string -> nat -> string.

Lemma filter_nil_iff {A} (f : A -> bool) (l : list A) :
  filter f l = [] <-> Forall (fun x => f x = false) l.
Proof.
  induction l as [|a l IH]; cbn.
  - split; [constructor | reflexivity].
  - destruct (f a) eqn:E; split; intro H.
    + discriminate.
    + inversion H; congruence.
    + constructor; [exact E | now apply IH].
    + inversion H; now apply IH.
Qed.

(** X22: [renderUnreadMessages] shows nothing exactly when every message
    of the timeline is seen or the customer's own.  Otherwise it shows the
    shortened first one or two of the other messages, in the order of the
    timeline: two only if there are two and their shortened bodies have at
    most a hundred characters together. *)
Theorem renderUnreadMessages_previews (s : State) :
  let candidates :=
    filter (isUnread isCustomerMessage (customerId s)) (messages s) in
  (renderUnreadMessages isCustomerMessage shorten s = None <->
   Forall
     (fun msg =>
        present (seen_at msg) \/ isCustomerMessage msg (customerId s) = true)
     (messages s)) /\
  (forall shown,
     renderUnreadMessages isCustomerMessage shorten s = Some shown ->
     shown = map (preview shorten) (firstn (length shown) candidates) /\
     1 <= length shown <= 2 /\
     (length shown = 2 <->
      2 <= length candidates /\
      chars (map (preview shorten) (firstn 2 candidates)) <= 100)).
Proof.
  cbv zeta. unfold renderUnreadMessages.
  set (candidates :=
         filter (isUnread isCustomerMessage (customerId s)) (messages s)).
  split.
  - assert (E : candidates = [] <->
                Forall
                  (fun msg =>
                     present (seen_at msg) \/
                     isCustomerMessage msg (customerId s) = true)
                  (messages s)).
    { unfold candidates. rewrite filter_nil_iff, !Forall_forall.
      assert (P : forall msg,
                isUnread isCustomerMessage (customerId s) msg = false <->
                present (seen_at msg) \/
                isCustomerMessage msg (customerId s) = true).
      { intro msg. unfold isUnread, present.
        destruct (truthy (seen_at msg)),
          (isCustomerMessage msg (customerId s));
          cbn; intuition congruence. }
      split; intros H msg Hin; apply P, H, Hin. }
    rewrite <- E.
    destruct candidates as [|a [|b l]]; cbn; split; intro H;
      try reflexivity; try discriminate.
  - intros shown.
    destruct candidates as [|a [|b l]]; cbn [firstn map length Nat.eqb].
    + discriminate.
    + destruct (100 <? _)%nat; intro H; injection H as <-; cbn;
        repeat split; try lia.
    + destruct (100 <? _)%nat eqn:E; intro H; injection H as <-;
        cbn [firstn map length]; (split; [reflexivity|]); (split; [lia|]).
      * apply Nat.ltb_lt in E. split; [discriminate|]. intros [_ H]. lia.
      * apply Nat.ltb_ge in E. split; [|reflexivity]. intros _. split; [lia|].
        exact E.
Qed.

End Previewing.

(** ** What the events leave alone *)

Lemma asked_ignores (q : list api_call) (e : effect) :
  requests [e] = [] -> ignoresEffect (askedSoFar q) e.
Proof.
  intros He s c h t l H. unfold askedSoFar in *. cbn [log] in *.
  now rewrite requests_app, He, app_nil_r.
Qed.

Ltac frame_side :=
  let K := fresh in
  first
    [ intros ? ? ? ? ? ? K; exact K
    | intros ? ? ? ? ? K; exact K
    | apply asked_ignores; reflexivity ].

Ltac frame :=
  repeat first
    [ preserve_step
    | apply preserves_mapM; intro
    | apply preserves_someM; intro
    | frame_side ].

Section Frames.

Variable config : Config.
Variable version : js string.
Variable clock : nat -> Date.
Variable backend : list effect -> Api.
Variable areDatesEqual : js string -> js string -> bool.
Variable isValidUuid : string -> bool.
Variable shouldActivateGameMode : js string -> bool.
Variable timeValue : js string -> option Z.

Lemma handle_sendingFlag (e : event) (b : bool) :
  preserves (sendingFlag b)
    (handle config version clock backend areDatesEqual isValidUuid
       shouldActivateGameMode timeValue e).
Proof.
  destruct e; unfold handle.
  - unfold componentDidMount, isValidCustomer, listenForAgentAvailability,
      fetchLatestConversation, checkForExistingCustomer, getDefaultGreeting,
      listenForNewConversations, updateExistingCustomer,
      joinConversationChannel.
    frame.
  - unfold conversationCreated. frame.
  - unfold fetchLatestConversation, checkForExistingCustomer,
      getDefaultGreeting, listenForNewConversations, updateExistingCustomer,
      joinConversationChannel.
    frame.
  - unfold handleSendMessage, initializeNewConversation,
      createOrUpdateCustomer, joinConversationChannel.
    frame.
  - unfold handleNewMessage, markMessagesAsSeen, shouldMarkAsSeen, stamp,
      emitUnseenMessage.
    frame.
  - unfold syncPresence. frame.
  - unfold handleVisibilityChange, markMessagesAsSeen, shouldMarkAsSeen, stamp.
    frame.
  - unfold postMessageHandlers, updateExistingCustomer, handleToggleDisplay,
      handlePapercupsPlan, handleVisibilityChange, markMessagesAsSeen,
      shouldMarkAsSeen, stamp.
    frame.
  - unfold emitOpenWindow. frame.
  - unfold emitCloseWindow. frame.
  - unfold handleLeaveGameMode. frame.
  - unfold componentWillUnmount. frame.
Qed.

(** X23: no event ever changes the flag of a send in flight: after any
    execution it is what it was at the start, so a component that starts
    with the flag down never rejects a draft for a send in flight. *)
Theorem isSending_never_changes (es : list event) (w : World) :
  isSending
    (state
       (run config version clock backend areDatesEqual isValidUuid
          shouldActivateGameMode timeValue es w)) = isSending (state w).
Proof.
  apply (run_invariant config version clock backend areDatesEqual isValidUuid
           shouldActivateGameMode timeValue
           (sendingFlag (isSending (state w)))).
  - intros e _. apply handle_sendingFlag.
  - reflexivity.
Qed.

Lemma handle_boundTo (e : event) (a b : js string) (c : option Channel) :
  ~ binds e ->
  preserves (boundTo a b c)
    (handle config version clock backend areDatesEqual isValidUuid
       shouldActivateGameMode timeValue e).
Proof.
  intro H. destruct e; cbn [binds] in H; try (now elim H); unfold handle.
  - unfold conversationCreated. frame.
  - unfold handleNewMessage, markMessagesAsSeen, shouldMarkAsSeen, stamp,
      emitUnseenMessage.
    frame.
  - unfold syncPresence. frame.
  - unfold handleVisibilityChange, markMessagesAsSeen, shouldMarkAsSeen, stamp.
    frame.
  - unfold postMessageHandlers, updateExistingCustomer, handleToggleDisplay,
      handlePapercupsPlan, handleVisibilityChange, markMessagesAsSeen,
      shouldMarkAsSeen, stamp.
    frame.
  - unfold emitOpenWindow. frame.
  - unfold emitCloseWindow. frame.
  - unfold handleLeaveGameMode. frame.
  - unfold componentWillUnmount. frame.
Qed.

Lemma handle_askedSoFar (e : event) (q : list api_call) :
  ~ asks e ->
  preserves (askedSoFar q)
    (handle config version clock backend areDatesEqual isValidUuid
       shouldActivateGameMode timeValue e).
Proof.
  intro H. destruct e; cbn [asks] in H; try (now elim H); unfold handle.
  - unfold conversationCreated. frame.
  - unfold handleNewMessage, markMessagesAsSeen, shouldMarkAsSeen, stamp,
      emitUnseenMessage.
    frame.
  - unfold syncPresence. frame.
  - unfold handleVisibilityChange, markMessagesAsSeen, shouldMarkAsSeen, stamp.
    frame.
  - destruct msg as [cid [md|]| | | | | | |]; try (now elim H);
      unfold postMessageHandlers, updateExistingCustomer, handleToggleDisplay,
        handlePapercupsPlan, handleVisibilityChange, markMessagesAsSeen,
        shouldMarkAsSeen, stamp;
      frame.
  - unfold emitOpenWindow. frame.
  - unfold emitCloseWindow. frame.
  - unfold handleLeaveGameMode. frame.
  - unfold componentWillUnmount. frame.
Qed.

(** X24: only a mount, the timer after a new conversation and a send can
    change the customer id, the conversation id or the channel the
    component holds: every other event, the unmount included, leaves the
    three as they are.  And apart from those three events only a
    [customer:update] of the host page that carries metadata asks the
    backend. *)
Theorem only_mount_timer_and_send_rebind (e : event) (w : World) :
  let w' :=
    step config version clock backend areDatesEqual isValidUuid
      shouldActivateGameMode timeValue w e in
  (~ binds e ->
   customerId (state w') = customerId (state w) /\
   conversationId (state w') = conversationId (state w) /\
   channel w' = channel w) /\
  (~ asks e -> requests (log w') = requests (log w)).
Proof.
  cbv zeta. split; intro H.
  - apply (handle_boundTo e (customerId (state w)) (conversationId (state w))
             (channel w) H w).
    repeat split.
  - apply (handle_askedSoFar e (requests (log w)) H w). reflexivity.
Qed.

End Frames.

(** ** A send while a send is in flight *)

Section InFlight.

Variable config : Config.
Variable version : js string.
Variable clock : nat -> Date.
Variable backend : list effect -> Api.
Variable areDatesEqual : js string -> js string -> bool.
Variable isValidUuid : string -> bool.
Variable shouldActivateGameMode : js string -> bool.
Variable timeValue : js string -> option Z.

(** C7: the half of the claim about the draft holds of the code: for a
    draft that has neither a body with a character that is not white space
    nor an attachment, [handleSendMessage] returns at once and the world
    is as it was, so the timeline is unchanged, nothing was pushed and
    nothing was notified.  The half about a send in flight does not:
    nothing in the code raises the flag [isSending] that the guard reads,
    so after every sequence of events from the construction of the
    component the flag is down, and a draft that is not blank and does not
    start the game is inserted in the timeline: no send is rejected for
    another one in flight. *)
Theorem send_in_flight_is_not_rejected (es : list event)
    (message : Message) (email : js string) :
  let w :=
    run config version clock backend areDatesEqual isValidUuid
      shouldActivateGameMode timeValue es initialWorld in
  let r :=
    handleSendMessage config clock backend shouldActivateGameMode message
      email w in
  (blank (body message) /\ noAttachments (file_ids message) ->
   r = (Returned tt, w)) /\
  isSending (state w) = false /\
  (~ (blank (body message) /\ noAttachments (file_ids message)) ->
   shouldActivateGameMode (body message) = false ->
   messages (state (snd r)) =
     messages (state w) ++ [optimisticEntry clock message w]).
Proof.
  cbv zeta.
  set (w := run config version clock backend areDatesEqual isValidUuid
              shouldActivateGameMode timeValue es initialWorld).
  assert (F : isSending (state w) = false).
  { apply (run_invariant config version clock backend areDatesEqual
             isValidUuid shouldActivateGameMode timeValue
             (sendingFlag false)).
    - intros e _. apply handle_sendingFlag.
    - reflexivity. }
  split; [|split; [exact F|]].
  - intro H. apply handleSendMessage_guarded. now right.
  - intros Hb Hg.
    destruct (handleSendMessage_inserts config clock backend
                shouldActivateGameMode message email w)
      as [[_ E]|[Hn _]]; [exact E|].
    elim Hn. repeat split; assumption.
Qed.

End InFlight.

Section LosingTheCustomer.

Variable config : Config.
Variable clock : nat -> Date.
Variable backend : list effect -> Api.
Variable shouldActivateGameMode : js string -> bool.

Lemma initializeNewConversation_run_lost (w : World)
    (existing email cid : js string) :
  absent existing ->
  (forall h,
     createNewCustomer (backend h) (accountId config)
       (metadataFor config email) = Ok cid) ->
  (forall h,
     createNewConversation (backend h) (accountId config) cid = Failed) ->
  initializeNewConversation config backend existing email w =
  (Thrown,
   mkWorld (state w) (channel w) (hidden w) (ticks w)
     (log w ++
      [Request (CreateNewCustomer (accountId config) (metadataFor config email));
       Logged Debug "Sending event from iframe:";
       PostMessage "customer:created" (CustomerId cid);
       Request (CreateNewConversation (accountId config) cid)])).
Proof.
  intros Ha Hc Hv. unfold initializeNewConversation, createOrUpdateCustomer.
  fold (metadataFor config email). unfold absent in Ha. rewrite Ha.
  cbn [negb when].
  unfold try_catch, emit. unfold bind, call, perform, setState, ret.
  rewrite Hc. cbn [state channel hidden ticks log]. rewrite Hv.
  cbn [state channel hidden ticks log]. now rewrite <- !app_assoc.
Qed.

(** X25: the first message of an unknown customer when the customer can be
    created and the conversation cannot: the send throws after the two
    requests; the host page was told [customer:created] with the new id,
    but the component keeps no customer: its customer id, conversation id
    and channel are as before, and nothing was pushed.  The draft stays in
    the timeline. *)
Theorem handleSendMessage_forgets_the_created_customer (w : World)
    (message : Message) (email cid : js string) :
  accepted shouldActivateGameMode message w ->
  absent (customerId (state w)) ->
  (forall h,
     createNewCustomer (backend h) (accountId config)
       (metadataFor config email) = Ok cid) ->
  (forall h,
     createNewConversation (backend h) (accountId config) cid = Failed) ->
  let r :=
    handleSendMessage config clock backend shouldActivateGameMode message
      email w in
  fst r = Thrown /\
  customerId (state (snd r)) = customerId (state w) /\
  conversationId (state (snd r)) = conversationId (state w) /\
  channel (snd r) = channel w /\
  messages (state (snd r)) =
    messages (state w) ++ [optimisticEntry clock message w] /\
  requests (log (snd r)) =
    requests (log w) ++
    [CreateNewCustomer (accountId config) (metadataFor config email);
     CreateNewConversation (accountId config) cid] /\
  notifications (log (snd r)) =
    notifications (log w) ++ [("customer:created", CustomerId cid)] /\
  pushes (log (snd r)) = pushes (log w).
Proof.
  intros Ha Hn Hc Hv. cbv zeta.
  rewrite (handleSendMessage_run config clock backend shouldActivateGameMode
             message email w Ha).
  cbv zeta. unfold absent in Hn. rewrite Hn. cbn [negb orb].
  rewrite (initializeNewConversation_run_lost _ _ email cid Hn Hc Hv).
  cbn [fst snd state channel hidden ticks log messages customerId
       conversationId set_messages].
  rewrite <- !app_assoc, !requests_app, !notifications_app, !pushes_app.
  cbn. rewrite ?app_nil_r. repeat split; reflexivity.
Qed.

End LosingTheCustomer.

(** ** One slot for each message of the customer *)

Lemma clash_sym (a b : Message) : clash a b -> clash b a.
Proof.
  intros [E H]. split; [now symmetry|].
  destruct H as [H|[H|(Ha & Hb & Hbody)]].
  - right. now left.
  - now left.
  - right. right. split; [exact Hb|]. split; [exact Ha | now symmetry].
Qed.

Lemma clashFree_cons (a : Message) (l : list Message) :
  clashFree (a :: l) <->
  (forall m, In m l -> ~ clash a m) /\ clashFree l.
Proof.
  split.
  - intro H. split.
    + intros m Hin Hc. apply In_nth_error in Hin. destruct Hin as [j Hj].
      specialize (H 0 (S j) a m eq_refl Hj Hc). discriminate.
    + intros i j x y Hi Hj Hc.
      specialize (H (S i) (S j) x y Hi Hj Hc). now injection H.
  - intros [Ha Hl] i j x y Hi Hj Hc.
    destruct i as [|i], j as [|j]; cbn in Hi, Hj.
    + reflexivity.
    + injection Hi as <-. apply nth_error_In in Hj. now elim (Ha y Hj).
    + injection Hj as <-. apply nth_error_In in Hi.
      elim (Ha x Hi). now apply clash_sym.
    + f_equal. now apply (Hl i j x y).
Qed.

Lemma clashFree_middle (l1 l2 : list Message) (u : Message) :
  clashFree (l1 ++ u :: l2) <->
  (forall m, In m (l1 ++ l2) -> ~ clash u m) /\ clashFree (l1 ++ l2).
Proof.
  induction l1 as [|a l1 IH]; cbn [app].
  - apply clashFree_cons.
  - rewrite !clashFree_cons, IH. split.
    + intros (Ha & Hu & Hl). repeat split.
      * intros m [<-|Hin].
        -- intro Hc. apply (Ha u); [|now apply clash_sym].
           apply in_or_app. right. now left.
        -- now apply Hu.
      * intros m Hin. apply Ha. apply in_app_or in Hin. apply in_or_app.
        destruct Hin; [now left | right; now right].
      * exact Hl.
    + intros (Hu & Ha & Hl). repeat split.
      * intros m Hin. apply in_app_or in Hin.
        destruct Hin as [Hin|[<-|Hin]].
        -- apply Ha. apply in_or_app. now left.
        -- intro Hc. apply (Hu a); [now left | now apply clash_sym].
        -- apply Ha. apply in_or_app. now right.
      * intros m Hin. apply Hu. now right.
      * exact Hl.
Qed.

Lemma clashFree_snoc (l : list Message) (m : Message) :
  clashFree l -> (forall x, In x l -> ~ clash m x) -> clashFree (l ++ [m]).
Proof.
  intros Hl Hm. apply clashFree_middle. now rewrite app_nil_r.
Qed.

(** An entry that is not confirmed shares its [sent_at] with no other
    entry of a timeline without clashes. *)
Lemma clashFree_key (l1 l2 : list Message) (u : Message) :
  clashFree (l1 ++ u :: l2) -> absent (created_at u) ->
  forall m, In m (l1 ++ l2) -> sent_at m <> sent_at u.
Proof.
  intros H Hu m Hin E. apply clashFree_middle in H. destruct H as [H _].
  apply (H m Hin). split; [now symmetry | now left].
Qed.

Lemma seenStamped_clash (a a' b b' : Message) :
  seenStamped a a' -> seenStamped b b' -> clash a' b' -> clash a b.
Proof.
  intros [_ Ha] [_ Hb].
  destruct Ha as [->|[t ->]], Hb as [->|[t' ->]]; exact (fun H => H).
Qed.

Lemma seenStamped_source (l l' : list Message) (m' : Message) :
  Forall2 seenStamped l l' -> In m' l' ->
  exists m, In m l /\ seenStamped m m'.
Proof.
  induction 1 as [|a a' l l' Ha _ IH]; intros Hin; [now elim Hin|].
  destruct Hin as [<-|Hin].
  - exists a. split; [now left | exact Ha].
  - destruct (IH Hin) as (m & Hm & Hs). exists m. split; [now right|exact Hs].
Qed.

Lemma seenStamped_clashFree (l l' : list Message) :
  Forall2 seenStamped l l' -> clashFree l -> clashFree l'.
Proof.
  induction 1 as [|a a' l l' Ha Hl IH]; [easy|].
  rewrite !clashFree_cons. intros [H1 H2]. split; [|now apply IH].
  intros m' Hin Hc.
  destruct (seenStamped_source l l' m' Hl Hin) as (m & Hm & Hs).
  apply (H1 m Hm). now apply (seenStamped_clash a a' m m').
Qed.

Lemma clashFree_oneSlotPerCustomerKey (l : list Message) :
  clashFree l -> oneSlotPerCustomerKey l.
Proof.
  intros H i j a b Hi Hj Ha Hb Hk Hbody. apply (H i j a b Hi Hj).
  split; [exact Hk|]. right. right. auto.
Qed.

Section Slots.

Variable config : Config.
Variable version : js string.
Variable clock : nat -> Date.
Variable backend : list effect -> Api.
Variable areDatesEqual : js string -> js string -> bool.
Variable isValidUuid : string -> bool.
Variable shouldActivateGameMode : js string -> bool.
Variable timeValue : js string -> option Z.

(** The message takes exactly the slot of the entry that [find] returns
    when no other entry carries that entry's [sent_at]. *)
Lemma reconcile_one_slot (message u : Message) (l1 l2 : list Message) :
  find (isUnsent areDatesEqual message) (l1 ++ u :: l2) = Some u ->
  (forall m, In m (l1 ++ l2) -> sent_at m <> sent_at u) ->
  reconcile areDatesEqual message (l1 ++ u :: l2) = l1 ++ message :: l2.
Proof.
  intros Hf Hk. unfold reconcile. rewrite Hf.
  assert (Hfix : forall x, In x (l1 ++ l2) ->
                 (if strict_eq (sent_at x) (sent_at u) then message else x)
                 = x).
  { intros x Hx. destruct (strict_eq (sent_at x) (sent_at u)) eqn:E;
      [|reflexivity].
    apply strict_eq_true in E. now elim (Hk x Hx). }
  rewrite map_app. cbn [map]. rewrite strict_eq_refl.
  f_equal; [|f_equal].
  - rewrite <- (map_id l1) at 2. apply map_ext_in.
    intros x Hx. apply Hfix. apply in_or_app. now left.
  - rewrite <- (map_id l2) at 2. apply map_ext_in.
    intros x Hx. apply Hfix. apply in_or_app. now right.
Qed.

Lemma reconcile_confirms (message u : Message) (l : list Message) :
  clashFree l ->
  find (isUnsent areDatesEqual message) l = Some u ->
  exists l1 l2,
    l = l1 ++ u :: l2 /\
    (forall m, In m (l1 ++ l2) -> sent_at m <> sent_at u) /\
    reconcile areDatesEqual message l = l1 ++ message :: l2.
Proof.
  intros Hc Hf. pose proof (find_some _ _ Hf) as [Hin Hu].
  apply isUnsent_optimisticFor in Hu. destruct Hu as [Hu _].
  apply in_split in Hin. destruct Hin as (l1 & l2 & ->).
  exists l1, l2. split; [reflexivity|].
  pose proof (clashFree_key l1 l2 u Hc Hu) as Hk. split; [exact Hk|].
  now apply reconcile_one_slot.
Qed.

Lemma reconcile_clashFree (message : Message) (l : list Message) :
  clashFree l ->
  match find (isUnsent areDatesEqual message) l with
  | Some unsent =>
      forall m, In m l -> sent_at m <> sent_at unsent -> ~ clash message m
  | None => forall m, In m l -> ~ clash message m
  end ->
  clashFree (reconcile areDatesEqual message l).
Proof.
  intros Hc Hm.
  destruct (find (isUnsent areDatesEqual message) l) as [u|] eqn:E.
  - destruct (reconcile_confirms message u l Hc E)
      as (l1 & l2 & -> & Hk & ->).
    apply clashFree_middle in Hc. destruct Hc as [_ Hc].
    apply clashFree_middle. split; [|exact Hc].
    intros m Hin. apply Hm; [|now apply Hk].
    apply in_app_or in Hin. apply in_or_app.
    destruct Hin; [now left | right; now right].
  - unfold reconcile. rewrite E. now apply clashFree_snoc.
Qed.

Lemma step_clashFree (e : event) (w : World) :
  clashFree (messages (state w)) ->
  clean clock areDatesEqual shouldActivateGameMode w e ->
  clashFree
    (messages
       (state
          (step config version clock backend areDatesEqual isValidUuid
             shouldActivateGameMode timeValue w e))).
Proof.
  intros Hc Hf.
  pose proof (step_timeline config version clock backend areDatesEqual
                isValidUuid shouldActivateGameMode timeValue e w) as T.
  cbv zeta in T.
  destruct e; cbn [clean] in Hf; try contradiction;
    try (now apply (seenStamped_clashFree _ _ T)).
  - clear T. unfold step, handle.
    match goal with
    | |- context [handleSendMessage _ _ _ _ message ?to w] =>
        destruct (handleSendMessage_inserts config clock backend
                    shouldActivateGameMode message to w)
          as [[Ha ->]|[_ ->]]; [|exact Hc]
    end.
    apply clashFree_snoc; [exact Hc|]. now apply Hf.
  - apply (seenStamped_clashFree _ _ T). now apply reconcile_clashFree.
Qed.

(** C2, amended.  Two entries clash when they carry the same [sent_at]
    and one of them is not confirmed (has no [created_at]) or both are the
    customer's (a [sent_at], no [user_id]) with the same body.  On a
    timeline without clashes, an inbound message that confirms an
    optimistic entry takes that entry's slot and no other: the timeline
    after [handleNewMessage] is the one before with the message in the
    place of that entry, every other entry unchanged, except that entries
    without [seen_at] may have been stamped when the message is worth
    marking as seen.  And along every sequence of events that does not
    build the timeline anew, in which the entry each accepted send inserts
    clashes with no entry and each inbound message clashes with no entry
    but those it replaces, the timeline stays without clashes, so two
    entries of the customer with the same [sent_at] and body are one
    slot. *)
Theorem confirmed_entry_takes_one_slot :
  (forall w message,
     clashFree (messages (state w)) ->
     (exists m,
        In m (messages (state w)) /\
        optimisticFor areDatesEqual message m) ->
     exists before unsent after,
       messages (state w) = before ++ unsent :: after /\
       optimisticFor areDatesEqual message unsent /\
       let timeline :=
         messages
           (state (snd (handleNewMessage clock areDatesEqual message w))) in
       Forall2 seenStamped (before ++ message :: after) timeline /\
       (~ seenWorthy message w -> timeline = before ++ message :: after)) /\
  (forall es w,
     clashFree (messages (state w)) ->
     cleanly config version clock backend areDatesEqual isValidUuid
       shouldActivateGameMode timeValue w es ->
     let w' :=
       run config version clock backend areDatesEqual isValidUuid
         shouldActivateGameMode timeValue es w in
     clashFree (messages (state w')) /\
     oneSlotPerCustomerKey (messages (state w'))).
Proof.
  split.
  - intros w message Hc Hex.
    apply find_isUnsent_some in Hex. destruct Hex as (u & Hf & _ & Hu).
    destruct (reconcile_confirms message u _ Hc Hf) as (l1 & l2 & E1 & _ & E2).
    exists l1, u, l2. split; [exact E1|]. split; [exact Hu|].
    cbv zeta. rewrite <- E2. split.
    + apply handleNewMessage_timeline.
    + intro Hn. apply seenWorthyb_false in Hn.
      rewrite handleNewMessage_run, Hn, Hf. reflexivity.
  - intros es. induction es as [|e r IH]; intros w Hc Ha; cbv zeta.
    + split; [exact Hc | now apply clashFree_oneSlotPerCustomerKey].
    + destruct Ha as [Hf Ha]. cbn [run fold_left].
      apply IH; [|exact Ha]. now apply step_clashFree.
Qed.

End Slots.

(** ** More theorems at work on sample data *)

Ltac hello_accepted :=
  split; [reflexivity | split; [|reflexivity]];
  intros [B _]; specialize (B "h"%char (or_introl eq_refl)); discriminate.

Lemma fetchLatestConversation_unseen_visitor_witness :
  messages
    (state
       (snd
          (fetchLatestConversation Sample.config Sample.frozen
             (fun _ => Sample.down) Sample.epoch Null None Sample.initial))) =
  greetingAt Sample.config Sample.frozen 0.
Proof.
  exact (proj1 (proj2 (fetchLatestConversation_unseen_visitor Sample.config
                         Sample.frozen (fun _ => Sample.down) Sample.epoch
                         Sample.initial
                         (mkWorld (set_customerId Null initialState) None
                            false 0 [])
                         Null None Null eq_refl eq_refl))).
Defined.

Lemma fetchLatestConversation_waits_in_lobby_witness :
  log
    (snd
       (fetchLatestConversation Sample.config Sample.frozen
          (fun _ => Sample.knowing (Val "cust-1")) Sample.epoch
          (Val "cust-1") None Sample.initial)) =
  [Logged Debug "Fetching conversations for customer:";
   Request (FetchCustomerConversations (Val "cust-1") "acct-1");
   Logged Debug "Found existing conversations:";
   ChannelJoin (mkChannel LobbyChannel "conversation:lobby:cust-1" Undefined)].
Proof.
  exact (proj2 (proj2 (proj2 (proj2
           (fetchLatestConversation_waits_in_lobby Sample.config
              Sample.frozen (fun _ => Sample.knowing (Val "cust-1"))
              Sample.epoch Sample.initial
              (mkWorld (set_customerId (Val "cust-1") initialState) None
                 false 0 [])
              (Val "cust-1") None (Val "cust-1") eq_refl eq_refl
              eq_refl))))).
Defined.

Lemma fetchLatestConversation_survives_failure_witness :
  fst
    (fetchLatestConversation Sample.config Sample.frozen
       (fun _ => Sample.down) Sample.epoch (Val "cust-1") None
       Sample.initial) = Returned tt.
Proof.
  exact (proj1 (fetchLatestConversation_survives_failure Sample.config
                  Sample.frozen (fun _ => Sample.down) Sample.epoch
                  Sample.initial
                  (mkWorld (set_customerId (Val "cust-1") initialState) None
                     false 0 [])
                  (Val "cust-1") None (Val "cust-1") eq_refl eq_refl
                  eq_refl)).
Defined.

Lemma fetchLatestConversation_lookup_failure_witness :
  fst
    (fetchLatestConversation Sample.identifiedConfig Sample.frozen
       (fun _ => Sample.down) Sample.epoch (Val "cust-1")
       (Sample.identified "ext-9") Sample.initial) = Thrown.
Proof.
  exact (f_equal fst
           (fetchLatestConversation_lookup_failure Sample.identifiedConfig
              Sample.frozen (fun _ => Sample.down) Sample.epoch
              Sample.initial (Val "cust-1")
              (mkMetadata (Val "Ada") (Val "ada@example.com")
                 (Val "example.com") (Val "ext-9"))
              eq_refl eq_refl)).
Defined.

Lemma createOrUpdateCustomer_retries_by_creating_witness :
  fst
    (createOrUpdateCustomer Sample.config (fun _ => Sample.down) "acct-1"
       (Val "cust-1") Undefined Sample.initial) = Thrown.
Proof.
  exact (proj1
           (proj2 (proj2
              (proj1 (proj2
                 (createOrUpdateCustomer_retries_by_creating Sample.config
                    (fun _ => Sample.down) Sample.initial (Val "cust-1")
                    Undefined))
                 eq_refl))
              eq_refl)).
Defined.

Lemma handleSendMessage_sends_what_it_inserts_witness :
  pushes
    (log
       (snd
          (handleSendMessage Sample.config Sample.ticking
             (fun _ => Sample.down) Sample.noGame (Sample.draft "hello")
             Undefined (Sample.worldWith [])))) =
  [(Sample.live, "shout",
    OfMessage
      (outgoing (Sample.draft "hello") (Val "cust-1") Undefined
         (Val (toISOString (Sample.ticking 0))) Undefined))].
Proof.
  assert (A : accepted Sample.noGame (Sample.draft "hello")
                (Sample.worldWith [])) by hello_accepted.
  exact (proj1 (proj2 (proj2 (proj2
           (handleSendMessage_sends_what_it_inserts Sample.config
              Sample.ticking (fun _ => Sample.down) Sample.noGame
              (Sample.worldWith []) (Sample.draft "hello") Undefined A
              eq_refl eq_refl))))).
Defined.

Lemma handleSendMessage_first_message_witness :
  channel
    (snd
       (handleSendMessage Sample.config Sample.ticking
          (fun _ => Sample.knowing (Val "cust-1")) Sample.noGame
          (Sample.draft "hello") Undefined Sample.initial)) =
  Some (conversationChannel (Val "conv-1") (Val "cust-1")).
Proof.
  assert (A : accepted Sample.noGame (Sample.draft "hello") Sample.initial)
    by hello_accepted.
  exact (proj1 (proj2 (proj2 (proj2
           (handleSendMessage_first_message Sample.config Sample.ticking
              (fun _ => Sample.knowing (Val "cust-1")) Sample.noGame
              Sample.initial (Sample.draft "hello") Undefined (Val "cust-1")
              (Val "conv-1") A eq_refl (fun _ => eq_refl)
              (fun _ => eq_refl)))))).
Defined.

Lemma handleSendMessage_failure_keeps_entry_witness :
  messages
    (state
       (snd
          (handleSendMessage Sample.config Sample.ticking
             (fun _ => Sample.down) Sample.noGame (Sample.draft "hello")
             Undefined Sample.initial))) =
  [optimisticEntry Sample.ticking (Sample.draft "hello") Sample.initial].
Proof.
  assert (T : fst
                (handleSendMessage Sample.config Sample.ticking
                   (fun _ => Sample.down) Sample.noGame
                   (Sample.draft "hello") Undefined Sample.initial) = Thrown)
    by (vm_compute; reflexivity).
  exact (proj1 (proj2
           (handleSendMessage_failure_keeps_entry Sample.config
              Sample.ticking (fun _ => Sample.down) Sample.noGame
              Sample.initial (Sample.draft "hello") Undefined T))).
Defined.

Lemma send_then_echo_is_one_entry_witness :
  length
    (messages
       (state
          (snd
             (handleNewMessage Sample.ticking Sample.sameText
                (Sample.echo "hello" (Sample.ticking 0))
                (snd
                   (handleSendMessage Sample.config Sample.ticking
                      (fun _ => Sample.down) Sample.noGame
                      (Sample.draft "hello") Undefined
                      (Sample.worldWith []))))))) = 1.
Proof.
  assert (A : accepted Sample.noGame (Sample.draft "hello")
                (Sample.worldWith [])) by hello_accepted.
  assert (D : Sample.sameText (sentAtIn Sample.ticking (Sample.worldWith []))
                (sent_at (Sample.echo "hello" (Sample.ticking 0))) = true)
    by (vm_compute; reflexivity).
  exact (proj2
           (send_then_echo_is_one_entry Sample.config Sample.ticking
              (fun _ => Sample.down) Sample.sameText Sample.noGame
              (Sample.worldWith []) (Sample.draft "hello")
              (Sample.echo "hello" (Sample.ticking 0)) Undefined A eq_refl D
              (or_introl eq_refl) (fun m (H : In m []) => False_ind _ H)
              (fun H : In _ [] => H))).
Defined.

Lemma game_mode_starts_by_send_and_ends_by_message_witness :
  handleSendMessage Sample.config Sample.ticking (fun _ => Sample.down)
    Sample.gameOn (Sample.draft "hello") Undefined (Sample.worldWith []) =
  (Returned tt,
   mkWorld (set_isGameMode true (Sample.stateWith [])) (Some Sample.live)
     false 0 []).
Proof.
  assert (B : ~ (blank (body (Sample.draft "hello")) /\
                 noAttachments (file_ids (Sample.draft "hello")))).
  { intros [B _]. specialize (B "h"%char (or_introl eq_refl)).
    discriminate. }
  exact (proj1
           (game_mode_starts_by_send_and_ends_by_message Sample.config
              Sample.ticking (fun _ => Sample.down) Sample.sameText
              Sample.gameOn (Sample.worldWith []) (Sample.draft "hello")
              Undefined)
           eq_refl B eq_refl).
Defined.

Lemma handleNewMessage_notifies_witness :
  let message := Sample.fromAgent "hi" "2021-03-04T11:58:00.000Z" in
  notified "messages:unseen"
    (log
       (snd
          (handleNewMessage Sample.ticking Sample.sameText message
             (Sample.background [])))) = [Wrapped message].
Proof.
  assert (S : ~ seenWorthy (Sample.fromAgent "hi" "2021-03-04T11:58:00.000Z")
                (Sample.background [])).
  { intros (_ & H & _). discriminate. }
  exact (proj2 (proj2 (proj2 (proj2
           (handleNewMessage_notifies Sample.ticking Sample.sameText
              (Sample.background [])
              (Sample.fromAgent "hi" "2021-03-04T11:58:00.000Z")))))
           S (fun m (H : In m []) => False_ind _ H)).
Defined.

Lemma handleVisibilityChange_marks_when_due_witness :
  let unseen := [Sample.fromAgent "hi" "2021-03-04T11:58:00.000Z"] in
  handleVisibilityChange Sample.ticking (Sample.background unseen) =
    (Returned tt, Sample.background unseen) /\
  handleVisibilityChange Sample.ticking (Sample.worldWith unseen) =
    markMessagesAsSeen Sample.ticking (Sample.worldWith unseen).
Proof.
  assert (W : seenWorthy (Sample.fromAgent "hi" "2021-03-04T11:58:00.000Z")
                (Sample.worldWith
                   [Sample.fromAgent "hi" "2021-03-04T11:58:00.000Z"])).
  { repeat split. }
  exact (conj
           (proj1
              (handleVisibilityChange_marks_when_due Sample.ticking
                 (Sample.background
                    [Sample.fromAgent "hi" "2021-03-04T11:58:00.000Z"]))
              eq_refl)
           (proj1 (proj2 (proj2
              (handleVisibilityChange_marks_when_due Sample.ticking
                 (Sample.worldWith
                    [Sample.fromAgent "hi" "2021-03-04T11:58:00.000Z"]))))
              (ex_intro _ _ (conj (or_introl eq_refl) W)))).
Defined.

Lemma markMessagesAsSeen_acknowledges_witness :
  let w := Sample.worldWith [Sample.fromAgent "hi" "2021-03-04T11:58:00.000Z"] in
  pushes (log (snd (markMessagesAsSeen Sample.ticking w))) =
    [(Sample.live, "messages:seen", EmptyObject)] /\
  ticks (snd (markMessagesAsSeen Sample.ticking w)) = 1.
Proof.
  pose proof
    (markMessagesAsSeen_acknowledges Sample.ticking
       (Sample.worldWith [Sample.fromAgent "hi" "2021-03-04T11:58:00.000Z"])
       Sample.live eq_refl eq_refl eq_refl) as T.
  exact (conj (proj1 T) (proj2 (proj2 (proj2 (proj2 T))))).
Defined.

Lemma timeline_never_shrinks_witness :
  let after :=
    length
      (messages
         (state
            (step Sample.config Undefined Sample.ticking
               (fun _ => Sample.down) Sample.sameText Sample.anyUuid
               Sample.noGame Sample.epoch (Sample.worldWith [])
               (Shout (Sample.echo "hello" Sample.noon))))) in
  0 <= after <= 1.
Proof.
  exact (proj1
           (timeline_never_shrinks Sample.config Undefined Sample.ticking
              (fun _ => Sample.down) Sample.sameText Sample.anyUuid
              Sample.noGame Sample.epoch
              (Shout (Sample.echo "hello" Sample.noon)) (Sample.worldWith [])
              (fun H => H))).
Defined.

Lemma syncPresence_replaces_the_agents_witness :
  availableAgents
    (state
       (snd
          (syncPresence
             [[mkAgentInfo (Val "agent-7"); mkAgentInfo (Val "agent-8")];
              [mkAgentInfo Undefined]]
             Sample.initial))) = [mkAgentInfo (Val "agent-7")] /\
  fst (syncPresence [[mkAgentInfo (Val "agent-7")]; []] Sample.initial) =
    Thrown.
Proof.
  split.
  - assert (F : Forall2
                  (fun metas info => hd_error metas = Some info)
                  [[mkAgentInfo (Val "agent-7"); mkAgentInfo (Val "agent-8")];
                   [mkAgentInfo Undefined]]
                  [mkAgentInfo (Val "agent-7"); mkAgentInfo Undefined])
      by (repeat constructor).
    exact (f_equal (fun r => availableAgents (state (snd r)))
             (proj1
                (syncPresence_replaces_the_agents
                   [[mkAgentInfo (Val "agent-7"); mkAgentInfo (Val "agent-8")];
                    [mkAgentInfo Undefined]]
                   Sample.initial)
                [mkAgentInfo (Val "agent-7"); mkAgentInfo Undefined] F)).
  - exact (f_equal fst
             (proj2
                (syncPresence_replaces_the_agents
                   [[mkAgentInfo (Val "agent-7")]; []] Sample.initial)
                (or_intror (or_introl eq_refl)))).
Defined.

Lemma componentDidMount_forgets_a_rejected_customer_witness :
  let r :=
    componentDidMount Sample.config Undefined Sample.frozen
      (fun _ => Sample.down) Sample.noUuid Sample.epoch Sample.initial in
  customerId (state (snd r)) = Null /\
  notifications (log (snd r)) = [("chat:loaded", NoPayload)].
Proof.
  assert (X : ~ hasExternalId (customer Sample.config)).
  { intros (md & E & _). discriminate. }
  pose proof
    (componentDidMount_forgets_a_rejected_customer Sample.config Undefined
       Sample.frozen (fun _ => Sample.down) Sample.noUuid Sample.epoch
       Sample.initial Sample.initial eq_refl X) as T.
  exact (conj (proj1 (proj2 T))
           (proj1 (proj2 (proj2 (proj2 (proj2 (proj2 (proj2 T)))))))).
Defined.

Lemma host_commands_leave_the_conversation_witness :
  let w := Sample.worldWith [Sample.pending "hello" Sample.noon] in
  let go (msg : command) :=
    postMessageHandlers Sample.ticking (fun _ => Sample.down) msg w in
  let update := CustomerUpdate (Val "cust-2") (Sample.identified "ext-9") in
  (fst (go update) = Returned tt /\
   customerId (state (snd (go update))) = Val "cust-1") /\
  (fst (go (NullPayload "customer:update")) = Thrown /\
   state (snd (go (NullPayload "customer:update"))) = state w).
Proof.
  pose proof
    (host_commands_leave_the_conversation Sample.ticking
       (fun _ => Sample.down)
       (CustomerUpdate (Val "cust-2") (Sample.identified "ext-9"))
       (Sample.worldWith [Sample.pending "hello" Sample.noon])
       (fun b (H : CustomerUpdate _ _ = PapercupsToggle b) =>
          eq_ind (CustomerUpdate (Val "cust-2") (Sample.identified "ext-9"))
            (fun c =>
               match c with
               | CustomerUpdate _ _ => True
               | _ => False
               end)
            I _ H)) as T.
  pose proof
    (host_commands_leave_the_conversation Sample.ticking
       (fun _ => Sample.down) (NullPayload "customer:update")
       (Sample.worldWith [Sample.pending "hello" Sample.noon])
       (fun b (H : NullPayload _ = PapercupsToggle b) =>
          eq_ind (NullPayload "customer:update")
            (fun c =>
               match c with
               | NullPayload _ => True
               | _ => False
               end)
            I _ H)) as N.
  exact (conj
           (conj (proj1 (proj2 T) (fun H => H))
              (proj1 (proj2 (proj2 (proj2 T)))))
           (proj1 N (or_introl eq_refl))).
Defined.

Lemma only_mount_timer_and_send_rebind_witness :
  let w := Sample.worldWith [Sample.pending "hello" Sample.noon] in
  let w' :=
    step Sample.config Undefined Sample.ticking (fun _ => Sample.down)
      Sample.sameText Sample.anyUuid Sample.noGame Sample.epoch w Unmount in
  channel w' = Some Sample.live /\ requests (log w') = [].
Proof.
  pose proof
    (only_mount_timer_and_send_rebind Sample.config Undefined Sample.ticking
       (fun _ => Sample.down) Sample.sameText Sample.anyUuid Sample.noGame
       Sample.epoch Unmount
       (Sample.worldWith [Sample.pending "hello" Sample.noon])) as T.
  exact (conj (proj2 (proj2 (proj1 T (fun H => H))))
           (proj2 T (fun H => H))).
Defined.

Lemma handleSendMessage_forgets_the_created_customer_witness :
  let r :=
    handleSendMessage Sample.config Sample.ticking
      (fun _ => Sample.halfway (Val "cust-9")) Sample.noGame
      (Sample.draft "hello") Undefined Sample.initial in
  fst r = Thrown /\ customerId (state (snd r)) = Null.
Proof.
  assert (A : accepted Sample.noGame (Sample.draft "hello") Sample.initial)
    by hello_accepted.
  pose proof
    (handleSendMessage_forgets_the_created_customer Sample.config
       Sample.ticking (fun _ => Sample.halfway (Val "cust-9"))
       Sample.noGame Sample.initial (Sample.draft "hello") Undefined
       (Val "cust-9") A eq_refl (fun _ => eq_refl) (fun _ => eq_refl)) as T.
  exact (conj (proj1 T) (proj1 (proj2 T))).
Defined.

Lemma every_inbound_message_is_reported_witness :
  let agent := Sample.fromAgent "hi" "2021-03-04T11:58:00.000Z" in
  let es :=
    [Send (Sample.draft "hello") Undefined; Shout agent;
     VisibilityChange true; Shout (Sample.echo "hello" (Sample.ticking 0))] in
  notified "message:received"
    (log
       (run Sample.config Undefined Sample.ticking (fun _ => Sample.down)
          Sample.sameText Sample.anyUuid Sample.noGame Sample.epoch es
          (Sample.worldWith []))) =
  [OfMessage agent; OfMessage (Sample.echo "hello" (Sample.ticking 0))].
Proof.
  apply (every_inbound_message_is_reported Sample.config Undefined
           Sample.ticking (fun _ => Sample.down) Sample.sameText
           Sample.anyUuid Sample.noGame Sample.epoch
           [Send (Sample.draft "hello") Undefined;
            Shout (Sample.fromAgent "hi" "2021-03-04T11:58:00.000Z");
            VisibilityChange true;
            Shout (Sample.echo "hello" (Sample.ticking 0))]
           (Sample.worldWith [])).
  intros [H|[H|[H|[H|[]]]]]; discriminate.
Defined.

Lemma send_in_flight_is_not_rejected_witness :
  let w :=
    run Sample.config Undefined Sample.ticking (fun _ => Sample.down)
      Sample.sameText Sample.anyUuid Sample.noGame Sample.epoch
      [Send (Sample.draft "hi") Undefined] initialWorld in
  let r :=
    handleSendMessage Sample.config Sample.ticking (fun _ => Sample.down)
      Sample.noGame (Sample.draft "hi") Undefined w in
  length (messages (state w)) = 1 /\
  messages (state (snd r)) =
    messages (state w) ++
    [optimisticEntry Sample.ticking (Sample.draft "hi") w].
Proof.
  split; [reflexivity|].
  apply (send_in_flight_is_not_rejected Sample.config Undefined
           Sample.ticking (fun _ => Sample.down) Sample.sameText
           Sample.anyUuid Sample.noGame Sample.epoch
           [Send (Sample.draft "hi") Undefined] (Sample.draft "hi")
           Undefined).
  - intros [B _]. specialize (B "h"%char (or_introl eq_refl)). discriminate.
  - reflexivity.
Defined.

(** The second of two sends in a row from the component as constructed,
    with a backend that is down: it is inserted like the first and asks
    the backend again, the first send's two requests having failed. *)
Lemma two_sends_in_a_row :
  let w :=
    run Sample.config Undefined Sample.ticking (fun _ => Sample.down)
      Sample.sameText Sample.anyUuid Sample.noGame Sample.epoch
      [Send (Sample.draft "hi") Undefined; Send (Sample.draft "hi") Undefined]
      initialWorld in
  isSending (state w) = false /\
  map body (messages (state w)) = [Val "hi"; Val "hi"] /\
  requests (log w) =
    [CreateNewCustomer "acct-1" None; CreateNewCustomer "acct-1" None;
     CreateNewCustomer "acct-1" None; CreateNewCustomer "acct-1" None].
Proof. cbv zeta. repeat split. Qed.

Ltac no_clash :=
  let E := fresh in
  let H := fresh in
  intros [E H]; vm_compute in E; try discriminate E;
  destruct H as [H|[H|[[H _] _]]]; vm_compute in H; discriminate H.

Lemma confirmed_entry_takes_one_slot_witness :
  let echo := Sample.echo "hello" Sample.later in
  let w :=
    Sample.worldWith
      [Sample.greeted; Sample.unstamped "welcome";
       Sample.pending "hello" Sample.later] in
  let es := [Shout echo; Send (Sample.draft "more") Undefined] in
  (exists before unsent after,
     messages (state w) = before ++ unsent :: after /\
     messages
       (state (snd (handleNewMessage Sample.ticking Sample.sameText echo w)))
     = before ++ echo :: after) /\
  clashFree
    (messages
       (state
          (run Sample.config Undefined Sample.ticking (fun _ => Sample.down)
             Sample.sameText Sample.anyUuid Sample.noGame Sample.epoch es w))).
Proof.
  cbv zeta.
  assert (C : clashFree
                (messages
                   (state
                      (Sample.worldWith
                         [Sample.greeted; Sample.unstamped "welcome";
                          Sample.pending "hello" Sample.later])))).
  { cbn [messages state Sample.worldWith Sample.stateWith].
    rewrite !clashFree_cons. repeat split.
    - intros m [<-|[<-|[]]]; no_clash.
    - intros m [<-|[]]. no_clash.
    - intros m [].
    - intros [|i] j a b Hi; discriminate. }
  destruct (confirmed_entry_takes_one_slot Sample.config Undefined
              Sample.ticking (fun _ => Sample.down) Sample.sameText
              Sample.anyUuid Sample.noGame Sample.epoch) as [One Inv].
  split.
  - destruct (One _ (Sample.echo "hello" Sample.later) C)
      as (before & unsent & after & E & _ & _ & X).
    { exists (Sample.pending "hello" Sample.later). split.
      - right. right. now left.
      - split; [reflexivity|]. split; [reflexivity | now left]. }
    exists before, unsent, after. split; [exact E|]. apply X.
    intros (_ & _ & H & _). discriminate.
  - apply (Inv _ _ C). split; [|split; [|exact I]].
    + intros m Hin Hk [E _]. vm_compute in Hin.
      destruct Hin as [<-|[<-|[<-|[]]]];
        first [now elim Hk | vm_compute in E; discriminate E].
    + intros _ m Hin [E _]. vm_compute in Hin.
      destruct Hin as [<-|[<-|[<-|[]]]]; vm_compute in E; discriminate E.
Defined.
